(** * Uber receipt report: receipt parser and report renderer

    A shallow embedding of [data/uber_loader.py] and of the data-handling
    part of [pdf/uber_builder.py], together with the properties the
    specification states about them.

    Conventions of the embedding.
    - A Python [str] is a list of Unicode code points ([list N]).
    - A Python [float] is an IEEE-754 binary64 value, [spec_float] with
      precision 53 and maximal exponent 1024.
    - A Python call that may raise lives in the [result] monad; [None] is
      [option]'s [None].
    - [unicodedata], [str.lower], [\s] and [\d] are fixed on ASCII by the
      definitions below; outside ASCII they are read from a [unicode_db],
      which every definition and theorem takes as a parameter. *)

From Stdlib Require Import ZArith NArith Lia String Ascii.
From Stdlib Require Import Floats.SpecFloat.
From stdpp Require Import base option list gmap sorting.

Local Open Scope N_scope.

(* ===================================================================== *)
(** ** Strings as code points *)
(* ===================================================================== *)

Module Str.

(** Decoder of the UTF-8 bytes of a literal of this file into code
    points, so that statements can quote the receipts' text. *)
Fixpoint utf8 (bs : list N) : list N :=
  match bs with
  | [] => []
  | b :: r =>
      if b <? 128 then b :: utf8 r
      else if b <? 224 then
        match r with
        | b1 :: r1 => ((b - 192) * 64 + (b1 - 128)) :: utf8 r1
        | _ => []
        end
      else if b <? 240 then
        match r with
        | b1 :: b2 :: r2 =>
            ((b - 224) * 4096 + (b1 - 128) * 64 + (b2 - 128)) :: utf8 r2
        | _ => []
        end
      else
        match r with
        | b1 :: b2 :: b3 :: r3 =>
            ((b - 240) * 262144 + (b1 - 128) * 4096
             + (b2 - 128) * 64 + (b3 - 128)) :: utf8 r3
        | _ => []
        end
  end.

Fixpoint bytes (s : string) : list N :=
  match s with
  | EmptyString => []
  | String a r => N_of_ascii a :: bytes r
  end.

Definition u (s : string) : list N := utf8 (bytes s).

(** Python's [str] comparison: lexicographic on code points. *)
Fixpoint ltb (a b : list N) : bool :=
  match a, b with
  | [], [] => false
  | [], _ :: _ => true
  | _ :: _, [] => false
  | x :: a', y :: b' =>
      if x <? y then true else if y <? x then false else ltb a' b'
  end.

Definition leb (a b : list N) : bool := negb (ltb b a).

Definition eqb (a b : list N) : bool := bool_decide (a = b).

(** [s.startswith(p)] *)
Fixpoint startswith (p s : list N) : bool :=
  match p, s with
  | [], _ => true
  | _ :: _, [] => false
  | x :: p', y :: s' => (x =? y) && startswith p' s'
  end.

(** [p in s] *)
Fixpoint contains (p s : list N) : bool :=
  startswith p s ||
  match s with
  | [] => false
  | _ :: s' => contains p s'
  end.

(** [s.replace(c, r)] for a one-character [c]. *)
Definition replace1 (c : N) (r : list N) (s : list N) : list N :=
  flat_map (fun x => if x =? c then r else [x]) s.

(** [sep.join(parts)] *)
Fixpoint join (sep : list N) (parts : list (list N)) : list N :=
  match parts with
  | [] => []
  | [p] => p
  | p :: rest => p ++ sep ++ join sep rest
  end.

(** [s.lstrip(chars)], [s.rstrip(chars)] and [s.strip(chars)] for a
    predicate on characters. *)
Fixpoint lstrip (p : N -> bool) (s : list N) : list N :=
  match s with
  | c :: r => if p c then lstrip p r else s
  | [] => []
  end.

Definition rstrip (p : N -> bool) (s : list N) : list N :=
  rev (lstrip p (rev s)).

Definition strip (p : N -> bool) (s : list N) : list N :=
  rstrip p (lstrip p s).

(** [s.zfill(width)] *)
Definition zfill (width : nat) (s : list N) : list N :=
  let pad := repeat 48 (width - length s) in
  match s with
  | c :: r => if (c =? 43) || (c =? 45) then c :: pad ++ r else pad ++ s
  | [] => pad
  end.

(** [str(n)] for a natural number, and its two-digit form [%02d]. *)
Definition digit (n : N) : N := 48 + n mod 10.

Fixpoint decimal_fuel (fuel : nat) (n : N) (acc : list N) : list N :=
  match fuel with
  | O => acc
  | S f =>
      if n <? 10 then digit n :: acc
      else decimal_fuel f (n / 10) (digit n :: acc)
  end.

Definition decimal (n : N) : list N :=
  decimal_fuel (S (N.to_nat (N.log2 n))) n [].

Definition two_digits (n : N) : list N := zfill 2 (decimal n).

End Str.

Notation "'U' s" := (Str.u s) (at level 9, s at level 0, only parsing).


(* ===================================================================== *)
(** ** The Python library the program calls *)
(* ===================================================================== *)

(** The part of the Unicode character database the program consults
    (through [unicodedata], [str.lower], [str.strip] and the classes [\s]
    and [\d] of [re]).  Only code points outside ASCII are looked up in
    it. *)
Record unicode_db := {
  u_nfkd : list N -> list N;       (* unicodedata.normalize("NFKD", s) *)
  u_combining : N -> bool;         (* unicodedata.combining(c) != 0 *)
  u_lower : list N -> list N;      (* s.lower() *)
  u_isspace : N -> bool;           (* c.isspace(), the class \s *)
  u_decimal : N -> option N;       (* the class \d, with the digit's value *)
}.

(** Exceptions of the calls the parser makes, and computations that may
    raise.  [OutOfFuel] is not a Python outcome: it is what a [while] loop
    of the embedding answers when its iteration bound was too small. *)
Inductive exn := IndexError | ValueError.

Inductive result (A : Type) :=
  | Ok (a : A)
  | Raise (e : exn)
  | OutOfFuel.
Arguments Ok {A} a.
Arguments Raise {A} e.
Arguments OutOfFuel {A}.

#[global] Instance result_ret : MRet result := @Ok.
#[global] Instance result_bind : MBind result :=
  fun A B f m =>
    match m with Ok a => f a | Raise e => Raise e | OutOfFuel => OutOfFuel end.

#[global] Instance result_fmap : FMap result :=
  fun A B f m =>
    match m with
    | Ok a => Ok (f a)
    | Raise e => Raise e
    | OutOfFuel => OutOfFuel
    end.

(** [try: m  except Exception: h] *)
Definition try_except {A} (m : result A) (h : result A) : result A :=
  match m with Ok a => Ok a | Raise _ => h | OutOfFuel => OutOfFuel end.

Module Py.

Definition is_ascii (c : N) : bool := c <? 128.

Definition ascii_lower (c : N) : N :=
  if (65 <=? c) && (c <=? 90) then c + 32 else c.

Definition is_ascii_digit (c : N) : bool := (48 <=? c) && (c <=? 57).

Definition is_ascii_letter (c : N) : bool :=
  (65 <=? c) && (c <=? 90) || (97 <=? c) && (c <=? 122).

Section WithDb.
Context (db : unicode_db).

Definition isspace (c : N) : bool :=
  if is_ascii c
  then (9 <=? c) && (c <=? 13) || (28 <=? c) && (c <=? 32)
  else u_isspace db c.

Definition decimal_value (c : N) : option N :=
  if is_ascii c
  then (if is_ascii_digit c then Some (c - 48) else None)
  else u_decimal db c.

Definition isdecimal (c : N) : bool :=
  match decimal_value c with Some _ => true | None => false end.

Definition lower (s : list N) : list N :=
  if forallb is_ascii s then map ascii_lower s else u_lower db s.

Definition nfkd (s : list N) : list N :=
  if forallb is_ascii s then s else u_nfkd db s.

Definition combining (c : N) : bool :=
  if is_ascii c then false else u_combining db c.

(** [re.sub(r"\s+", " ", s)]: [in_run] tells that the previous
    character belonged to the run being replaced. *)
Fixpoint sub_spaces (in_run : bool) (s : list N) : list N :=
  match s with
  | [] => []
  | c :: r =>
      if isspace c
      then (if in_run then sub_spaces true r else 32 :: sub_spaces true r)
      else c :: sub_spaces false r
  end.

(** [s.strip()] *)
Definition strip (s : list N) : list N := Str.strip isspace s.

End WithDb.

(** [l[i]] for [0 <= i]. *)
Definition index {A} (l : list A) (i : nat) : result A :=
  match l !! i with
  | Some x => Ok x
  | None => Raise IndexError
  end.

(** [x or d] on an optional string: [None] and the empty string are
    falsy. *)
Definition or_str (x : option (list N)) (d : list N) : list N :=
  match x with
  | Some (c :: s) => c :: s
  | _ => d
  end.

End Py.


(** A [unicode_db] for the Latin-1 letters of Portuguese text, and the facts
    about the real database that the examples with accented text rely
    on. *)
Module Unicode.

(** Canonical decompositions of the letters U+00C0..U+00FF: base letter
    and combining mark. *)
Definition decompositions : gmap N (list N) :=
  list_to_map
    [ (192, [65; 768]); (193, [65; 769]); (194, [65; 770]);
      (195, [65; 771]); (196, [65; 776]); (197, [65; 778]);
      (199, [67; 807]); (200, [69; 768]); (201, [69; 769]);
      (202, [69; 770]); (203, [69; 776]); (204, [73; 768]);
      (205, [73; 769]); (206, [73; 770]); (207, [73; 776]);
      (209, [78; 771]); (210, [79; 768]); (211, [79; 769]);
      (212, [79; 770]); (213, [79; 771]); (214, [79; 776]);
      (217, [85; 768]); (218, [85; 769]); (219, [85; 770]);
      (220, [85; 776]); (221, [89; 769]); (224, [97; 768]);
      (225, [97; 769]); (226, [97; 770]); (227, [97; 771]);
      (228, [97; 776]); (229, [97; 778]); (231, [99; 807]);
      (232, [101; 768]); (233, [101; 769]); (234, [101; 770]);
      (235, [101; 776]); (236, [105; 768]); (237, [105; 769]);
      (238, [105; 770]); (239, [105; 776]); (241, [110; 771]);
      (242, [111; 768]); (243, [111; 769]); (244, [111; 770]);
      (245, [111; 771]); (246, [111; 776]); (249, [117; 768]);
      (250, [117; 769]); (251, [117; 770]); (252, [117; 776]);
      (253, [121; 769]); (255, [121; 776]) ].

Definition decompose (c : N) : list N := default [c] (decompositions !! c).

(** The combining marks of those decompositions: grave, acute,
    circumflex, tilde, diaeresis, ring and cedilla. *)
Definition is_mark (c : N) : bool :=
  bool_decide (c ∈ [768; 769; 770; 771; 776; 778; 807]).

Definition is_latin1_text (c : N) : bool :=
  Py.is_ascii c || (192 <=? c) && (c <=? 255).

Definition latin1_lower (c : N) : N :=
  if (192 <=? c) && (c <=? 222) && negb (c =? 215) then c + 32
  else Py.ascii_lower c.

Definition latin1 : unicode_db := {|
  u_nfkd := flat_map decompose;
  u_combining := is_mark;
  u_lower := map latin1_lower;
  u_isspace := fun c => (c =? 133) || (c =? 160);
  u_decimal := fun _ => None;
|}.

(** What the examples assume of a database: text of ASCII and Latin-1
    letters decomposes letter by letter, and the marks are combining. *)
Record agrees (db : unicode_db) : Prop := {
  nfkd_latin1 : forall s,
    forallb is_latin1_text s = true -> u_nfkd db s = flat_map decompose s;
  combining_mark : forall c, is_mark c = true -> u_combining db c = true;
}.

End Unicode.

(* ===================================================================== *)
(** ** Floats: binary64 *)
(* ===================================================================== *)

Module Float.

Definition prec : Z := 53.
Definition emax : Z := 1024.

(** The binary64 value nearest to [(-1)^sx * n / d], ties to even: the
    quotient is taken with more bits than the format keeps, and the
    position of the remainder tells the rounding which way to go. *)
Definition of_ratio (sx : bool) (n : N) (d : positive) : spec_float :=
  match n with
  | N0 => S754_zero sx
  | Npos p =>
      let s := Z.max 1076 (Z.pos (digits2_pos d) - Z.pos (digits2_pos p) + 56) in
      let num := (Z.pos p * 2 ^ s)%Z in
      let q := (num / Z.pos d)%Z in
      let r := (num mod Z.pos d)%Z in
      let loc := if (r =? 0)%Z then loc_Exact
                 else loc_Inexact (Z.compare (2 * r) (Z.pos d)) in
      binary_round_aux prec emax sx q (- s) loc
  end.

(** Value of a string of ASCII digits read in base ten. *)
Definition digits_value (s : list N) : N :=
  fold_left (fun acc c => acc * 10 + (c - 48)) s 0.

(** Longest prefix of [s] whose characters satisfy [p], and the rest. *)
Fixpoint span (p : N -> bool) (s : list N) : list N * list N :=
  match s with
  | c :: r =>
      if p c then let '(a, b) := span p r in (c :: a, b) else ([], s)
  | [] => ([], [])
  end.

(** [float(s)] for a string [s] made of the characters [0-9], [.], [-]
    and [+], the only ones [_parse_currency] hands to it: an optional
    sign, then digits with at most one point and at least one digit.
    The result is the correctly rounded value, as CPython computes it;
    anything else raises [ValueError]. *)
Definition of_str (s : list N) : result spec_float :=
  let '(sx, body) :=
    match s with
    | 45 :: r => (true, r)
    | 43 :: r => (false, r)
    | _ => (false, s)
    end in
  let '(ip, rest) := span Py.is_ascii_digit body in
  match rest with
  | [] =>
      match ip with
      | [] => Raise ValueError
      | _ => Ok (of_ratio sx (digits_value ip) 1)
      end
  | 46 :: fr =>
      if forallb Py.is_ascii_digit fr
         && negb (bool_decide (ip = []) && bool_decide (fr = []))
      then Ok (of_ratio sx (digits_value (ip ++ fr))
                        (Z.to_pos (10 ^ Z.of_nat (length fr))))
      else Raise ValueError
  | _ => Raise ValueError
  end.

(** Python's truth value of a float: zeros are falsy. *)
Definition truthy (x : spec_float) : bool :=
  match x with S754_zero _ => false | _ => true end.

Definition zero : spec_float := S754_zero false.

(** [x or 0.0] on an optional float. *)
Definition or_zero (x : option spec_float) : spec_float :=
  match x with
  | Some v => if truthy v then v else zero
  | None => zero
  end.

Definition add (x y : spec_float) : spec_float := SFadd prec emax x y.

Definition round_half_even (num den : Z) : Z :=
  let q := (num / den)%Z in
  match Z.compare (2 * (num mod den)) den with
  | Lt => q
  | Gt => (q + 1)%Z
  | Eq => if Z.even q then q else (q + 1)%Z
  end.

(** The absolute value [m * 2^e] in hundredths, rounded to nearest, ties
    to even. *)
Definition cents (m : positive) (e : Z) : N :=
  Z.to_N (if (0 <=? e)%Z then Z.pos m * 2 ^ e * 100
          else round_half_even (Z.pos m * 100) (2 ^ (- e))).

(** The thousands separator of the format [,]: [rs] holds the digits
    from the units upwards, [k] counts the digits of the current group. *)
Fixpoint group_rev (k : nat) (rs : list N) : list N :=
  match rs with
  | [] => []
  | c :: r =>
      match k with
      | 3%nat => 44 :: c :: group_rev 1 r
      | _ => c :: group_rev (S k) r
      end
  end.

Definition group3 (ds : list N) : list N := rev (group_rev 0 (rev ds)).

Definition sign_str (s : bool) : list N := if s then [45] else [].

(** [f"{x:,.2f}"] *)
Definition format_2f (x : spec_float) : list N :=
  match x with
  | S754_nan => U"nan"
  | S754_infinity s => sign_str s ++ U"inf"
  | S754_zero s => sign_str s ++ U"0.00"
  | S754_finite s m e =>
      let c := cents m e in
      sign_str s ++ group3 (Str.decimal (c / 100)) ++ [46]
        ++ Str.two_digits (c mod 100)
  end.

End Float.


(* ===================================================================== *)
(** ** Regular expressions of the program *)
(* ===================================================================== *)

(** Each pattern of the source is written as a matcher in continuation
    style that tries the alternatives in the order of Python's [re]
    (greedy, longest first, backtracking on failure). *)
Module Re.

(** [X*] for a character class [p], then [k group rest]. *)
Fixpoint greedy {A} (p : N -> bool) (k : list N -> list N -> option A)
    (acc s : list N) : option A :=
  match s with
  | c :: r =>
      if p c then
        match greedy p k (acc ++ [c]) r with
        | Some x => Some x
        | None => k acc s
        end
      else k acc s
  | [] => k acc []
  end.

(** [X+]: as [X*], with a non-empty group. *)
Definition greedy1 {A} (p : N -> bool) (k : list N -> list N -> option A)
    (s : list N) : option A :=
  greedy p (fun g rest => match g with [] => None | _ => k g rest end) [] s.

(** A literal, then [k rest]. *)
Definition lit {A} (l : list N) (k : list N -> option A) (s : list N)
    : option A :=
  if Str.startswith l s then k (drop (length l) s) else None.

(** [re.search]: the first position of [s] at which [m] matches. *)
Fixpoint search {A} (m : list N -> option A) (s : list N) : option A :=
  match m s with
  | Some x => Some x
  | None => match s with [] => None | _ :: r => search m r end
  end.

(** [$] without [re.MULTILINE]: the end of the string, or the position
    before a final newline. *)
Definition at_end (s : list N) : bool :=
  match s with [] => true | [10] => true | _ => false end.

Section WithDb.
Context (db : unicode_db).

(** [\d{1,2}], then [k group rest]. *)
Definition digits12 {A} (k : list N -> list N -> option A) (s : list N)
    : option A :=
  match s with
  | a :: r =>
      if Py.isdecimal db a then
        match
          match r with
          | b :: r' => if Py.isdecimal db b then k [a; b] r' else None
          | [] => None
          end
        with
        | Some x => Some x
        | None => k [a] r
        end
      else None
  | [] => None
  end.

(** [(\d{4})] *)
Definition digits4 (s : list N) : option (list N) :=
  match s with
  | a :: b :: c :: d :: _ =>
      if Py.isdecimal db a && Py.isdecimal db b
         && Py.isdecimal db c && Py.isdecimal db d
      then Some [a; b; c; d] else None
  | _ => None
  end.

(** [^\d{1,2}:\d{2}$], used with [match]. *)
Definition time_re (s : list N) : bool :=
  bool_decide (is_Some (digits12 (fun _ rest =>
    match rest with
    | 58 :: a :: b :: r =>
        if Py.isdecimal db a && Py.isdecimal db b && at_end r
        then Some () else None
    | _ => None
    end) s)).

(** [^\d{1,2} de ], used with [match]. *)
Definition date_head_re (s : list N) : bool :=
  bool_decide (is_Some (digits12 (fun _ rest =>
    lit U" de " (fun _ => Some ()) rest) s)).

Definition is_month_char (c : N) : bool :=
  Py.is_ascii_letter c || (c =? 46).

(** [(\d{1,2}) de ([a-zA-Z\.]+) de (\d{4})], used with [match]: the
    three groups. *)
Definition date_re (s : list N) : option (list N * list N * list N) :=
  digits12 (fun day rest =>
    lit U" de " (fun rest =>
      greedy1 is_month_char (fun mon rest =>
        lit U" de " (fun rest =>
          year ← digits4 rest; Some (day, mon, year)) rest) rest) rest) s.

Definition is_amount_char (c : N) : bool :=
  Py.is_ascii_digit c || (c =? 46) || (c =? 44).

(** [-?R\$\s*([0-9.,]+)] at the head of [s]: the group. *)
Definition currency_here (s : list N) : option (list N) :=
  let after_sign s :=
    lit U"R$" (fun rest =>
      greedy (Py.isspace db) (fun _ rest =>
        greedy1 is_amount_char (fun g _ => Some g) rest) [] rest) s in
  match s with
  | 45 :: r =>
      match after_sign r with
      | Some g => Some g
      | None => after_sign s
      end
  | _ => after_sign s
  end.

(** [-?R\$\s*([0-9.,]+)], used with [search]. *)
Definition currency_re (s : list N) : option (list N) :=
  search currency_here s.

Definition is_km_char (c : N) : bool := Py.is_ascii_digit c || (c =? 46).

(** [([0-9.]+)\s*quilometros,\s*(\d+)\s*minutes], used with [search]:
    the two groups. *)
Definition trip_re (s : list N) : option (list N * list N) :=
  search (greedy1 is_km_char (fun km rest =>
    greedy (Py.isspace db) (fun _ rest =>
      lit U"quilometros," (fun rest =>
        greedy (Py.isspace db) (fun _ rest =>
          greedy1 (Py.isdecimal db) (fun mins rest =>
            greedy (Py.isspace db) (fun _ rest =>
              lit U"minutes" (fun _ => Some (km, mins)) rest) [] rest)
            rest) [] rest) rest) [] rest)) s.

End WithDb.
End Re.


(* ===================================================================== *)
(** ** Paths and the file system *)
(* ===================================================================== *)

Module Os.

(** [s.endswith(p)] *)
Definition endswith (p s : list N) : bool :=
  Str.startswith (rev p) (rev s).

(** [os.path.join(a, b)] of [posixpath]. *)
Definition path_join (a b : list N) : list N :=
  if Str.startswith U"/" b then b
  else
    match a with
    | [] => a ++ b
    | _ => if endswith U"/" a then a ++ b else a ++ U"/" ++ b
    end.

(** [os.path.basename(p)] of [posixpath]: what follows the last slash. *)
Definition basename (p : list N) : list N :=
  rev (Float.span (fun c => negb (c =? 47)) (rev p)).1.

End Os.

(** The outcome of a call into the operating system or into a library:
    the exception it raised, or its value. *)
Definition called {A} (x : exn + A) : result A :=
  match x with inl e => Raise e | inr a => Ok a end.

(** What the program sees of the file system: [os.path.isdir],
    [os.listdir], and for a path the lines of
    ["\n".join(page.extract_text() or "" ...).splitlines()], unless
    [pypdf] raises on it. *)
Record fs := {
  isdir : list N -> bool;
  listdir : list N -> exn + list (list N);
  text_lines_of : list N -> exn + list (list N);
}.

(* ===================================================================== *)
(** ** data/uber_loader.py *)
(* ===================================================================== *)

(** An entry of [pontos]: the dict [{"hora": ..., "endereco": ...}]. *)
Record ponto := {
  p_hora : list N;
  p_endereco : list N;
}.

(** The dict returned by [carregar_recibo_uber]; the spec's ReceiptRecord. *)
Record recibo := {
  arquivo : list N;
  data_texto : option (list N);
  hora : option (list N);
  data_yyyymmdd : option (list N);
  total : option spec_float;
  preco_viagem : option spec_float;
  taxa_intermediacao : option spec_float;
  custo_fixo : option spec_float;
  promocao : option spec_float;
  pagamento_linha : option (list N);
  categoria : option (list N);
  distancia_km : option (list N);
  duracao_min : option (list N);
  origem : option ponto;
  destino : option ponto;
}.

Module Loader.

(** The [months] table of [_parse_date_pt]. *)
Definition months : gmap (list N) (list N) :=
  list_to_map
    [ (U"jan", U"01"); (U"fev", U"02"); (U"mar", U"03"); (U"abr", U"04");
      (U"mai", U"05"); (U"jun", U"06"); (U"jul", U"07"); (U"ago", U"08");
      (U"set", U"09"); (U"out", U"10"); (U"nov", U"11"); (U"dez", U"12") ].

(** The class [[^0-9,.-]] of [_parse_currency], negated: the characters
    that [re.sub] keeps. *)
Definition is_currency_char (c : N) : bool :=
  Py.is_ascii_digit c || (c =? 44) || (c =? 46) || (c =? 45).

(** [_parse_currency], for a [text] that is a string (the function's
    callers never pass [None]). *)
Definition _parse_currency (text : list N) : result (option spec_float) :=
  let s := text in
  let s := Str.replace1 65533 [] s in
  let s := List.filter is_currency_char s in
  match s with
  | [] => Ok None
  | _ =>
      let s :=
        if bool_decide (44 ∈ s) && bool_decide (46 ∈ s)
        then Str.replace1 44 [46] (Str.replace1 46 [] s)
        else Str.replace1 44 [46] s in
      try_except (v ← Float.of_str s; Ok (Some v)) (Ok None)
  end.

Section WithDb.
Context (db : unicode_db).

Definition _norm_text (value : list N) : list N :=
  let value := Py.nfkd db value in
  let value := List.filter (fun c => negb (Py.combining db c)) value in
  let value := Str.replace1 65533 [] value in
  let value := Py.lower db value in
  let value := Py.sub_spaces db false value in
  Py.strip db value.

Definition _clean_text (value : list N) : list N :=
  let text := value in
  let text := Str.replace1 65533 [] text in
  let text := Py.sub_spaces db false text in
  Py.strip db text.

Definition _extract_currency_from_line (line : list N)
    : result (option spec_float) :=
  match Re.currency_re db line with
  | Some group1 => _parse_currency group1
  | None => _parse_currency line
  end.

(** The loop of [_find_value_after_keyword]: [rest] is what
    [enumerate(lines)] still has to yield, from index [i] on. *)
Fixpoint find_value_loop (lines : list (list N)) (key : list N)
    (i : nat) (rest : list (list N)) : result (option spec_float) :=
  match rest with
  | [] => Ok None
  | line :: rest' =>
      if Str.contains key (_norm_text line) then
        value ← _extract_currency_from_line line;
        match value with
        | Some v => Ok (Some v)
        | None =>
            if bool_decide (i + 1 < length lines)%nat then
              next ← Py.index lines (i + 1);
              value ← _extract_currency_from_line next;
              match value with
              | Some v => Ok (Some v)
              | None => find_value_loop lines key (S i) rest'
              end
            else find_value_loop lines key (S i) rest'
        end
      else find_value_loop lines key (S i) rest'
  end.

Definition _find_value_after_keyword (lines : list (list N))
    (key : list N) : result (option spec_float) :=
  find_value_loop lines key 0 lines.

Definition _parse_date_pt (date_text : list N) : option (list N) :=
  match Re.date_re db date_text with
  | None => None
  | Some (group1, group2, group3) =>
      let day := Str.zfill 2 group1 in
      let mon_raw := Str.strip (N.eqb 46) group2 in
      match months !! Py.lower db (take 3 mon_raw) with
      | None => None
      | Some [] => None
      | Some mon =>
          let year := group3 in
          Some (year ++ mon ++ day)
      end
  end.


(** Lines 101-109: the date and time at the top of the receipt. *)
Fixpoint data_hora_loop (lines : list (list N)) (i : nat)
    (rest : list (list N)) : result (option (list N) * option (list N)) :=
  match rest with
  | [] => Ok (None, None)
  | line :: rest' =>
      if Re.date_head_re db (_norm_text line)
         && Str.contains U" de " (_norm_text line)
      then
        let data_str := _clean_text line in
        if bool_decide (i + 1 < length lines)%nat then
          next ← Py.index lines (i + 1);
          if Re.time_re db next then
            next ← Py.index lines (i + 1);
            Ok (Some data_str, Some (_clean_text next))
          else Ok (Some data_str, None)
        else Ok (Some data_str, None)
      else data_hora_loop lines (S i) rest'
  end.

(** Lines 118-124: the line after [Pagamentos]. *)
Fixpoint pagamento_loop (lines : list (list N)) (i : nat)
    (rest : list (list N)) : result (option (list N)) :=
  match rest with
  | [] => Ok None
  | line :: rest' =>
      if bool_decide (_norm_text line = U"pagamentos") then
        if bool_decide (i + 1 < length lines)%nat then
          next ← Py.index lines (i + 1);
          Ok (Some (_clean_text next))
        else Ok None
      else pagamento_loop lines (S i) rest'
  end.

(** Lines 126-140: category, distance and duration. *)
Fixpoint info_loop (lines : list (list N)) (i : nat)
    (rest : list (list N))
    : result (option (list N) * option (list N) * option (list N)) :=
  match rest with
  | [] => Ok (None, None, None)
  | line :: rest' =>
      if bool_decide (_norm_text line = U"informacoes da viagem") then
        categoria ←
          (if bool_decide (i + 1 < length lines)%nat then
             next ← Py.index lines (i + 1);
             Ok (Some (_clean_text next))
           else Ok None);
        if bool_decide (i + 2 < length lines)%nat then
          info ← Py.index lines (i + 2);
          match Re.trip_re db (_norm_text info) with
          | Some (group1, group2) =>
              Ok (categoria, Some group1, Some group2)
          | None => Ok (categoria, None, None)
          end
        else Ok (categoria, None, None)
      else info_loop lines (S i) rest'
  end.

(** Lines 145-149: the index after [Informacoes da viagem], or 0. *)
Fixpoint start_idx_loop (i : nat) (rest : list (list N)) : nat :=
  match rest with
  | [] => 0%nat
  | line :: rest' =>
      if bool_decide (_norm_text line = U"informacoes da viagem")
      then (i + 1)%nat
      else start_idx_loop (S i) rest'
  end.

(** Lines 157-161: the inner [while], from [j] with the fragments
    collected so far; it answers the final [j] and the fragments. *)
Fixpoint addr_loop (fuel : nat) (lines : list (list N)) (j : nat)
    (addr_lines : list (list N)) : result (nat * list (list N)) :=
  match fuel with
  | O => OutOfFuel
  | S fuel' =>
      if bool_decide (j < length lines)%nat then
        lj ← Py.index lines j;
        if Re.time_re db lj then Ok (j, addr_lines)
        else
          lj ← Py.index lines j;
          if Str.startswith U"voce viajou" (_norm_text lj)
          then Ok (j, addr_lines)
          else
            lj ← Py.index lines j;
            addr_loop fuel' lines (S j) (addr_lines ++ [_clean_text lj])
      else Ok (j, addr_lines)
  end.

(** Lines 152-167: the outer [while], from [i] with the points
    collected so far. *)
Fixpoint pontos_loop (fuel : nat) (lines : list (list N)) (i : nat)
    (pontos : list ponto) : result (list ponto) :=
  match fuel with
  | O => OutOfFuel
  | S fuel' =>
      if bool_decide (i < length lines)%nat then
        li ← Py.index lines i;
        if Re.time_re db li then
          li ← Py.index lines i;
          let hora := _clean_text li in
          '(j, addr_lines) ← addr_loop (S (length lines)) lines (i + 1) [];
          let pontos :=
            pontos ++ [ {| p_hora := hora;
                           p_endereco :=
                             Py.strip db (Str.join U" " addr_lines) |} ] in
          if bool_decide (2 <= length pontos)%nat then Ok pontos
          else pontos_loop fuel' lines j pontos
        else pontos_loop fuel' lines (i + 1) pontos
      else Ok pontos
  end.

(** Lines 142-167: [pontos]. *)
Definition pontos_de (lines : list (list N)) : result (list ponto) :=
  pontos_loop (S (length lines)) lines (start_idx_loop 0 lines) [].

(** Lines 101-185 of [carregar_recibo_uber]: the record built from the
    cleaned lines; [nome] is [os.path.basename(pdf_path)]. *)
Definition recibo_de_linhas (nome : list N) (lines : list (list N))
    : result recibo :=
  '(data_str, hora_str) ← data_hora_loop lines 0 lines;
  total ← _find_value_after_keyword lines U"total";
  preco_viagem ← _find_value_after_keyword lines U"preco da viagem";
  taxa_inter ← _find_value_after_keyword lines U"taxa de intermediacao";
  custo_fixo ← _find_value_after_keyword lines U"custo fixo";
  promocao ← _find_value_after_keyword lines U"promocao";
  pagamento_linha ← pagamento_loop lines 0 lines;
  '(categoria, distancia, duracao) ← info_loop lines 0 lines;
  pontos ← pontos_de lines;
  origem ← (if bool_decide (0 < length pontos)%nat
            then p ← Py.index pontos 0; Ok (Some p) else Ok None);
  destino ← (if bool_decide (1 < length pontos)%nat
             then p ← Py.index pontos 1; Ok (Some p) else Ok None);
  Ok {| arquivo := nome;
        data_texto := data_str;
        hora := hora_str;
        data_yyyymmdd := _parse_date_pt (_norm_text (Py.or_str data_str []));
        total := total;
        preco_viagem := preco_viagem;
        taxa_intermediacao := taxa_inter;
        custo_fixo := custo_fixo;
        promocao := promocao;
        pagamento_linha := pagamento_linha;
        categoria := categoria;
        distancia_km := distancia;
        duracao_min := duracao;
        origem := origem;
        destino := destino |}.

(** Line 99: the cleaned, non-empty lines of the extracted text. *)
Definition linhas_limpas (text_lines : list (list N)) : list (list N) :=
  omap (fun line =>
          match _clean_text line with
          | [] => None
          | _ => Some (_clean_text line)
          end) text_lines.

(** [carregar_recibo_uber], from the point where [pypdf] has read the
    file: [text_lines] is [text.splitlines()]. *)
Definition carregar_recibo_uber (nome : list N)
    (text_lines : list (list N)) : result recibo :=
  recibo_de_linhas nome (linhas_limpas text_lines).

(** Lines 96-185: [carregar_recibo_uber(pdf_path)] on a file system. *)
Definition carregar_recibo_uber_em (f : fs) (pdf_path : list N)
    : result recibo :=
  text_lines ← called (text_lines_of f pdf_path);
  carregar_recibo_uber (Os.basename pdf_path) text_lines.

(** Lines 192-199: the loop of [carregar_recibos_pasta] over the names
    that [os.listdir] still has to yield. *)
Fixpoint recibos_loop (f : fs) (pasta_path : list N) (nomes : list (list N))
    (recibos : list recibo) : result (list recibo) :=
  match nomes with
  | [] => Ok recibos
  | nome :: rest =>
      if negb (Os.endswith U".pdf" (Py.lower db nome))
      then recibos_loop f pasta_path rest recibos
      else
        let caminho := Os.path_join pasta_path nome in
        r ← try_except
              (r ← carregar_recibo_uber_em f caminho; Ok (Some r))
              (Ok None);
        match r with
        | Some r => recibos_loop f pasta_path rest (recibos ++ [r])
        | None => recibos_loop f pasta_path rest recibos
        end
  end.

Definition carregar_recibos_pasta (f : fs) (pasta_path : list N)
    : result (list recibo) :=
  let recibos := [] in
  if negb (isdir f pasta_path) then Ok recibos
  else
    nomes ← called (listdir f pasta_path);
    recibos_loop f pasta_path nomes recibos.

End WithDb.
End Loader.


(* ===================================================================== *)
(** ** pdf/uber_builder.py *)
(* ===================================================================== *)

(** The fields of a [datetime] that the report reads. *)
Record date := {
  d_year : N;
  d_month : N;
  d_day : N;
}.

Module Builder.

(** [_fmt_currency], for a value that is [None] or a float. *)
Definition _fmt_currency (value : option spec_float) : list N :=
  match value with
  | None => U"-"
  | Some v =>
      Str.replace1 88 [46]
        (Str.replace1 46 [44]
           (Str.replace1 44 [88] (U"R$ " ++ Float.format_2f v)))
  end.

Definition _sort_key (r : recibo) : list N :=
  let data := Py.or_str (data_yyyymmdd r) U"00000000" in
  let hora := Py.or_str (hora r) U"00:00" in
  data ++ U"_" ++ hora.

(** [sorted(l, key=key)]: a stable sort, ascending in the order of
    [str].  An element goes before the first one of the sorted rest
    whose key is not smaller, so that equal keys keep their order. *)
Fixpoint insert_by {A} (key : A -> list N) (x : A) (l : list A) : list A :=
  match l with
  | [] => [x]
  | y :: l' =>
      if Str.leb (key x) (key y) then x :: y :: l'
      else y :: insert_by key x l'
  end.

Fixpoint sorted {A} (key : A -> list N) (l : list A) : list A :=
  match l with
  | [] => []
  | x :: l' => insert_by key x (sorted key l')
  end.

(** Line 125. *)
Definition recibos_ordenados (recibos : list recibo) : list recibo :=
  sorted _sort_key recibos.

(** Lines 233-236: the promotion as the trip block prints it. *)
Definition promo_fmt (r : recibo) : list N :=
  let promo_val := promocao r in
  let promo_fmt := _fmt_currency promo_val in
  if negb (bool_decide (promo_fmt = U"-"))
     && negb (Str.startswith U"-" promo_fmt)
  then U"-" ++ promo_fmt
  else promo_fmt.

Definition is_leap (y : N) : bool :=
  (y mod 4 =? 0) && (negb (y mod 100 =? 0) || (y mod 400 =? 0)).

Definition days_in_month (y m : N) : N :=
  match m with
  | 2 => if is_leap y then 29 else 28
  | 4 | 6 | 9 | 11 => 30
  | _ => 31
  end.

(** [((d.day - 1) // 7) + 1] of line 169. *)
Definition week_idx (d : date) : N := (d_day d - 1) / 7 + 1.

Section WithDb.
Context (db : unicode_db).

(** [int(s)] for a string of decimal digits, blanks around them
    allowed. *)
Definition int (s : list N) : result N :=
  match Py.strip db s with
  | [] => Raise ValueError
  | ds =>
      fold_left (fun acc c =>
          n ← acc;
          match Py.decimal_value db c with
          | Some v => Ok (n * 10 + v)
          | None => Raise ValueError
          end) ds (Ok 0)
  end.

Definition in_range (lo hi : N) (c : N) : bool := (lo <=? c) && (c <=? hi).

(** The alternatives of [%m], [1[0-2]|0[1-9]|[1-9]], at the head of
    [s], in the order [re] tries them: group and rest. *)
Definition month_alts (s : list N) : list (list N * list N) :=
  match s with
  | a :: b :: r =>
      (if (a =? 49) && in_range 48 50 b then [([a; b], r)] else [])
      ++ (if (a =? 48) && in_range 49 57 b then [([a; b], r)] else [])
      ++ (if in_range 49 57 a then [([a], b :: r)] else [])
  | [a] => if in_range 49 57 a then [([a], [])] else []
  | [] => []
  end.

(** The alternatives of [%d], [3[0-1]|[1-2]\d|0[1-9]|[1-9]| [1-9]]. *)
Definition day_alts (s : list N) : list (list N * list N) :=
  match s with
  | a :: b :: r =>
      (if (a =? 51) && in_range 48 49 b then [([a; b], r)] else [])
      ++ (if in_range 49 50 a && Py.isdecimal db b then [([a; b], r)] else [])
      ++ (if (a =? 48) && in_range 49 57 b then [([a; b], r)] else [])
      ++ (if in_range 49 57 a then [([a], b :: r)] else [])
      ++ (if (a =? 32) && in_range 49 57 b then [([a; b], r)] else [])
  | [a] => if in_range 49 57 a then [([a], [])] else []
  | [] => []
  end.

(** The regular expression [_strptime] builds for ["%Y%m%d"], used
    with [match]: the three groups and what is left of the string. *)
Definition ymd_re (s : list N)
    : option (list N * list N * list N * list N) :=
  match Re.digits4 db s with
  | None => None
  | Some y =>
      head (m ← month_alts (drop 4 s);
            d ← day_alts m.2;
            [(y, m.1, d.1, d.2)])
  end.

(** [datetime.strptime(value, "%Y%m%d")] *)
Definition strptime_Ymd (value : list N) : result date :=
  match ymd_re value with
  | None => Raise ValueError
  | Some (y, m, d, rest) =>
      match rest with
      | _ :: _ => Raise ValueError
      | [] =>
          year ← int y;
          month ← int m;
          day ← int d;
          if in_range 1 9999 year && in_range 1 12 month
             && in_range 1 (days_in_month year month) day
          then Ok {| d_year := year; d_month := month; d_day := day |}
          else Raise ValueError
      end
  end.

Definition _date_from_yyyymmdd (value : option (list N)) : option date :=
  match value with
  | None => None
  | Some [] => None
  | Some v =>
      if negb (bool_decide (length v = 8%nat)) then None
      else
        match try_except (d ← strptime_Ymd v; Ok (Some d)) (Ok None) with
        | Ok r => r
        | _ => None
        end
  end.

(** [strftime_Y] is the C library's [%Y], whose padding of years below
    1000 differs between platforms. *)
Context (strftime_Y : N -> list N).

(** [d.strftime("%m/%Y")] *)
Definition month_key (d : date) : list N :=
  Str.two_digits (d_month d) ++ U"/" ++ strftime_Y (d_year d).

Definition week_key (d : date) : list N :=
  month_key d ++ U" • Semana " ++ Str.decimal (week_idx d).

(** Lines 163-171: the body of the aggregation loop, on the pair
    [(month_totals, week_totals)]. *)
Definition totals_step
    (acc : gmap (list N) spec_float * gmap (list N) spec_float)
    (r : recibo) : gmap (list N) spec_float * gmap (list N) spec_float :=
  let '(month_totals, week_totals) := acc in
  match _date_from_yyyymmdd (data_yyyymmdd r) with
  | None => (month_totals, week_totals)
  | Some d =>
      let total := Float.or_zero (total r) in
      let month_totals :=
        <[month_key d :=
            Float.add (default Float.zero (month_totals !! month_key d))
                      total]> month_totals in
      let week_totals :=
        <[week_key d :=
            Float.add (default Float.zero (week_totals !! week_key d))
                      total]> week_totals in
      (month_totals, week_totals)
  end.

(** Lines 160-171. *)
Definition totals (recibos_ordenados : list recibo)
    : gmap (list N) spec_float * gmap (list N) spec_float :=
  fold_left totals_step recibos_ordenados (∅, ∅).

End WithDb.

(** [_to_br] of [_fmt_date_range]. *)
Definition _to_br (d : list N) : list N :=
  if negb (bool_decide (length d = 8%nat)) then d
  else take 2 (drop 6 d) ++ U"/" ++ take 2 (drop 4 d) ++ U"/" ++ take 4 d.

Definition _fmt_date_range (recibos : list recibo) : result (list N) :=
  let datas :=
    omap (fun r =>
            match data_yyyymmdd r with
            | Some (c :: d) => Some (c :: d)
            | _ => None
            end) recibos in
  match datas with
  | [] => Ok U"-"
  | _ =>
      let datas_sorted := sorted (fun d => d) datas in
      start ← Py.index datas_sorted 0;
      end_ ← Py.index datas_sorted (length datas_sorted - 1);
      Ok (_to_br start ++ U"–" ++ _to_br end_)
  end.

(** Lines 173-178 and 197-202: the rows of a table of totals under the
    header [titulo], one for each key of the dict in the order of
    [sorted]; [None] when the dict is empty and the table is left out.
    The keys of a dict are distinct, so that their sorted order does not
    depend on the order in which the dict yields them, and each of them
    has its entry. *)
Definition total_rows (titulo : list N) (totals : gmap (list N) spec_float)
    : option (list (list (list N))) :=
  if decide (totals = ∅) then None
  else
    Some ([titulo; U"Total"]
          :: map (fun mes => [mes; _fmt_currency (totals !! mes)])
               (sorted (fun k => k) (map fst (map_to_list totals)))).

End Builder.

(* ===================================================================== *)
(** ** main_uber.py *)
(* ===================================================================== *)

Module Main.

Definition PASTA_RECIBOS : list N := U"uber".

(** What a run of [main] that returns has done: the lines it printed, and
    the call of [criar_relatorio_uber] it made, if any. *)
Record run := {
  printed : list (list N);
  report : option (list recibo * list N);
}.

Section WithDb.
Context (db : unicode_db).

(** [main], for a file system, for the outcome [criar] of
    [criar_relatorio_uber] on its arguments and for [hoje], the
    [datetime.now().strftime("%Y%m%d")] of the run. *)
Definition main (f : fs) (criar : list recibo -> list N -> exn + unit)
    (hoje : list N) : result run :=
  let rule := repeat 61 50 in
  let out := [rule; U"Relatorio UBER - Banco Vittoria"; rule] in
  recibos ← Loader.carregar_recibos_pasta db f PASTA_RECIBOS;
  match recibos with
  | [] =>
      Ok {| printed := out ++ [U"Nenhum recibo encontrado em " ++ PASTA_RECIBOS];
            report := None |}
  | _ =>
      let data_yyyymmdd := hoje in
      let arquivo_saida := U"Relatorio UBER - " ++ data_yyyymmdd ++ U".pdf" in
      _ ← called (criar recibos arquivo_saida);
      Ok {| printed :=
              out ++ [[10] ++ rule; U"OK PDF gerado: " ++ arquivo_saida; rule];
            report := Some (recibos, arquivo_saida) |}
  end.

End WithDb.
End Main.

(* ===================================================================== *)
(** ** Definitions of the statements *)
(* ===================================================================== *)

(** [x] is a binary64 value nearest to [n / d]: the distance is at most
    half a unit of the last place of [x]. *)
Definition nearest_to (x : spec_float) (n d : Z) : Prop :=
  match x with
  | S754_finite false m e =>
      (e < 0 /\ 2 * Z.abs (Z.pos m * d - n * 2 ^ (- e)) <= d)%Z
  | _ => False
  end.

(** The floats 1234.56, 10.0, 12.0 and 5.0. *)
Definition f1234_56 : spec_float := S754_finite false 5429652300748554 (-42).
Definition f10 : spec_float := S754_finite false 5629499534213120 (-49).
Definition f12 : spec_float := S754_finite false 6755399441055744 (-49).
Definition f5 : spec_float := S754_finite false 5629499534213120 (-50).

(** A record with every field absent but the promotion. *)
Definition so_promocao (p : option spec_float) : recibo := {|
  arquivo := []; data_texto := None; hora := None; data_yyyymmdd := None;
  total := None; preco_viagem := None; taxa_intermediacao := None;
  custo_fixo := None; promocao := p; pagamento_linha := None;
  categoria := None; distancia_km := None; duracao_min := None;
  origem := None; destino := None |}.

Module Keyword.

Section WithDb.

Context (db : unicode_db).

(** The line at index [i] names the keyword. *)
Definition at_line (lines : list (list N)) (key : list N) (i : nat)
    : Prop :=
  exists line, lines !! i = Some line
               /\ Str.contains key (Loader._norm_text db line) = true.

Definition extracted (line : list N) : option spec_float :=
  match Loader._extract_currency_from_line db line with
  | Ok v => v
  | _ => None
  end.

(** What the line at index [i] yields as a keyword line: the currency
    value extracted from it or, if there is none, the one extracted
    from the line immediately following. *)
Definition yields (lines : list (list N)) (i : nat) : option spec_float :=
  match lines !! i with
  | None => None
  | Some line =>
      match extracted line with
      | Some v => Some v
      | None =>
          match lines !! (i + 1)%nat with
          | Some next => extracted next
          | None => None
          end
      end
  end.

(** The rule as the specification words it: only the first line that
    names the keyword is used. *)
Definition first_line_only (lines : list (list N)) (key : list N)
    : option spec_float :=
  match
    list_find
      (fun line => Str.contains key (Loader._norm_text db line) = true)
      lines
  with
  | Some (i, _) => yields lines i
  | None => None
  end.

End WithDb.

End Keyword.

Module CurrencyRe.

(** The run of amount characters at the head of [s]. *)
Definition amount_prefix (s : list N) : list N :=
  (Float.span Re.is_amount_char s).1.

Definition nonempty (g : list N) : option (list N) :=
  match g with [] => None | _ => Some g end.

(** [([0-9.,]+)] at the head of [s]. *)
Definition amount (s : list N) : option (list N) :=
  nonempty (amount_prefix s).

Section WithDb.

Context (db : unicode_db).

(** What follows ["R$"]. *)
Definition after_prefix (s : list N) : option (list N) :=
  amount (Str.lstrip (Py.isspace db) s).

(** [R\$\s*([0-9.,]+)] at the head of [s]. *)
Definition prefixed (s : list N) : option (list N) :=
  match s with
  | a :: b :: r =>
      if (a =? 82) && (b =? 36) then after_prefix r else None
  | _ => None
  end.

(** [-?R\$\s*([0-9.,]+)] at the head of [s]. *)
Definition here (s : list N) : option (list N) :=
  match s with
  | c :: r => if c =? 45 then prefixed r else prefixed s
  | [] => None
  end.

End WithDb.

End CurrencyRe.

(** The sign bit of a float; [nan] has none. *)
Definition is_negative (v : spec_float) : bool :=
  match v with
  | S754_zero s | S754_infinity s | S754_finite s _ _ => s
  | S754_nan => false
  end.

Module Prefix.

Section WithDb.

Context (db : unicode_db).

(** [rest] does not go on with a character of the class [p]. *)
Definition stops (p : N -> bool) (rest : list N) : Prop :=
  match rest with [] => True | c :: _ => p c = false end.

End WithDb.

End Prefix.

Module Currency.

(** Currency parsing as the specification words it: keep the digits,
    commas, periods and minus signs; with both a comma and a period,
    drop the periods and turn the commas into periods; otherwise turn
    the commas into periods; the value is the number read, absent when
    the string is not a number. *)
Definition cleaned (text : list N) : list N :=
  List.filter (fun c => Py.is_ascii_digit c
                        || bool_decide (c ∈ [44; 46; 45])) text.

Definition number_text (s : list N) : list N :=
  if bool_decide (44 ∈ s /\ 46 ∈ s)
  then map (fun c => if c =? 44 then 46 else c)
           (List.filter (fun c => negb (c =? 46)) s)
  else map (fun c => if c =? 44 then 46 else c) s.

Definition parse_spec (text : list N) : option spec_float :=
  match Float.of_str (number_text (cleaned text)) with
  | Ok v => Some v
  | _ => None
  end.

End Currency.

Module DatePt.

Section WithDb.

Context (db : unicode_db).

(** The key looked up in [months] for the month group [mon]. *)
Definition month_key (mon : list N) : list N :=
  Py.lower db (take 3 (Str.strip (N.eqb 46) mon)).

End WithDb.

End DatePt.

Module Pontos.

Section WithDb.

Context (db : unicode_db).

(** A time marker: a line of the form H:MM or HH:MM. *)
Definition is_time (line : list N) : bool := Re.time_re db line.

(** The trip-summary boilerplate. *)
Definition is_summary (line : list N) : bool :=
  Str.startswith U"voce viajou" (Loader._norm_text db line).

(** The address fragments among the lines [ls] that follow a time
    marker: all of them up to the next time marker or the boilerplate
    line, which is not taken. *)
Fixpoint fragments (ls : list (list N)) : list (list N) :=
  match ls with
  | [] => []
  | l :: r => if is_time l || is_summary l then [] else l :: fragments r
  end.

(** The lines from the one that ended the collection on. *)
Fixpoint after_fragments (ls : list (list N)) : list (list N) :=
  match ls with
  | [] => []
  | l :: r => if is_time l || is_summary l then ls else after_fragments r
  end.

(** The first time marker of [ls] and the lines after it. *)
Fixpoint next_marker (ls : list (list N))
    : option (list N * list (list N)) :=
  match ls with
  | [] => None
  | l :: r => if is_time l then Some (l, r) else next_marker r
  end.

(** The group of the marker [t] followed by the lines [following]:
    the fragments are joined with single spaces. *)
Definition group (t : list N) (following : list (list N)) : ponto :=
  {| p_hora := Loader._clean_text db t;
     p_endereco :=
       Py.strip db
         (Str.join U" "
            (map (Loader._clean_text db) (fragments following))) |}.

(** At most [n] groups, scanning [ls] forward. *)
Fixpoint groups_upto (n : nat) (ls : list (list N)) : list ponto :=
  match n with
  | O => []
  | S n' =>
      match next_marker ls with
      | None => []
      | Some (t, r) => group t r :: groups_upto n' (after_fragments r)
      end
  end.

(** Origin and destination. *)
Definition groups (ls : list (list N)) : list ponto := groups_upto 2 ls.

End WithDb.

End Pontos.

Module Order.

Section Sorting.

Context {A : Type} (key : A -> list N).

Definition le (a b : A) : Prop := Str.leb (key a) (key b) = true.

End Sorting.

End Order.

Module SortKey.

(** The two parts of the key of a record. *)
Definition date_of (r : recibo) : list N :=
  Py.or_str (data_yyyymmdd r) U"00000000".

Definition time_of (r : recibo) : list N := Py.or_str (hora r) U"00:00".

(** A clock time written HH:MM. *)
Definition clock (h m : N) : list N :=
  Str.two_digits h ++ U":" ++ Str.two_digits m.

(** A clock time written H:MM, with an hour of one digit, as the parser
    stores it when the receipt writes it so. *)
Definition curta (h m : N) : list N :=
  [48 + h] ++ U":" ++ Str.two_digits m.

(** A record with the given date key and time. *)
Definition de (d h : option (list N)) : recibo := {|
  arquivo := []; data_texto := None; hora := h; data_yyyymmdd := d;
  total := None; preco_viagem := None; taxa_intermediacao := None;
  custo_fixo := None; promocao := None; pagamento_linha := None;
  categoria := None; distancia_km := None; duracao_min := None;
  origem := None; destino := None |}.

End SortKey.

Module Weeks.

Section WithDb.

Context (db : unicode_db).

Context (strftime_Y : N -> list N).

Definition dated (r : recibo) : Prop :=
  is_Some (Builder._date_from_yyyymmdd db (data_yyyymmdd r)).

End WithDb.

(** A record with the given date key and total. *)
Definition de (d : option (list N)) (t : option spec_float) : recibo := {|
  arquivo := []; data_texto := None; hora := None; data_yyyymmdd := d;
  total := t; preco_viagem := None; taxa_intermediacao := None;
  custo_fixo := None; promocao := None; pagamento_linha := None;
  categoria := None; distancia_km := None; duracao_min := None;
  origem := None; destino := None |}.

End Weeks.

Module Fmt.

(** The exchange of commas and periods. *)
Definition swap (c : N) : N :=
  if c =? 44 then 46 else if c =? 46 then 44 else c.

End Fmt.

Module Pasta.
Section WithDb.
Context (db : unicode_db).

(** A name that ends with [.pdf], whatever the case of its letters. *)
Definition is_pdf (nome : list N) : bool :=
  Os.endswith U".pdf" (Py.lower db nome).

(** The names of a listing that are read as receipts, each with the lines
    of its text: those named as a PDF on which [pypdf] raises nothing. *)
Definition lidos (f : fs) (pasta : list N) (nomes : list (list N))
    : list (list N * list (list N)) :=
  omap (fun nome =>
          if is_pdf nome then
            match text_lines_of f (Os.path_join pasta nome) with
            | inr text_lines => Some (nome, text_lines)
            | inl _ => None
            end
          else None) nomes.

End WithDb.

(** A folder with a note, a receipt in capitals and a file that [pypdf]
    cannot read. *)
Definition exemplo : fs :=
  {| isdir := fun p => bool_decide (p = U"uber");
     listdir := fun _ => inr [U"nota.txt"; U"A.PDF"; U"ruim.pdf"];
     text_lines_of := fun p =>
       if bool_decide (p = U"uber/A.PDF")
       then inr [U"Total R$ 5,00"] else inl ValueError |}.

End Pasta.

Module Periodo.

(** [d] is the date key of a record of the list; the empty string counts
    as no date. *)
Definition dated (recibos : list recibo) (d : list N) : Prop :=
  d <> [] /\ exists r, r ∈ recibos /\ data_yyyymmdd r = Some d.

(** Line 33: the list [datas]. *)
Definition datas (recibos : list recibo) : list (list N) :=
  omap (fun r =>
          match data_yyyymmdd r with
          | Some (c :: d) => Some (c :: d)
          | _ => None
          end) recibos.

End Periodo.

Module Secoes.
Section WithDb.
Context (db : unicode_db).

(** A line that opens with a day and [ de ], once normalised. *)
Definition is_date_head (line : list N) : Prop :=
  Re.date_head_re db (Loader._norm_text db line) = true.

(** A line that is the heading [titulo], once normalised. *)
Definition is_heading (titulo line : list N) : Prop :=
  Loader._norm_text db line = titulo.

#[global] Instance is_date_head_dec (line : list N)
    : Decision (is_date_head line) :=
  decide (Re.date_head_re db (Loader._norm_text db line) = true).

#[global] Instance is_heading_dec (titulo line : list N)
    : Decision (is_heading titulo line) :=
  decide (Loader._norm_text db line = titulo).

(** The date and time read at the first date line, if any. *)
Definition data_hora (lines : list (list N))
    : option (list N) * option (list N) :=
  match list_find is_date_head lines with
  | None => (None, None)
  | Some (i, line) =>
      (Some (Loader._clean_text db line),
       match lines !! (i + 1)%nat with
       | Some next =>
           if Re.time_re db next then Some (Loader._clean_text db next)
           else None
       | None => None
       end)
  end.

(** The line after the first heading [Pagamentos]. *)
Definition pagamento (lines : list (list N)) : option (list N) :=
  match list_find (is_heading U"pagamentos") lines with
  | None => None
  | Some (i, _) => Loader._clean_text db <$> lines !! (i + 1)%nat
  end.

(** The category on the line after the first heading
    [Informacoes da viagem], and distance and duration from the line
    after that. *)
Definition info (lines : list (list N))
    : option (list N) * option (list N) * option (list N) :=
  match list_find (is_heading U"informacoes da viagem") lines with
  | None => (None, None, None)
  | Some (i, _) =>
      let trip :=
        linha ← lines !! (i + 2)%nat;
        Re.trip_re db (Loader._norm_text db linha) in
      (Loader._clean_text db <$> lines !! (i + 1)%nat,
       fst <$> trip, snd <$> trip)
  end.

End WithDb.
End Secoes.

Module Totais.
Section WithDb.
Context (db : unicode_db).

(** The amounts that the records with a date that parses and with the
    table key [k] contribute, in the order of the records; [key] is the
    table's key of a date. *)
Definition parcelas (key : date -> list N) (k : list N)
    (rs : list recibo) : list spec_float :=
  omap (fun r =>
          match Builder._date_from_yyyymmdd db (data_yyyymmdd r) with
          | Some dt =>
              if decide (key dt = k) then Some (Float.or_zero (total r))
              else None
          | None => None
          end) rs.

(** The entry of a table for these amounts: none without an amount, else
    the amounts added one after the other to [0.0]. *)
Definition soma (ts : list spec_float) : option spec_float :=
  match ts with
  | [] => None
  | _ => Some (fold_left Float.add ts Float.zero)
  end.

(** The entry of a table after more amounts, from the entry before. *)
Definition entry_after (before : option spec_float) (ts : list spec_float)
    : option spec_float :=
  match ts with
  | [] => before
  | _ => Some (fold_left Float.add ts (default Float.zero before))
  end.

End WithDb.
End Totais.

Module Limpo.
Section WithDb.
Context (db : unicode_db).

(** White space occurs in [s] only as single spaces, none of them at the
    head of [s] when [prev] tells that a space precedes [s]. *)
Fixpoint single_spaced (prev : bool) (s : list N) : bool :=
  match s with
  | [] => true
  | c :: r =>
      if Py.isspace db c
      then (c =? 32) && negb prev && single_spaced true r
      else single_spaced false r
  end.

End WithDb.
End Limpo.

Module DataValida.

(** The ASCII digits, and the numbers that two and four of them write. *)
Definition digitos : list N := [48; 49; 50; 51; 52; 53; 54; 55; 56; 57].

Definition valor2 (x y : N) : N := 10 * (x - 48) + (y - 48).

Definition valor4 (a b c d : N) : N :=
  1000 * (a - 48) + 100 * (b - 48) + 10 * (c - 48) + (d - 48).

(** A date of the calendar, from the year 1. *)
Definition valida (y m d : N) : bool :=
  (1 <=? y) && (1 <=? m) && (m <=? 12)
  && (1 <=? d) && (d <=? Builder.days_in_month y m).

Section WithDb.
Context (db : unicode_db).

(** What the pattern of [%m%d] finds in four characters: the two groups
    and what is left. *)
Definition md_part (m1 m2 d1 d2 : N)
    : option (list N * list N * list N) :=
  head (m ← Builder.month_alts [m1; m2; d1; d2];
        d ← Builder.day_alts db m.2;
        [(m.1, d.1, d.2)]).

(** On four digits the pattern takes two and two and leaves nothing
    exactly for a month in 1..12 and a day in 1..31. *)
Definition md_check (m1 m2 d1 d2 : N) : bool :=
  let ok := Builder.in_range 1 12 (valor2 m1 m2)
            && Builder.in_range 1 31 (valor2 d1 d2) in
  match md_part m1 m2 d1 d2 with
  | Some (m, d, []) =>
      bool_decide (m = [m1; m2]) && bool_decide (d = [d1; d2]) && ok
  | _ => negb ok
  end.

Definition int_is (s : list N) (n : N) : bool :=
  match Builder.int db s with
  | Ok k => k =? n
  | _ => false
  end.

End WithDb.
End DataValida.

Module Cronologia.

(** The date that a key of eight digits writes comes before the date of
    another: by year, then month, then day. *)
Definition antes (k1 k2 : list N) : Prop :=
  match k1, k2 with
  | [a; b; c; d; m1; m2; d1; d2], [a'; b'; c'; d'; m1'; m2'; d1'; d2'] =>
      let y := DataValida.valor4 a b c d in
      let y' := DataValida.valor4 a' b' c' d' in
      let m := DataValida.valor2 m1 m2 in
      let m' := DataValida.valor2 m1' m2' in
      let dd := DataValida.valor2 d1 d2 in
      let dd' := DataValida.valor2 d1' d2' in
      y < y' \/ (y = y' /\ (m < m' \/ (m = m' /\ dd < dd')))
  | _, _ => False
  end.

(** A key of ASCII digits. *)
Definition digitos_ascii (k : list N) : Prop :=
  Forall (fun x => Builder.in_range 48 57 x = true) k.

End Cronologia.

Module Quantia.

(** Digits and the period. *)
Definition is_point_char (c : N) : bool := Py.is_ascii_digit c || (c =? 46).

(** The number of periods of a text. *)
Definition n_points (s : list N) : nat :=
  length (List.filter (N.eqb 46) s).

(** An amount written with digits, periods and commas is a number when,
    once its separators are put in the form that [float] reads, it has a
    digit and at most one decimal point. *)
Definition is_number (a : list N) : bool :=
  let s := Currency.number_text a in
  existsb Py.is_ascii_digit s && (n_points s <=? 1)%nat.

(** The value that such an amount writes: its digits read in base ten
    over the power of ten of the digits after the point, rounded to the
    nearest float, with the sign plus. *)
Definition value_of (a : list N) : spec_float :=
  let '(ip, rest) :=
    Float.span Py.is_ascii_digit (Currency.number_text a) in
  let fr := drop 1 rest in
  Float.of_ratio false (Float.digits_value (ip ++ fr))
    (Z.to_pos (10 ^ Z.of_nat (length fr))).

End Quantia.

(* ===================================================================== *)
(** ** Properties *)
(* ===================================================================== *)

Lemma f1234_56_value : nearest_to f1234_56 123456 100.
Proof. unfold nearest_to, f1234_56. split; [lia | vm_compute; discriminate]. Qed.

Lemma f10_value : nearest_to f10 10 1 /\ nearest_to f12 12 1 /\ nearest_to f5 5 1.
Proof. repeat split; try lia; vm_compute; discriminate. Qed.

(* ===================================================================== *)
(** ** Promotion sign (C2) *)
(* ===================================================================== *)

(** C2, evaluated on the code: a promotion of 10.0 is printed as
    ["-R$ 10,00"] and an absent one as ["-"], but a promotion stored as
    -10.0 is printed as ["-R$ -10,00"]: [_fmt_currency] puts the sign of
    the number after ["R$ "], so the test on a leading ["-"] never sees
    it.  The parser stores such a value for the lines ["Promocao"],
    ["-10,00"]. *)
Theorem promo_fmt_stored_negative (db : unicode_db) :
  Builder.promo_fmt (so_promocao (Some f10)) = U"-R$ 10,00"
  /\ Builder.promo_fmt (so_promocao None) = U"-"
  /\ Builder.promo_fmt (so_promocao (Some (SFopp f10))) = U"-R$ -10,00"
  /\ Loader._find_value_after_keyword db [U"Promocao"; U"-10,00"] U"promocao"
     = Ok (Some (SFopp f10)).
Proof. repeat split; vm_compute; reflexivity. Qed.

(* ===================================================================== *)
(** ** Keyword anchors are substrings (C9) *)
(* ===================================================================== *)

(** C9: the keyword is looked for as a substring of the normalized line.
    In a receipt whose first line is ["Subtotal R$ 10,00"] and whose
    second line is ["Total R$ 12,00"], the normalized first line is not
    the keyword ["total"] but contains it, the second one starts with it,
    and the [total] field is the 10.0 of the first line. *)
Theorem total_anchored_by_subtotal (db : unicode_db) :
  let lines := [U"Subtotal R$ 10,00"; U"Total R$ 12,00"] in
  Loader._norm_text db U"Subtotal R$ 10,00" = U"subtotal r$ 10,00"
  /\ Str.contains U"total" (Loader._norm_text db U"Subtotal R$ 10,00") = true
  /\ Loader._norm_text db U"Total R$ 12,00" = U"total r$ 12,00"
  /\ Loader._extract_currency_from_line db U"Total R$ 12,00" = Ok (Some f12)
  /\ Loader._find_value_after_keyword db lines U"total" = Ok (Some f10)
  /\ total <$> Loader.recibo_de_linhas db U"recibo.pdf" lines
     = Ok (Some f10).
Proof. repeat split; vm_compute; reflexivity. Qed.

(* ===================================================================== *)
(** ** The parser always returns a record (C1) *)
(* ===================================================================== *)

Section Returns.

Context (db : unicode_db).

(** Unfolds the binds of the [result] monad in the goal. *)
Ltac bind_simpl :=
  unfold mbind, result_bind, mret, result_ret; cbv beta iota.

Lemma index_lt {A} (l : list A) (i : nat) :
  (i < length l)%nat -> exists x, Py.index l i = Ok x /\ l !! i = Some x.
Proof.
  intros Hi. unfold Py.index.
  destruct (lookup_lt_is_Some_2 l i Hi) as [x Hx].
  rewrite Hx. eauto.
Qed.

Lemma of_str_returns (s : list N) :
  (exists v, Float.of_str s = Ok v) \/ Float.of_str s = Raise ValueError.
Proof.
  unfold Float.of_str.
  destruct (match s with
            | 45 :: r => (true, r)
            | 43 :: r => (false, r)
            | _ => (false, s)
            end) as [sx body].
  destruct (Float.span Py.is_ascii_digit body) as [ip rest].
  destruct rest as [|c fr]; [destruct ip; eauto|].
  destruct (N.eq_dec c 46) as [->|Hc].
  - destruct (forallb _ _ && _); eauto.
  - destruct c as [|p]; [eauto|].
    do 6 (destruct p as [p|p|]; eauto); congruence.
Qed.

Lemma _parse_currency_returns (text : list N) :
  exists v, Loader._parse_currency text = Ok v.
Proof.
  unfold Loader._parse_currency.
  destruct (List.filter _ _) as [|c s]; [eauto|].
  match goal with |- context [Float.of_str ?x] =>
    destruct (of_str_returns x) as [[v Hv]|Hv]; rewrite Hv end;
    bind_simpl; eauto.
Qed.

Lemma _extract_currency_returns (line : list N) :
  exists v, Loader._extract_currency_from_line db line = Ok v.
Proof.
  unfold Loader._extract_currency_from_line.
  destruct (Re.currency_re db line); apply _parse_currency_returns.
Qed.

Lemma find_value_loop_returns lines key rest i :
  exists v, Loader.find_value_loop db lines key i rest = Ok v.
Proof.
  revert i. induction rest as [|line rest IH]; intros i; simpl; [eauto|].
  destruct (Str.contains _ _); [|apply IH].
  destruct (_extract_currency_returns line) as [[v|] Hv]; rewrite Hv;
    bind_simpl; [eauto|].
  case_bool_decide as Hi; [|apply IH].
  destruct (index_lt lines _ Hi) as (next & Hn & _). rewrite Hn. bind_simpl.
  destruct (_extract_currency_returns next) as [[v|] Hv']; rewrite Hv';
    bind_simpl; [eauto|apply IH].
Qed.

Lemma data_hora_loop_returns lines rest i :
  exists v, Loader.data_hora_loop db lines i rest = Ok v.
Proof.
  revert i. induction rest as [|line rest IH]; intros i; simpl; [eauto|].
  destruct (_ && _); [|apply IH].
  case_bool_decide as Hi; [|eauto].
  destruct (index_lt lines _ Hi) as (next & Hn & _). rewrite Hn. bind_simpl.
  destruct (Re.time_re db next); eauto.
Qed.

Lemma pagamento_loop_returns lines rest i :
  exists v, Loader.pagamento_loop db lines i rest = Ok v.
Proof.
  revert i. induction rest as [|line rest IH]; intros i; simpl; [eauto|].
  case_bool_decide; [|apply IH].
  case_bool_decide as Hi; [|eauto].
  destruct (index_lt lines _ Hi) as (next & Hn & _). rewrite Hn. bind_simpl.
  eauto.
Qed.

Lemma info_loop_returns lines rest i :
  exists v, Loader.info_loop db lines i rest = Ok v.
Proof.
  revert i. induction rest as [|line rest IH]; intros i; simpl; [eauto|].
  case_bool_decide; [|apply IH].
  assert (exists c,
    (if bool_decide (i + 1 < length lines)%nat
     then next ← Py.index lines (i + 1);
          Ok (Some (Loader._clean_text db next))
     else Ok None) = Ok c) as [c ->].
  { case_bool_decide as Hi; [|eauto].
    destruct (index_lt lines _ Hi) as (next & Hn & _). rewrite Hn.
    bind_simpl. eauto. }
  bind_simpl.
  case_bool_decide as Hi; [|eauto].
  destruct (index_lt lines _ Hi) as (info & Hn & _). rewrite Hn. bind_simpl.
  destruct (Re.trip_re db _) as [[g1 g2]|]; eauto.
Qed.

(** The inner [while] ends within [length lines - j + 1] iterations, and
    never moves [j] backwards. *)
Lemma addr_loop_returns lines fuel j acc :
  (length lines - j < fuel)%nat ->
  exists j' acc', Loader.addr_loop db fuel lines j acc = Ok (j', acc')
                  /\ (j <= j')%nat.
Proof.
  revert j acc. induction fuel as [|fuel IH]; intros j acc Hf; simpl.
  - exfalso. lia.
  - case_bool_decide as Hj.
    + destruct (index_lt lines _ Hj) as (lj & Hn & _). rewrite Hn.
      bind_simpl.
      destruct (Re.time_re db lj); [eauto|].
      match goal with
      | |- context [if ?b then Ok (j, acc) else _] => destruct b
      end; [eauto|].
      destruct (IH (S j) (acc ++ [Loader._clean_text db lj]))
        as (j' & acc' & -> & Hle); [lia|].
      exists j', acc'. split; [reflexivity|lia].
    + eauto.
Qed.

(** The outer [while] ends within [length lines - i + 1] iterations. *)
Lemma pontos_loop_returns lines fuel i pontos :
  (length lines - i < fuel)%nat ->
  exists v, Loader.pontos_loop db fuel lines i pontos = Ok v.
Proof.
  revert i pontos.
  induction fuel as [|fuel IH]; intros i pontos Hf; cbn [Loader.pontos_loop].
  - exfalso. lia.
  - case_bool_decide as Hi; [|eauto].
    destruct (index_lt lines _ Hi) as (li & Hn & _). rewrite Hn. bind_simpl.
    destruct (Re.time_re db li).
    + destruct (addr_loop_returns lines (S (length lines)) (i + 1) [])
        as (j & addr & Ha & Hle); [lia|].
      rewrite Ha. bind_simpl.
      case_bool_decide; [eauto|]. apply IH. lia.
    + apply IH. lia.
Qed.

Lemma pontos_de_returns lines :
  exists v, Loader.pontos_de db lines = Ok v.
Proof. apply pontos_loop_returns. lia. Qed.

(** [pontos[k] if len(pontos) > k else None] is the lookup at [k]. *)
Lemma guarded_index {A} (l : list A) (k : nat) :
  (if bool_decide (k < length l)%nat
   then p ← Py.index l k; Ok (Some p) else Ok None) = Ok (l !! k).
Proof.
  case_bool_decide as Hk.
  - destruct (index_lt l k Hk) as (x & -> & ->). reflexivity.
  - rewrite lookup_ge_None_2 by lia. reflexivity.
Qed.

End Returns.

(** The record in terms of the results of the rules. *)
Lemma recibo_de_linhas_fields (db : unicode_db) (nome : list N)
    (lines : list (list N)) :
  exists dh tot preco taxa custo promo pag info pts,
    Loader.data_hora_loop db lines 0 lines = Ok dh
    /\ Loader._find_value_after_keyword db lines U"total" = Ok tot
    /\ Loader._find_value_after_keyword db lines U"preco da viagem" = Ok preco
    /\ Loader._find_value_after_keyword db lines U"taxa de intermediacao"
       = Ok taxa
    /\ Loader._find_value_after_keyword db lines U"custo fixo" = Ok custo
    /\ Loader._find_value_after_keyword db lines U"promocao" = Ok promo
    /\ Loader.pagamento_loop db lines 0 lines = Ok pag
    /\ Loader.info_loop db lines 0 lines = Ok info
    /\ Loader.pontos_de db lines = Ok pts
    /\ Loader.recibo_de_linhas db nome lines =
       Ok {| arquivo := nome;
             data_texto := dh.1;
             hora := dh.2;
             data_yyyymmdd :=
               Loader._parse_date_pt db
                 (Loader._norm_text db (Py.or_str dh.1 []));
             total := tot;
             preco_viagem := preco;
             taxa_intermediacao := taxa;
             custo_fixo := custo;
             promocao := promo;
             pagamento_linha := pag;
             categoria := info.1.1;
             distancia_km := info.1.2;
             duracao_min := info.2;
             origem := pts !! 0%nat;
             destino := pts !! 1%nat |}.
Proof.
  destruct (data_hora_loop_returns db lines lines 0) as [[d h] Hdh].
  destruct (find_value_loop_returns db lines U"total" lines 0) as [tot Ht].
  destruct (find_value_loop_returns db lines U"preco da viagem" lines 0)
    as [preco Hp].
  destruct (find_value_loop_returns db lines U"taxa de intermediacao" lines 0)
    as [taxa Htx].
  destruct (find_value_loop_returns db lines U"custo fixo" lines 0)
    as [custo Hc].
  destruct (find_value_loop_returns db lines U"promocao" lines 0)
    as [promo Hpr].
  destruct (pagamento_loop_returns db lines lines 0) as [pag Hpag].
  destruct (info_loop_returns db lines lines 0) as [[[cat dist] dur] Hinfo].
  destruct (pontos_de_returns db lines) as [pts Hpts].
  exists (d, h), tot, preco, taxa, custo, promo, pag, (cat, dist, dur), pts.
  repeat (split; [assumption|]).
  unfold Loader.recibo_de_linhas, Loader._find_value_after_keyword in *.
  rewrite Hdh, Ht, Hp, Htx, Hc, Hpr, Hpag, Hinfo, Hpts.
  unfold mbind, result_bind at 1 2 3 4 5 6 7 8 9. simpl.
  rewrite !guarded_index. reflexivity.
Qed.

(** C1: for every list of lines the parser returns a record and raises
    nothing.  Each rule (date and time header, the five keyword-anchored
    values, payment line, trip-info block, origin and destination)
    returns its own optional result on these lines, and the record holds
    for every field the result of its rule, whatever the other rules
    found.  The same holds from the lines of the extracted text, which
    are cleaned first. *)
Theorem recibo_de_linhas_returns (db : unicode_db) (nome : list N)
    (lines : list (list N)) :
  (exists dh tot preco taxa custo promo pag info pts,
     Loader.data_hora_loop db lines 0 lines = Ok dh
     /\ Loader._find_value_after_keyword db lines U"total" = Ok tot
     /\ Loader._find_value_after_keyword db lines U"preco da viagem"
        = Ok preco
     /\ Loader._find_value_after_keyword db lines U"taxa de intermediacao"
        = Ok taxa
     /\ Loader._find_value_after_keyword db lines U"custo fixo" = Ok custo
     /\ Loader._find_value_after_keyword db lines U"promocao" = Ok promo
     /\ Loader.pagamento_loop db lines 0 lines = Ok pag
     /\ Loader.info_loop db lines 0 lines = Ok info
     /\ Loader.pontos_de db lines = Ok pts
     /\ Loader.recibo_de_linhas db nome lines =
        Ok {| arquivo := nome;
              data_texto := dh.1;
              hora := dh.2;
              data_yyyymmdd :=
                Loader._parse_date_pt db
                  (Loader._norm_text db (Py.or_str dh.1 []));
              total := tot;
              preco_viagem := preco;
              taxa_intermediacao := taxa;
              custo_fixo := custo;
              promocao := promo;
              pagamento_linha := pag;
              categoria := info.1.1;
              distancia_km := info.1.2;
              duracao_min := info.2;
              origem := pts !! 0%nat;
              destino := pts !! 1%nat |})
  /\ (exists r, Loader.carregar_recibo_uber db nome lines = Ok r
                /\ arquivo r = nome)
  /\ (forall text, exists v, Loader._parse_currency text = Ok v)
  /\ Loader.recibo_de_linhas db nome [] =
     Ok {| arquivo := nome; data_texto := None; hora := None;
           data_yyyymmdd := None; total := None; preco_viagem := None;
           taxa_intermediacao := None; custo_fixo := None; promocao := None;
           pagamento_linha := None; categoria := None; distancia_km := None;
           duracao_min := None; origem := None; destino := None |}.
Proof.
  split; [exact (recibo_de_linhas_fields db nome lines)|].
  split; [|split; [apply _parse_currency_returns|vm_compute; reflexivity]].
  unfold Loader.carregar_recibo_uber.
  destruct (recibo_de_linhas_fields db nome (Loader.linhas_limpas db lines))
    as (dh & tot & preco & taxa & custo & promo & pag & info & pts
        & _ & _ & _ & _ & _ & _ & _ & _ & _ & H).
  rewrite H. eexists. split; reflexivity.
Qed.

(* ===================================================================== *)
(** ** Keyword-anchored values (C3) *)
(* ===================================================================== *)

Module KeywordFacts.
Import Keyword.

Section WithDb.

Context (db : unicode_db).

Local Abbreviation at_line := (Keyword.at_line db).
Local Abbreviation extracted := (Keyword.extracted db).
Local Abbreviation yields := (Keyword.yields db).
Local Abbreviation first_line_only := (Keyword.first_line_only db).

Lemma extracted_eq (line : list N) :
  Loader._extract_currency_from_line db line = Ok (extracted line).
Proof.
  unfold Keyword.extracted.
  destruct (_extract_currency_returns db line) as [v ->]. reflexivity.
Qed.

Lemma find_value_loop_spec lines key rest i :
  drop i lines = rest ->
  (forall i', (i' < i)%nat -> at_line lines key i' -> yields lines i' = None) ->
  match Loader.find_value_loop db lines key i rest with
  | Ok (Some v) =>
      exists k, at_line lines key k /\ yields lines k = Some v
                /\ forall i', (i' < k)%nat -> at_line lines key i' ->
                              yields lines i' = None
  | Ok None => forall k, at_line lines key k -> yields lines k = None
  | _ => False
  end.
Proof.
  revert i. induction rest as [|line rest IH]; intros i Hd Hbefore.
  - simpl. intros k Hat.
    destruct (decide (k < i)%nat) as [Hlt|Hge]; [apply Hbefore; auto|].
    exfalso. destruct Hat as (l & Hk & _). apply lookup_lt_Some in Hk.
    apply (f_equal length) in Hd. rewrite length_drop in Hd. simpl in Hd.
    lia.
  - assert (lines !! i = Some line) as Hi.
    { pose proof (lookup_drop lines i 0) as H.
      rewrite Hd, Nat.add_0_r in H. symmetry. exact H. }
    assert (drop (S i) lines = rest) as Hd'.
    { rewrite (drop_S _ _ _ Hi) in Hd. congruence. }
    cbn [Loader.find_value_loop].
    destruct (Str.contains key (Loader._norm_text db line)) eqn:Hc.
    + rewrite extracted_eq.
      unfold mbind, result_bind at 1. cbv beta iota.
      destruct (extracted line) as [v|] eqn:Hv.
      { exists i. split; [exists line; auto|]. split; [|exact Hbefore].
        unfold Keyword.yields. rewrite Hi, Hv. reflexivity. }
      assert (forall y, yields lines i = y ->
                (forall i', (i' < S i)%nat -> at_line lines key i' ->
                            yields lines i' = None) \/ y <> None)
        as Hstep.
      { intros y Hy. destruct y; [right; discriminate|left].
        intros i' Hlt Hat. destruct (decide (i' = i)) as [->|Hne]; [auto|].
        apply Hbefore; [lia|auto]. }
      case_bool_decide as Hlen.
      * destruct (index_lt lines _ Hlen) as (next & Hn & Hn').
        rewrite Hn. unfold mbind, result_bind at 1. cbv beta iota.
        rewrite extracted_eq.
        unfold mbind, result_bind at 1. cbv beta iota.
        destruct (extracted next) as [v|] eqn:Hv'.
        { exists i. split; [exists line; auto|]. split; [|exact Hbefore].
          unfold Keyword.yields. rewrite Hi, Hv, Hn'. exact Hv'. }
        apply IH; [exact Hd'|].
        destruct (Hstep None) as [H|H]; [|exact H|congruence].
        unfold Keyword.yields. rewrite Hi, Hv, Hn'. exact Hv'.
      * apply IH; [exact Hd'|].
        destruct (Hstep None) as [H|H]; [|exact H|congruence].
        unfold Keyword.yields. rewrite Hi, Hv.
        rewrite lookup_ge_None_2 by lia. reflexivity.
    + apply IH; [exact Hd'|].
      intros i' Hlt Hat. destruct (decide (i' = i)) as [->|Hne].
      * destruct Hat as (l & Hl & Hl'). congruence.
      * apply Hbefore; [lia|auto].
Qed.

End WithDb.

End KeywordFacts.

(** C3 as stated fails: in the lines ["Total"], ["abc"], ["Total R$ 5,00"]
    the first line that names ["total"] yields no value, neither on itself
    nor on the next line, so the rule as worded gives no value; the code
    goes on and returns the 5.0 of the later ["Total"] line. *)
Lemma later_keyword_line_consulted :
  let lines := [U"Total"; U"abc"; U"Total R$ 5,00"] in
  Keyword.first_line_only Unicode.latin1 lines U"total" = None
  /\ Loader._find_value_after_keyword Unicode.latin1 lines U"total"
     = Ok (Some f5)
  /\ Loader._find_value_after_keyword Unicode.latin1 lines U"total"
     <> Ok (Keyword.first_line_only Unicode.latin1 lines U"total").
Proof. vm_compute. repeat split; discriminate. Qed.

(** C3, amended: the value of a keyword is the one yielded by the first
    line that names the keyword and yields a value, where a line yields
    the value extracted from itself or else from the line immediately
    following; keyword lines that yield nothing are passed over, and the
    result is absent exactly when no keyword line yields a value. *)
Theorem find_value_first_yielding (db : unicode_db) (lines : list (list N))
    (key : list N) :
  match Loader._find_value_after_keyword db lines key with
  | Ok (Some v) =>
      exists k, Keyword.at_line db lines key k
                /\ Keyword.yields db lines k = Some v
                /\ forall i', (i' < k)%nat -> Keyword.at_line db lines key i' ->
                              Keyword.yields db lines i' = None
  | Ok None =>
      forall k, Keyword.at_line db lines key k ->
                Keyword.yields db lines k = None
  | _ => False
  end.
Proof.
  apply KeywordFacts.find_value_loop_spec; [reflexivity|]. intros i' Hlt. lia.
Qed.

(* ===================================================================== *)
(** ** The currency pattern, without backtracking *)
(* ===================================================================== *)

(** Arithmetic goals stated with the boolean tests of the model. *)
Ltac bool_lia :=
  rewrite ?orb_true_iff, ?andb_true_iff, ?orb_false_iff, ?andb_false_iff,
    ?negb_true_iff, ?negb_false_iff,
    ?N.leb_le, ?N.leb_gt, ?N.eqb_eq, ?N.eqb_neq, ?N.ltb_lt, ?N.ltb_ge in *;
  lia.

Module CurrencyReFacts.
Import CurrencyRe.

Lemma span_app (p : N -> bool) (s : list N) :
  (Float.span p s).1 ++ (Float.span p s).2 = s.
Proof.
  induction s as [|c r IH]; simpl; [reflexivity|].
  destruct (p c); [|reflexivity].
  destruct (Float.span p r) as [a b]. simpl in *. congruence.
Qed.

Lemma span_forall (p : N -> bool) (s : list N) :
  forallb p (Float.span p s).1 = true.
Proof.
  induction s as [|c r IH]; simpl; [reflexivity|].
  destruct (p c) eqn:Hc; [|reflexivity].
  destruct (Float.span p r) as [a b]. simpl in *. rewrite Hc. exact IH.
Qed.

(** A run followed by a character outside the class, or by nothing, is
    the prefix that [span] cuts. *)
Lemma span_run (p : N -> bool) (a rest : list N) :
  forallb p a = true ->
  match rest with [] => True | c :: _ => p c = false end ->
  Float.span p (a ++ rest) = (a, rest).
Proof.
  intros Ha Hr. induction a as [|c a IH]; simpl in *.
  - destruct rest as [|c r]; [reflexivity|]. simpl. rewrite Hr. reflexivity.
  - apply andb_prop in Ha as [Hc Ha]. rewrite Hc, (IH Ha). reflexivity.
Qed.

Lemma greedy_group (p : N -> bool) (acc s : list N) :
  Re.greedy p (fun g _ => match g with [] => None | _ => Some g end) acc s
  = nonempty (acc ++ (Float.span p s).1).
Proof.
  revert acc. induction s as [|c r IH]; intros acc; simpl.
  - rewrite app_nil_r. reflexivity.
  - destruct (p c).
    + rewrite IH. destruct (Float.span p r) as [a b]. simpl.
      rewrite <- app_assoc. simpl.
      destruct (acc ++ c :: a) eqn:E; [|reflexivity].
      destruct acc; discriminate.
    + simpl. rewrite app_nil_r. reflexivity.
Qed.

Lemma greedy1_amount (s : list N) :
  Re.greedy1 Re.is_amount_char (fun g _ => Some g) s = amount s.
Proof. unfold Re.greedy1. rewrite greedy_group. reflexivity. Qed.

Lemma search_ext {A} (m m' : list N -> option A) (s : list N) :
  (forall t, m t = m' t) -> Re.search m s = Re.search m' s.
Proof.
  intros H. induction s as [|c r IH]; simpl; rewrite H; [reflexivity|].
  rewrite IH. reflexivity.
Qed.

Section WithDb.

Context (db : unicode_db).

Local Abbreviation after_prefix := (CurrencyRe.after_prefix db).
Local Abbreviation prefixed := (CurrencyRe.prefixed db).
Local Abbreviation here := (CurrencyRe.here db).

Lemma amount_char_not_space (c : N) :
  Re.is_amount_char c = true -> Py.isspace db c = false.
Proof.
  unfold Re.is_amount_char, Py.isspace, Py.is_ascii_digit, Py.is_ascii.
  intros H.
  destruct (c <? 128) eqn:Hc; bool_lia.
Qed.

Lemma amount_of_space (c : N) (r : list N) :
  Py.isspace db c = true -> amount (c :: r) = None.
Proof.
  intros Hs. unfold amount, amount_prefix, nonempty. simpl.
  destruct (Re.is_amount_char c) eqn:Ha; [|reflexivity].
  apply amount_char_not_space in Ha. congruence.
Qed.

(** [\s*([0-9.,]+)]: the blanks are skipped, then the amount read. *)
Lemma spaces_then_amount (acc s : list N) :
  Re.greedy (Py.isspace db)
    (fun _ rest => Re.greedy1 Re.is_amount_char (fun g _ => Some g) rest)
    acc s
  = amount (Str.lstrip (Py.isspace db) s).
Proof.
  revert acc. induction s as [|c r IH]; intros acc; simpl.
  - apply greedy1_amount.
  - destruct (Py.isspace db c) eqn:Hs.
    + rewrite IH. destruct (amount _); [reflexivity|].
      rewrite greedy1_amount. apply amount_of_space, Hs.
    + apply greedy1_amount.
Qed.

Lemma lit_prefixed (s : list N) :
  Re.lit U"R$" (fun rest =>
    Re.greedy (Py.isspace db) (fun _ rest =>
      Re.greedy1 Re.is_amount_char (fun g _ => Some g) rest) [] rest) s
  = prefixed s.
Proof.
  unfold Re.lit, CurrencyRe.prefixed.
  destruct s as [|a [|b r]]; [reflexivity| |].
  - change (Str.startswith U"R$" [a]) with ((82 =? a) && false).
    rewrite andb_false_r. reflexivity.
  - change (Str.startswith U"R$" (a :: b :: r))
      with ((82 =? a) && ((36 =? b) && true)).
    rewrite andb_true_r, (N.eqb_sym 82), (N.eqb_sym 36).
    destruct ((a =? 82) && (b =? 36)); [|reflexivity].
    apply spaces_then_amount.
Qed.

Lemma currency_here_eq (s : list N) : Re.currency_here db s = here s.
Proof.
  unfold Re.currency_here, CurrencyRe.here. cbv zeta.
  destruct s as [|c r]; [reflexivity|].
  destruct (N.eqb_spec c 45) as [->|Hne].
  - cbv beta iota. rewrite !lit_prefixed.
    destruct (prefixed r); [reflexivity|].
    destruct r as [|b r']; reflexivity.
  - destruct c as [|p];
      [cbv beta iota; rewrite lit_prefixed; reflexivity|].
    do 6 (destruct p as [p|p|];
          try (cbv beta iota; rewrite lit_prefixed; reflexivity)).
    congruence.
Qed.

Lemma currency_re_eq (s : list N) :
  Re.currency_re db s = Re.search here s.
Proof. apply search_ext, currency_here_eq. Qed.

End WithDb.

End CurrencyReFacts.

(* ===================================================================== *)
(** ** Signs of parsed amounts *)
(* ===================================================================== *)

Module Sign.

Lemma of_ratio_sign (sx : bool) (n : N) (d : positive) :
  is_negative (Float.of_ratio sx n d) = true -> sx = true.
Proof.
  unfold Float.of_ratio. destruct n as [|p]; [simpl; auto|].
  cbv zeta. unfold binary_round_aux.
  destruct (shr_fexp _ _ _ _ _) as [mrs' e'].
  destruct (shr_fexp _ _ _ _ _) as [mrs'' e''].
  destruct (shr_m mrs''); simpl; try discriminate; auto.
  destruct (_ <=? _)%Z; simpl; auto.
Qed.

(** The characters that can open the string handed to [float]. *)
Lemma sign_split (s : list N) :
  (exists r, s = 45 :: r)
  \/ (exists body,
        match s with
        | 45 :: r => (true, r)
        | 43 :: r => (false, r)
        | _ => (false, s)
        end = (false, body)).
Proof.
  destruct s as [|c r]; [right; eauto|].
  destruct c as [|p]; [right; eauto|].
  do 6 (destruct p as [p|p|]; try (right; eauto; fail)).
  left. eauto.
Qed.

Lemma of_str_sign (s : list N) (v : spec_float) :
  Float.of_str s = Ok v -> is_negative v = true -> exists r, s = 45 :: r.
Proof.
  intros Hv Hneg. destruct (sign_split s) as [H|[body Hb]]; [exact H|].
  exfalso. unfold Float.of_str in Hv. rewrite Hb in Hv.
  destruct (Float.span Py.is_ascii_digit body) as [ip rest].
  destruct rest as [|c fr].
  - destruct ip; [discriminate|]. injection Hv as <-.
    apply of_ratio_sign in Hneg. discriminate.
  - destruct c as [|p]; [discriminate|].
    do 6 (destruct p as [p|p|]; try discriminate).
    destruct (_ && _); [|discriminate]. injection Hv as <-.
    apply of_ratio_sign in Hneg. discriminate.
Qed.

Lemma replace1_elem (c : N) (r s : list N) (x : N) :
  x ∈ Str.replace1 c r s -> x ∈ s \/ x ∈ r.
Proof.
  unfold Str.replace1. induction s as [|y s IH]; simpl.
  - intros H. inversion H.
  - rewrite elem_of_app. intros [H|H].
    + destruct (y =? c); [right; exact H|].
      left. apply list_elem_of_singleton in H as ->. left.
    + destruct (IH H) as [H'|H']; [left; right; exact H'|right; exact H'].
Qed.

(** A text without a minus sign never parses to a negative amount. *)
Lemma parse_currency_sign (text : list N) (v : spec_float) :
  45 ∉ text -> Loader._parse_currency text = Ok (Some v) ->
  is_negative v = false.
Proof.
  intros Hno Hv. destruct (is_negative v) eqn:Hneg; [exfalso|reflexivity].
  unfold Loader._parse_currency in Hv.
  assert (45 ∉ List.filter Loader.is_currency_char
                 (Str.replace1 65533 [] text)) as Hf.
  { intros H. apply list_elem_of_In, filter_In in H as [H _].
    apply list_elem_of_In, replace1_elem in H as [H|H]; [auto|inversion H]. }
  destruct (List.filter _ _) as [|c s] eqn:E; [discriminate|].
  match type of Hv with
  | try_except (_ ← Float.of_str ?x; _) _ = _ =>
      assert (45 ∉ x) as Hx; [|destruct (Float.of_str x) as [w| |] eqn:Hw]
  end.
  - destruct (_ && _); intros H.
    + apply replace1_elem in H as [H|H].
      * apply replace1_elem in H as [H|H]; [auto|inversion H].
      * apply list_elem_of_singleton in H. discriminate.
    + apply replace1_elem in H as [H|H]; [auto|].
      apply list_elem_of_singleton in H. discriminate.
  - simpl in Hv. injection Hv as ->.
    destruct (of_str_sign _ _ Hw Hneg) as [r Hr].
    apply Hx. rewrite Hr. left.
  - simpl in Hv. discriminate.
  - simpl in Hv. discriminate.
Qed.

End Sign.

(* ===================================================================== *)
(** ** The amount after the prefix *)
(* ===================================================================== *)

Module PrefixFacts.
Import Prefix.

Section WithDb.

Context (db : unicode_db).

Lemma lstrip_run (p : N -> bool) (ws t : list N) :
  forallb p ws = true -> stops p t -> Str.lstrip p (ws ++ t) = t.
Proof.
  intros Hws Ht. induction ws as [|c ws IH]; simpl in *.
  - destruct t as [|c r]; [reflexivity|]. simpl in *. rewrite Ht.
    reflexivity.
  - apply andb_prop in Hws as [Hc Hws]. rewrite Hc. auto.
Qed.

Lemma search_here {A} (m : list N -> option A) (s : list N) (x : A) :
  m s = Some x -> Re.search m s = Some x.
Proof. intros H. destruct s; simpl; rewrite H; reflexivity. Qed.

(** After ["R$"], blanks [ws] and an amount [a] that [rest] does not
    prolong: the group is [a]. *)
Lemma after_prefix_amount (ws a rest : list N) :
  forallb (Py.isspace db) ws = true ->
  a <> [] -> forallb Re.is_amount_char a = true ->
  stops Re.is_amount_char rest ->
  CurrencyRe.after_prefix db (ws ++ a ++ rest) = Some a.
Proof.
  intros Hws Ha Hall Hrest. unfold CurrencyRe.after_prefix.
  rewrite lstrip_run; [|exact Hws|].
  - unfold CurrencyRe.amount, CurrencyRe.amount_prefix.
    rewrite (CurrencyReFacts.span_run _ a rest Hall Hrest). simpl.
    destruct a; [congruence|reflexivity].
  - destruct a as [|c a]; [congruence|]. simpl in *.
    apply andb_prop in Hall as [Hc _].
    apply CurrencyReFacts.amount_char_not_space, Hc.
Qed.

End WithDb.

End PrefixFacts.

(* ===================================================================== *)
(** ** Currency extraction (C4) *)
(* ===================================================================== *)

Module CurrencyFacts.
Import Currency.

Lemma replace1_map (c d : N) (s : list N) :
  Str.replace1 c [d] s = map (fun x => if x =? c then d else x) s.
Proof.
  unfold Str.replace1. induction s as [|x s IH]; simpl; [reflexivity|].
  rewrite IH. destruct (x =? c); reflexivity.
Qed.

Lemma replace1_filter (c : N) (s : list N) :
  Str.replace1 c [] s = List.filter (fun x => negb (x =? c)) s.
Proof.
  unfold Str.replace1. induction s as [|x s IH]; simpl; [reflexivity|].
  rewrite IH. destruct (x =? c); reflexivity.
Qed.

Lemma cleaned_eq (text : list N) :
  List.filter Loader.is_currency_char (Str.replace1 65533 [] text)
  = cleaned text.
Proof.
  rewrite replace1_filter. unfold cleaned.
  induction text as [|x s IH]; simpl; [reflexivity|].
  assert (Loader.is_currency_char x
          = Py.is_ascii_digit x || bool_decide (x ∈ [44; 46; 45])) as Hx.
  { unfold Loader.is_currency_char.
    destruct (Py.is_ascii_digit x); simpl; [reflexivity|].
    destruct (N.eqb_spec x 44) as [->|H44]; [reflexivity|].
    destruct (N.eqb_spec x 46) as [->|H46]; [reflexivity|].
    destruct (N.eqb_spec x 45) as [->|H45]; [reflexivity|].
    symmetry. apply bool_decide_eq_false. intros H.
    repeat (apply elem_of_cons in H as [H|H]; [congruence|]).
    inversion H. }
  destruct (N.eqb_spec x 65533) as [->|Hne]; simpl; [rewrite IH; reflexivity|].
  rewrite Hx, IH. reflexivity.
Qed.

(** [_parse_currency] does what the specification says. *)
Lemma parse_currency_spec (text : list N) :
  Loader._parse_currency text = Ok (parse_spec text).
Proof.
  unfold Loader._parse_currency, parse_spec. rewrite cleaned_eq.
  destruct (cleaned text) as [|c s] eqn:E; [reflexivity|].
  rewrite <- E. clear E c s.
  assert ((if bool_decide (44 ∈ cleaned text) && bool_decide (46 ∈ cleaned text)
           then Str.replace1 44 [46] (Str.replace1 46 [] (cleaned text))
           else Str.replace1 44 [46] (cleaned text))
          = number_text (cleaned text)) as ->.
  { unfold number_text. rewrite !replace1_map, replace1_filter.
    repeat case_bool_decide; simpl; try reflexivity; tauto. }
  destruct (of_str_returns (number_text (cleaned text))) as [[v ->]| ->];
    reflexivity.
Qed.

(** A string without digits is not a number. *)
Lemma of_str_no_digit (s : list N) :
  (forall c, c ∈ s -> Py.is_ascii_digit c = false) ->
  Float.of_str s = Raise ValueError.
Proof.
  intros Hs. unfold Float.of_str.
  assert (forall body, (forall c, c ∈ body -> Py.is_ascii_digit c = false) ->
            Float.span Py.is_ascii_digit body = ([], body)) as Hspan.
  { intros [|c r] Hb; [reflexivity|]. simpl.
    rewrite (Hb c) by left. reflexivity. }
  assert (forall sx body,
            (forall c, c ∈ body -> Py.is_ascii_digit c = false) ->
            (let '(ip, rest) := Float.span Py.is_ascii_digit body in
             match rest with
             | [] => match ip with
                     | [] => Raise ValueError
                     | _ => Ok (Float.of_ratio sx (Float.digits_value ip) 1)
                     end
             | 46 :: fr =>
                 if forallb Py.is_ascii_digit fr
                    && negb (bool_decide (ip = []) && bool_decide (fr = []))
                 then Ok (Float.of_ratio sx (Float.digits_value (ip ++ fr))
                            (Z.to_pos (10 ^ Z.of_nat (length fr))))
                 else Raise ValueError
             | _ => Raise ValueError
             end) = Raise ValueError) as Hbody.
  { intros sx body Hb. rewrite (Hspan body Hb).
    destruct body as [|c fr]; [reflexivity|].
    destruct c as [|p]; [reflexivity|].
    do 6 (destruct p as [p|p|]; try reflexivity).
    destruct fr as [|d fr]; [reflexivity|].
    simpl. rewrite (Hb d) by (right; left). reflexivity. }
  destruct (Sign.sign_split s) as [[r ->]|[body Hb]].
  - apply Hbody. intros c Hc. apply Hs. right. exact Hc.
  - rewrite Hb. apply Hbody.
    destruct s as [|c r]; [injection Hb as <-; exact Hs|].
    destruct c as [|p]; [injection Hb as <-; exact Hs|].
    do 6 (destruct p as [p|p|]; try (injection Hb as <-; exact Hs)).
    + injection Hb as <-. intros c Hc. apply Hs. right. exact Hc.
    + discriminate.
Qed.

Lemma parse_currency_no_digit (text : list N) :
  (forall c, c ∈ text -> Py.is_ascii_digit c = false) ->
  Loader._parse_currency text = Ok None.
Proof.
  intros Ht. rewrite parse_currency_spec. unfold parse_spec.
  rewrite of_str_no_digit; [reflexivity|].
  intros c Hc. unfold number_text in Hc.
  assert (forall s, c ∈ map (fun c => if c =? 44 then 46 else c) s ->
                    (forall x, x ∈ s -> Py.is_ascii_digit x = false) ->
                    Py.is_ascii_digit c = false) as Hmap.
  { intros s H Hd. apply list_elem_of_fmap in H as (x & -> & Hx).
    destruct (x =? 44); [reflexivity|auto]. }
  assert (forall x, x ∈ cleaned text -> Py.is_ascii_digit x = false) as Hcl.
  { intros x Hx. apply Ht. unfold cleaned in Hx.
    apply list_elem_of_In, filter_In in Hx as [Hx _].
    apply list_elem_of_In, Hx. }
  case_bool_decide.
  - apply (Hmap _ Hc). intros x Hx. apply Hcl.
    apply list_elem_of_In, filter_In in Hx as [Hx _].
    apply list_elem_of_In, Hx.
  - apply (Hmap _ Hc Hcl).
Qed.

Section WithDb.

Context (db : unicode_db).

Lemma lstrip_elem (p : N -> bool) (s : list N) (c : N) :
  c ∈ Str.lstrip p s -> c ∈ s.
Proof.
  induction s as [|x s IH]; simpl; [auto|].
  destruct (p x); [right; auto|auto].
Qed.

Lemma after_prefix_elem (s g : list N) (c : N) :
  CurrencyRe.after_prefix db s = Some g -> c ∈ g -> c ∈ s.
Proof.
  unfold CurrencyRe.after_prefix, CurrencyRe.amount, CurrencyRe.nonempty,
    CurrencyRe.amount_prefix.
  intros Hg Hc. apply (lstrip_elem (Py.isspace db)).
  rewrite <- (CurrencyReFacts.span_app Re.is_amount_char).
  apply elem_of_app. left.
  destruct (Float.span _ _).1; [discriminate|]. injection Hg as <-.
  exact Hc.
Qed.

Lemma prefixed_elem (s g : list N) (c : N) :
  CurrencyRe.prefixed db s = Some g -> c ∈ g -> c ∈ s.
Proof.
  destruct s as [|a [|b r]]; simpl; try discriminate.
  destruct (_ && _); [|discriminate].
  intros Hg Hc. do 2 right. eapply after_prefix_elem; eauto.
Qed.

Lemma here_elem (s g : list N) (c : N) :
  CurrencyRe.here db s = Some g -> c ∈ g -> c ∈ s.
Proof.
  destruct s as [|a r]; simpl; [discriminate|].
  destruct (a =? 45); intros Hg Hc.
  - right. eapply prefixed_elem; eauto.
  - eapply prefixed_elem; eauto.
Qed.

(** The group of the pattern is made of characters of the line. *)
Lemma currency_re_elem (s g : list N) (c : N) :
  Re.currency_re db s = Some g -> c ∈ g -> c ∈ s.
Proof.
  rewrite CurrencyReFacts.currency_re_eq.
  induction s as [|x s IH]; cbn [Re.search].
  - change (CurrencyRe.here db []) with (@None (list N)). discriminate.
  - destruct (CurrencyRe.here db (x :: s)) as [g'|] eqn:Hh.
    + intros [= ->]. eapply here_elem; eauto.
    + intros Hg Hc. right. apply IH; auto.
Qed.

Lemma extract_no_digit (line : list N) :
  (forall c, c ∈ line -> Py.is_ascii_digit c = false) ->
  Loader._extract_currency_from_line db line = Ok None.
Proof.
  intros Hl. unfold Loader._extract_currency_from_line.
  destruct (Re.currency_re db line) as [g|] eqn:Hg.
  - apply parse_currency_no_digit. intros c Hc. apply Hl.
    eapply currency_re_elem; eauto.
  - apply parse_currency_no_digit, Hl.
Qed.

End WithDb.

End CurrencyFacts.

Module FirstAmount.

Section WithDb.

Context (db : unicode_db).

(** Text that ends before a ["R$"] holds a match of the prefixed
    pattern only if it held one by itself. *)
Lemma after_prefix_app (r t : list N) :
  CurrencyRe.after_prefix db r = None ->
  CurrencyRe.after_prefix db (r ++ 82 :: 36 :: t) = None.
Proof.
  unfold CurrencyRe.after_prefix.
  induction r as [|c r IH]; simpl; [reflexivity|].
  destruct (Py.isspace db c); [exact IH|].
  unfold CurrencyRe.amount, CurrencyRe.amount_prefix. simpl.
  destruct (Re.is_amount_char c); [|reflexivity].
  destruct (Float.span _ r) as [a b], (Float.span _ (r ++ _)) as [a' b'].
  discriminate.
Qed.

Lemma prefixed_app (p t g : list N) :
  CurrencyRe.prefixed db p = None ->
  CurrencyRe.prefixed db (p ++ 82 :: 36 :: t) = Some g -> p = [].
Proof.
  destruct p as [|a [|b r]]; [reflexivity| |].
  - simpl. rewrite andb_false_r. discriminate.
  - simpl. destruct (_ && _); [|discriminate].
    intros Hr. rewrite (after_prefix_app r t Hr). discriminate.
Qed.

Lemma here_app (p t g : list N) :
  CurrencyRe.here db p = None ->
  CurrencyRe.here db (p ++ 82 :: 36 :: t) = Some g ->
  CurrencyRe.here db (82 :: 36 :: t) = Some g.
Proof.
  destruct p as [|c r]; [auto|].
  change (CurrencyRe.here db ((c :: r) ++ 82 :: 36 :: t))
    with (if c =? 45 then CurrencyRe.prefixed db (r ++ 82 :: 36 :: t)
          else CurrencyRe.prefixed db ((c :: r) ++ 82 :: 36 :: t)).
  change (CurrencyRe.here db (c :: r))
    with (if c =? 45 then CurrencyRe.prefixed db r
          else CurrencyRe.prefixed db (c :: r)).
  destruct (c =? 45); intros Hp Hg.
  - rewrite (prefixed_app r t g Hp Hg) in Hg. exact Hg.
  - pose proof (prefixed_app _ t g Hp Hg). discriminate.
Qed.

(** The first match of a line [pre ++ "R$..."] whose part [pre] holds
    no match is the one at that ["R$"]. *)
Lemma search_app (pre t g : list N) :
  Re.search (CurrencyRe.here db) pre = None ->
  CurrencyRe.here db (82 :: 36 :: t) = Some g ->
  Re.search (CurrencyRe.here db) (pre ++ 82 :: 36 :: t) = Some g.
Proof.
  intros Hpre Hg. induction pre as [|c pre IH].
  - apply PrefixFacts.search_here, Hg.
  - cbn [Re.search] in Hpre.
    destruct (CurrencyRe.here db (c :: pre)) eqn:Hc; [discriminate|].
    change ((c :: pre) ++ 82 :: 36 :: t)
      with (c :: (pre ++ 82 :: 36 :: t)).
    cbn [Re.search].
    destruct (CurrencyRe.here db (c :: pre ++ 82 :: 36 :: t))
      as [g'|] eqn:Hc'.
    + rewrite <- Hg. symmetry. apply (here_app (c :: pre)); assumption.
    + apply IH, Hpre.
Qed.

Lemma extract_first_amount (pre post : list N) :
  Re.currency_re db pre = None ->
  Prefix.stops Re.is_amount_char post ->
  Loader._extract_currency_from_line db (pre ++ U"R$ 1.234,56" ++ post)
  = Ok (Some f1234_56).
Proof.
  intros Hpre Hpost. unfold Loader._extract_currency_from_line.
  rewrite CurrencyReFacts.currency_re_eq in *.
  change (U"R$ 1.234,56" ++ post)
    with (82 :: 36 :: (U" " ++ U"1.234,56" ++ post)).
  rewrite (search_app pre _ U"1.234,56" Hpre).
  - vm_compute. reflexivity.
  - change (CurrencyRe.here db (82 :: 36 :: U" " ++ U"1.234,56" ++ post))
      with (CurrencyRe.after_prefix db (U" " ++ U"1.234,56" ++ post)).
    apply PrefixFacts.after_prefix_amount;
      [reflexivity|discriminate|reflexivity|exact Hpost].
Qed.

End WithDb.

End FirstAmount.

(** C4 as stated fails: the line below contains ["R$ 1.234,56"], and
    currency extraction returns the 10.0 of the amount that comes first. *)
Lemma earlier_amount_wins :
  let line := U"R$ 10,00 de desconto sobre R$ 1.234,56" in
  Str.contains U"R$ 1.234,56" line = true
  /\ Loader._extract_currency_from_line Unicode.latin1 line = Ok (Some f10)
  /\ Loader._extract_currency_from_line Unicode.latin1 line
     <> Ok (Some f1234_56).
Proof. vm_compute. split; [reflexivity|]. split; [reflexivity|discriminate]. Qed.

(** C4, amended: a line in which ["R$ 1.234,56"] is the first amount
    introduced by ["R$"], and is followed neither by a digit nor by a
    period or a comma, yields 1234.56; the bare strings ["1.234,56"] and
    ["1234,56"] yield 1234.56; a line without digits yields no value; and
    parsing keeps only digits, commas, periods and minus signs, drops the
    periods and turns the commas into periods when both occur, turns the
    commas into periods otherwise, and gives no value when the string that
    results is not a number. *)
Theorem currency_extraction (db : unicode_db) :
  (forall pre post,
     Re.currency_re db pre = None ->
     Prefix.stops Re.is_amount_char post ->
     Loader._extract_currency_from_line db (pre ++ U"R$ 1.234,56" ++ post)
     = Ok (Some f1234_56))
  /\ Loader._extract_currency_from_line db U"1.234,56" = Ok (Some f1234_56)
  /\ Loader._extract_currency_from_line db U"1234,56" = Ok (Some f1234_56)
  /\ (forall line,
        (forall c, c ∈ line -> Py.is_ascii_digit c = false) ->
        Loader._extract_currency_from_line db line = Ok None)
  /\ (forall text,
        Loader._parse_currency text = Ok (Currency.parse_spec text)).
Proof.
  split; [apply FirstAmount.extract_first_amount|].
  split; [vm_compute; reflexivity|].
  split; [vm_compute; reflexivity|].
  split; [apply CurrencyFacts.extract_no_digit|apply CurrencyFacts.parse_currency_spec].
Qed.

Lemma currency_extraction_witness :
  Loader._extract_currency_from_line Unicode.latin1
    U"Total: R$ 1.234,56 (Visa)" = Ok (Some f1234_56)
  /\ Loader._extract_currency_from_line Unicode.latin1 U"Obrigado!" = Ok None.
Proof.
  destruct (currency_extraction Unicode.latin1) as (Hfirst & _ & _ & Hnone & _).
  split.
  - apply (Hfirst U"Total: " U" (Visa)"); reflexivity.
  - apply Hnone. intros c Hc.
    repeat (apply elem_of_cons in Hc as [->|Hc]; [reflexivity|]).
    inversion Hc.
Defined.

(* ===================================================================== *)
(** ** A minus sign before the prefix is dropped (C10) *)
(* ===================================================================== *)

Module QuantiaFacts.
Import Quantia.

Lemma sign_none (c : N) (r : list N) :
  is_point_char c = true ->
  match c :: r with
  | 45 :: r' => (true, r')
  | 43 :: r' => (false, r')
  | _ => (false, c :: r)
  end = (false, c :: r).
Proof.
  intros H. destruct c as [|p]; [reflexivity|].
  do 6 (destruct p as [p|p|]; try reflexivity); discriminate H.
Qed.

Lemma span_rest (p : N -> bool) (s : list N) :
  match (Float.span p s).2 with [] => True | c :: _ => p c = false end.
Proof.
  induction s as [|c r IH]; simpl; [exact I|].
  destruct (p c) eqn:E; [|exact E].
  destruct (Float.span p r) as [a b]. exact IH.
Qed.

Lemma points_app (s t : list N) : n_points (s ++ t) = (n_points s + n_points t)%nat.
Proof. unfold n_points. rewrite List.filter_app, length_app. reflexivity. Qed.

Lemma digits_points (l : list N) :
  forallb Py.is_ascii_digit l = true -> n_points l = 0%nat.
Proof.
  unfold n_points. induction l as [|c r IH]; [reflexivity|].
  cbn [forallb List.filter]. intros H. apply andb_prop in H as [Hc Hr].
  assert ((46 =? c) = false) as ->
    by (unfold Py.is_ascii_digit in Hc; bool_lia).
  apply IH, Hr.
Qed.

Lemma digits_exist (l : list N) :
  forallb Py.is_ascii_digit l = true ->
  existsb Py.is_ascii_digit l = negb (bool_decide (l = [])).
Proof.
  destruct l as [|c r]; [reflexivity|]. cbn [forallb existsb].
  intros H. apply andb_prop in H as [-> _]. reflexivity.
Qed.

Lemma other_points (l : list N) :
  forallb is_point_char l = true -> forallb Py.is_ascii_digit l = false ->
  (1 <= n_points l)%nat.
Proof.
  induction l as [|c r IH]; [discriminate|].
  cbn [forallb]. intros H Hd. apply andb_prop in H as [Hc Hr].
  change (c :: r) with ([c] ++ r). rewrite points_app.
  destruct (Py.is_ascii_digit c) eqn:E.
  - specialize (IH Hr Hd). lia.
  - unfold is_point_char in Hc. rewrite E in Hc. apply N.eqb_eq in Hc.
    subst c. cbn. lia.
Qed.

(** [float] on a text of digits and periods. *)
Lemma of_str_points (s : list N) :
  forallb is_point_char s = true ->
  Float.of_str s =
  if existsb Py.is_ascii_digit s && (n_points s <=? 1)%nat
  then Ok (let '(ip, rest) := Float.span Py.is_ascii_digit s in
           let fr := drop 1 rest in
           Float.of_ratio false (Float.digits_value (ip ++ fr))
             (Z.to_pos (10 ^ Z.of_nat (length fr))))
  else Raise ValueError.
Proof.
  intros Hs. unfold Float.of_str.
  assert (match s with
          | 45 :: r => (true, r)
          | 43 :: r => (false, r)
          | _ => (false, s)
          end = (false, s)) as ->.
  { destruct s as [|c r]; [reflexivity|]. apply sign_none.
    cbn [forallb] in Hs. apply andb_prop in Hs as [Hc _]. exact Hc. }
  pose proof (CurrencyReFacts.span_app Py.is_ascii_digit s) as Happ.
  pose proof (CurrencyReFacts.span_forall Py.is_ascii_digit s) as Hip.
  pose proof (span_rest Py.is_ascii_digit s) as Hrest.
  destruct (Float.span Py.is_ascii_digit s) as [ip rest].
  cbn [fst snd] in *. subst s.
  rewrite forallb_app in Hs. apply andb_prop in Hs as [_ Hr].
  rewrite existsb_app, points_app, (digits_points ip Hip),
    (digits_exist ip Hip).
  destruct rest as [|c fr].
  - cbn [existsb n_points List.filter length drop]. rewrite !app_nil_r.
    destruct ip; reflexivity.
  - cbn [forallb] in Hr. apply andb_prop in Hr as [Hc Hfr].
    unfold is_point_char in Hc. rewrite Hrest in Hc. apply N.eqb_eq in Hc.
    subst c. cbn [drop existsb].
    change (Py.is_ascii_digit 46) with false.
    change (46 :: fr) with ([46] ++ fr). rewrite points_app.
    change (n_points [46]) with 1%nat. cbn [app orb].
    destruct (forallb Py.is_ascii_digit fr) eqn:Hd.
    + rewrite (digits_points fr Hd), (digits_exist fr Hd). cbn [andb].
      destruct ip, fr; reflexivity.
    + pose proof (other_points fr Hfr Hd) as Hp. cbn [andb].
      rewrite (proj2 (Nat.leb_gt _ _)) by lia.
      rewrite andb_false_r. reflexivity.
Qed.

Lemma amount_cleaned (a : list N) :
  forallb Re.is_amount_char a = true -> Currency.cleaned a = a.
Proof.
  unfold Currency.cleaned. induction a as [|c r IH]; [reflexivity|].
  cbn [forallb List.filter]. intros H. apply andb_prop in H as [Hc Hr].
  assert (Py.is_ascii_digit c || bool_decide (c ∈ [44; 46; 45]) = true)
    as ->.
  { unfold Re.is_amount_char in Hc.
    destruct (Py.is_ascii_digit c); [reflexivity|]. cbn [orb] in *.
    apply bool_decide_eq_true.
    apply orb_prop in Hc as [Hc|Hc]; apply N.eqb_eq in Hc; subst c.
    - right. left.
    - left. }
  rewrite (IH Hr). reflexivity.
Qed.

Lemma number_text_chars (a : list N) :
  forallb Re.is_amount_char a = true ->
  forallb is_point_char (Currency.number_text a) = true.
Proof.
  intros H.
  assert (forall l, forallb Re.is_amount_char l = true ->
            forallb is_point_char
              (map (fun c => if c =? 44 then 46 else c) l) = true) as Hmap.
  { induction l as [|c r IH]; [reflexivity|]. cbn [forallb map].
    intros Hl. apply andb_prop in Hl as [Hc Hr]. rewrite (IH Hr).
    destruct (N.eqb_spec c 44) as [->|Hne]; [reflexivity|].
    unfold Re.is_amount_char in Hc. unfold is_point_char.
    destruct (Py.is_ascii_digit c); [reflexivity|]. cbn [orb] in *.
    apply orb_prop in Hc as [Hc|Hc]; [rewrite Hc; reflexivity|].
    apply N.eqb_eq in Hc. contradiction. }
  unfold Currency.number_text. case_bool_decide; apply Hmap; [|exact H].
  rewrite forallb_forall in *. intros c Hc.
  apply filter_In in Hc as [Hc _]. apply H, Hc.
Qed.

(** The parse of an amount: its value when it is a number, and nothing
    otherwise. *)
Lemma parse_amount (a : list N) :
  forallb Re.is_amount_char a = true ->
  Loader._parse_currency a
  = Ok (if is_number a then Some (value_of a) else None).
Proof.
  intros H. rewrite CurrencyFacts.parse_currency_spec.
  unfold Currency.parse_spec. rewrite (amount_cleaned a H).
  rewrite (of_str_points _ (number_text_chars a H)).
  unfold is_number, value_of.
  destruct (existsb _ _ && _); reflexivity.
Qed.

Lemma value_of_sign (a : list N) : is_negative (value_of a) = false.
Proof.
  unfold value_of.
  destruct (Float.span Py.is_ascii_digit (Currency.number_text a))
    as [ip rest].
  destruct (is_negative _) eqn:E; [|reflexivity].
  apply Sign.of_ratio_sign in E. discriminate.
Qed.

End QuantiaFacts.

(** The claim C10 as it is worded fails: a line with a minus sign, the
    prefix and an amount that contains digits can give no value at all. *)
Lemma minus_amount_without_value :
  let a := U"1.234.567" in
  forallb Re.is_amount_char a = true
  /\ existsb Py.is_ascii_digit a = true
  /\ Loader._extract_currency_from_line Unicode.latin1 (U"-R$ " ++ a)
     = Ok None
  /\ Loader._extract_currency_from_line Unicode.latin1 (U"-R$ " ++ a)
     <> Ok (Some (Quantia.value_of U"1234567")).
Proof. vm_compute. repeat split; discriminate. Qed.

(** C10, amended: on a line that starts with a minus sign, the prefix
    ["R$"], optional blanks and an amount (digits, periods and commas),
    currency extraction returns what it returns without the minus sign,
    the parse of the amount alone.  That is the value of the amount,
    never negative, when the amount is a number once its separators are
    normalised (a digit and at most one decimal point), and nothing
    otherwise.  So ["-R$ 10,00"] gives 10.0, and ["-R$ 1.234.567"] gives
    nothing. *)
Theorem minus_before_prefix_discarded (db : unicode_db)
    (ws a rest : list N) :
  forallb (Py.isspace db) ws = true ->
  a <> [] -> forallb Re.is_amount_char a = true ->
  Prefix.stops Re.is_amount_char rest ->
  Loader._extract_currency_from_line db (U"-R$" ++ ws ++ a ++ rest)
  = Loader._parse_currency a
  /\ Loader._extract_currency_from_line db (U"R$" ++ ws ++ a ++ rest)
     = Loader._parse_currency a
  /\ Loader._extract_currency_from_line db (U"-R$" ++ ws ++ a ++ rest)
     = Ok (if Quantia.is_number a then Some (Quantia.value_of a) else None)
  /\ is_negative (Quantia.value_of a) = false
  /\ (forall v, Loader._parse_currency a = Ok (Some v) ->
                is_negative v = false)
  /\ Loader._extract_currency_from_line db U"-R$ 10,00" = Ok (Some f10)
  /\ Loader._extract_currency_from_line db U"-R$ 1.234.567" = Ok None.
Proof.
  intros Hws Ha Hall Hrest.
  pose proof (PrefixFacts.after_prefix_amount db ws a rest Hws Ha Hall Hrest)
    as Hg.
  assert (Loader._extract_currency_from_line db (U"-R$" ++ ws ++ a ++ rest)
          = Loader._parse_currency a) as Hminus.
  { unfold Loader._extract_currency_from_line.
    rewrite CurrencyReFacts.currency_re_eq.
    rewrite (PrefixFacts.search_here _ _ a); [reflexivity|exact Hg]. }
  split; [exact Hminus|]. split; [|split; [|split; [|split; [|split]]]].
  - unfold Loader._extract_currency_from_line.
    rewrite CurrencyReFacts.currency_re_eq.
    rewrite (PrefixFacts.search_here _ _ a); [reflexivity|exact Hg].
  - rewrite Hminus. apply QuantiaFacts.parse_amount, Hall.
  - apply QuantiaFacts.value_of_sign.
  - intros v Hv. apply (Sign.parse_currency_sign a v); [|exact Hv].
    intros H. apply list_elem_of_In in H.
    rewrite forallb_forall in Hall. apply Hall in H. discriminate.
  - vm_compute. reflexivity.
  - vm_compute. reflexivity.
Qed.

Lemma minus_before_prefix_discarded_witness :
  Loader._extract_currency_from_line Unicode.latin1 U"-R$ 1.234,56 pago"
  = Loader._parse_currency U"1.234,56"
  /\ Loader._extract_currency_from_line Unicode.latin1 U"-R$ 1.234,56 pago"
     = Ok (Some f1234_56)
  /\ Quantia.is_number U"1.234,56" = true.
Proof.
  destruct (minus_before_prefix_discarded Unicode.latin1 U" " U"1.234,56"
              U" pago") as (H1 & _ & H3 & _);
    [reflexivity|discriminate|reflexivity|reflexivity|].
  split; [exact H1|]. split; [|vm_compute; reflexivity].
  change (U"-R$" ++ U" " ++ U"1.234,56" ++ U" pago")
    with (U"-R$ 1.234,56 pago") in H3.
  rewrite H3. vm_compute. reflexivity.
Defined.

(* ===================================================================== *)
(** ** Portuguese dates (C5) *)
(* ===================================================================== *)

Module DatePtFacts.
Import DatePt.

Lemma months_nonempty (k mon : list N) :
  Loader.months !! k = Some mon -> mon <> [].
Proof.
  intros H. apply elem_of_list_to_map_2 in H.
  repeat (apply elem_of_cons in H as [[= _ ->]|H];
          [vm_compute; discriminate|]).
  inversion H.
Qed.

Section WithDb.

Context (db : unicode_db).

Local Abbreviation month_key := (DatePt.month_key db).

Lemma parse_date_some (s d m y mon : list N) :
  Re.date_re db s = Some (d, m, y) ->
  Loader.months !! month_key m = Some mon ->
  Loader._parse_date_pt db s = Some (y ++ mon ++ Str.zfill 2 d).
Proof.
  intros Hre Hm. unfold Loader._parse_date_pt. rewrite Hre.
  fold (month_key m). rewrite Hm.
  destruct mon; [|reflexivity].
  exfalso. exact (months_nonempty _ _ Hm eq_refl).
Qed.

Lemma parse_date_none (s : list N) :
  Loader._parse_date_pt db s = None <->
  Re.date_re db s = None
  \/ exists d m y, Re.date_re db s = Some (d, m, y)
                   /\ Loader.months !! month_key m = None.
Proof.
  unfold Loader._parse_date_pt.
  destruct (Re.date_re db s) as [[[d m] y]|]; [|tauto].
  fold (month_key m).
  destruct (Loader.months !! month_key m) as [mon|] eqn:Hm.
  - pose proof (months_nonempty _ _ Hm) as Hne.
    destruct mon; [congruence|].
    split; [discriminate|].
    intros [H|(d' & m' & y' & [= -> -> ->] & H)]; congruence.
  - split; [|reflexivity]. intros _. right. eauto.
Qed.

(** Normalization drops the accent of a Latin-1 letter that stands in
    ASCII text, under the assumptions on the database. *)
Lemma norm_one_accent (pre post : list N) (l b m : N) :
  Unicode.agrees db ->
  forallb Py.is_ascii pre = true -> forallb Py.is_ascii post = true ->
  Unicode.decompose l = [b; m] ->
  (192 <=? l) && (l <=? 255) = true ->
  Py.is_ascii b = true -> Unicode.is_mark m = true ->
  Loader._norm_text db (pre ++ l :: post)
  = Loader._norm_text db (pre ++ b :: post).
Proof.
  intros [Hnfkd Hcomb] Hpre Hpost Hl Hrange Hb Hm.
  unfold Loader._norm_text.
  assert (Py.is_ascii l = false) as Hnl by (unfold Py.is_ascii; bool_lia).
  assert (Py.is_ascii m = false) as Hnm.
  { unfold Unicode.is_mark in Hm. apply bool_decide_eq_true in Hm.
    repeat (apply elem_of_cons in Hm as [->|Hm]; [reflexivity|]).
    inversion Hm. }
  assert (forall c, Py.is_ascii c = true -> Unicode.decompose c = [c]) as Hd.
  { intros c Hc. unfold Unicode.decompose.
    destruct (Unicode.decompositions !! c) as [x|] eqn:E; [|reflexivity].
    exfalso. apply elem_of_list_to_map_2 in E.
    unfold Py.is_ascii in Hc. apply N.ltb_lt in Hc.
    repeat (apply elem_of_cons in E as [[= -> _]|E]; [lia|]).
    inversion E. }
  assert (forall t, forallb Py.is_ascii t = true ->
            flat_map Unicode.decompose t = t
            /\ forallb Unicode.is_latin1_text t = true) as Hflat.
  { induction t as [|c r IH]; [split; reflexivity|].
    cbn [forallb flat_map]. intros Hc. apply andb_prop in Hc as [Hc Hr].
    destruct (IH Hr) as [-> ->]. rewrite (Hd c Hc).
    unfold Unicode.is_latin1_text. rewrite Hc. split; reflexivity. }
  destruct (Hflat pre Hpre) as [Hfpre Hlpre].
  destruct (Hflat post Hpost) as [Hfpost Hlpost].
  assert (Py.nfkd db (pre ++ l :: post) = pre ++ b :: m :: post) as ->.
  { unfold Py.nfkd. rewrite forallb_app. cbn [forallb].
    rewrite Hnl, andb_false_r, Hnfkd.
    - rewrite flat_map_app. cbn [flat_map].
      rewrite Hfpre, Hfpost, Hl. reflexivity.
    - rewrite forallb_app. cbn [forallb].
      unfold Unicode.is_latin1_text at 2.
      rewrite Hlpre, Hlpost, Hrange, orb_true_r. reflexivity. }
  assert (Py.nfkd db (pre ++ b :: post) = pre ++ b :: post) as ->.
  { unfold Py.nfkd. rewrite forallb_app. cbn [forallb].
    rewrite Hpre, Hb, Hpost. reflexivity. }
  assert (Py.combining db b = false) as Hcb
    by (unfold Py.combining; rewrite Hb; reflexivity).
  assert (Py.combining db m = true) as Hcm
    by (unfold Py.combining; rewrite Hnm; auto).
  rewrite !List.filter_app. cbn [List.filter].
  rewrite Hcb, Hcm. reflexivity.
Qed.

End WithDb.

Lemma latin1_agrees : Unicode.agrees Unicode.latin1.
Proof. split; [reflexivity|auto]. Qed.

End DatePtFacts.

(** C5: the date ["5 de março de 2024"], normalized as the parser does
    before the call, gives ["20240305"], whatever its case; the month is
    found by the first three letters of its name, in lower case, in the
    table of twelve entries; and the result is absent exactly when the
    pattern "D de <month> de YYYY" does not match, as for
    ["março de 2024"], or the three-letter key is not in the table. *)
Theorem parse_date_pt_spec (db : unicode_db) :
  Unicode.agrees db ->
  Loader._parse_date_pt db (Loader._norm_text db U"5 de março de 2024")
  = Some U"20240305"
  /\ Loader._parse_date_pt db (Loader._norm_text db U"5 DE MARÇO de 2024")
     = Some U"20240305"
  /\ Loader._parse_date_pt db (Loader._norm_text db U"março de 2024") = None
  /\ Re.date_re db (Loader._norm_text db U"março de 2024") = None
  /\ Loader._parse_date_pt db U"5 de xyz de 2024" = None
  /\ size Loader.months = 12%nat
  /\ (forall s d m y mon,
        Re.date_re db s = Some (d, m, y) ->
        Loader.months !! DatePt.month_key db m = Some mon ->
        Loader._parse_date_pt db s = Some (y ++ mon ++ Str.zfill 2 d))
  /\ (forall s,
        Loader._parse_date_pt db s = None <->
        Re.date_re db s = None
        \/ exists d m y, Re.date_re db s = Some (d, m, y)
                         /\ Loader.months !! DatePt.month_key db m = None).
Proof.
  intros Hdb.
  assert (Loader._norm_text db U"5 de março de 2024" = U"5 de marco de 2024")
    as ->.
  { change (U"5 de março de 2024") with (U"5 de mar" ++ 231 :: U"o de 2024").
    rewrite (DatePtFacts.norm_one_accent db _ _ 231 99 807); auto. }
  assert (Loader._norm_text db U"5 DE MARÇO de 2024" = U"5 de marco de 2024")
    as ->.
  { change (U"5 DE MARÇO de 2024") with (U"5 DE MAR" ++ 199 :: U"O de 2024").
    rewrite (DatePtFacts.norm_one_accent db _ _ 199 67 807); auto. }
  assert (Loader._norm_text db U"março de 2024" = U"marco de 2024") as ->.
  { change (U"março de 2024") with (U"mar" ++ 231 :: U"o de 2024").
    rewrite (DatePtFacts.norm_one_accent db _ _ 231 99 807); auto. }
  repeat (split; [vm_compute; reflexivity|]).
  split; [apply DatePtFacts.parse_date_some|apply DatePtFacts.parse_date_none].
Qed.

Lemma parse_date_pt_spec_witness :
  Loader._parse_date_pt Unicode.latin1
    (Loader._norm_text Unicode.latin1 U"5 de março de 2024")
  = Some U"20240305".
Proof. apply (parse_date_pt_spec Unicode.latin1 DatePtFacts.latin1_agrees). Defined.

(* ===================================================================== *)
(** ** Origin and destination (C6) *)
(* ===================================================================== *)

Module PontosFacts.
Import Pontos.

Section WithDb.

Context (db : unicode_db).

Local Abbreviation is_time := (Pontos.is_time db).
Local Abbreviation is_summary := (Pontos.is_summary db).
Local Abbreviation fragments := (Pontos.fragments db).
Local Abbreviation after_fragments := (Pontos.after_fragments db).
Local Abbreviation next_marker := (Pontos.next_marker db).
Local Abbreviation group := (Pontos.group db).
Local Abbreviation groups_upto := (Pontos.groups_upto db).
Local Abbreviation groups := (Pontos.groups db).

Lemma fragments_split (ls : list (list N)) :
  fragments ls ++ after_fragments ls = ls.
Proof.
  induction ls as [|l r IH]; simpl; [reflexivity|].
  destruct (is_time l || is_summary l); simpl; congruence.
Qed.

Lemma fragments_free (ls : list (list N)) (l : list N) :
  l ∈ fragments ls -> is_time l = false /\ is_summary l = false.
Proof.
  induction ls as [|x r IH]; simpl; [intros H; inversion H|].
  destruct (is_time x || is_summary x) eqn:E; [intros H; inversion H|].
  apply orb_false_elim in E.
  intros H. apply elem_of_cons in H as [->|H]; auto.
Qed.

Lemma after_fragments_head (ls : list (list N)) :
  match after_fragments ls with
  | [] => True
  | l :: _ => is_time l = true \/ is_summary l = true
  end.
Proof.
  induction ls as [|x r IH]; simpl; [exact I|].
  destruct (is_time x || is_summary x) eqn:E; [|exact IH].
  apply orb_prop, E.
Qed.

Lemma drop_fragments (ls : list (list N)) :
  drop (length (fragments ls)) ls = after_fragments ls.
Proof.
  induction ls as [|l r IH]; simpl; [reflexivity|].
  destruct (is_time l || is_summary l); simpl; [reflexivity|exact IH].
Qed.

Lemma drop_cons (lines : list (list N)) (i : nat) (l : list N) :
  lines !! i = Some l -> drop i lines = l :: drop (S i) lines.
Proof. apply drop_S. Qed.

(** The inner [while] collects the fragments. *)
Lemma addr_loop_spec lines fuel j acc :
  (length lines - j < fuel)%nat ->
  Loader.addr_loop db fuel lines j acc
  = Ok ((j + length (fragments (drop j lines)))%nat,
        acc ++ map (Loader._clean_text db) (fragments (drop j lines))).
Proof.
  revert j acc. induction fuel as [|fuel IH]; intros j acc Hf; [lia|].
  cbn [Loader.addr_loop]. case_bool_decide as Hj.
  - destruct (index_lt lines j Hj) as (lj & Hn & Hl). rewrite Hn.
    unfold mbind, result_bind. cbv beta iota.
    rewrite (drop_cons lines j lj Hl). cbn [Pontos.fragments].
    fold (is_time lj). fold (is_summary lj).
    destruct (is_time lj); cbn [orb].
    + rewrite Nat.add_0_r, app_nil_r. reflexivity.
    + destruct (is_summary lj).
      * rewrite Nat.add_0_r, app_nil_r. reflexivity.
      * rewrite IH by lia. cbn [length map].
        rewrite <- app_assoc. f_equal. f_equal. lia.
  - rewrite drop_ge by lia. cbn [Pontos.fragments length map].
    rewrite Nat.add_0_r, app_nil_r. reflexivity.
Qed.

(** The outer [while] collects the groups that are still wanted. *)
Lemma pontos_loop_spec lines fuel i pontos :
  (length lines - i < fuel)%nat -> (length pontos < 2)%nat ->
  Loader.pontos_loop db fuel lines i pontos
  = Ok (pontos ++ groups_upto (2 - length pontos) (drop i lines)).
Proof.
  revert i pontos.
  induction fuel as [|fuel IH]; intros i pontos Hf Hp; [lia|].
  cbn [Loader.pontos_loop]. case_bool_decide as Hi.
  - destruct (index_lt lines i Hi) as (li & Hn & Hl). rewrite Hn.
    unfold mbind, result_bind at 1 2. cbv beta iota.
    rewrite (drop_cons lines i li Hl).
    destruct (2 - length pontos)%nat as [|n] eqn:En; [lia|].
    cbn [Pontos.groups_upto Pontos.next_marker]. fold (is_time li).
    destruct (is_time li).
    + rewrite addr_loop_spec by lia.
      unfold mbind, result_bind. cbv beta iota.
      replace (i + 1)%nat with (S i) by lia.
      case_bool_decide as Hlen.
      * rewrite length_app in Hlen. cbn [length] in Hlen.
        assert (n = 0%nat) as -> by lia. reflexivity.
      * rewrite length_app in Hlen. cbn [length] in Hlen.
        rewrite IH.
        -- rewrite <- app_assoc. cbn [app]. f_equal. f_equal. f_equal.
           f_equal.
           ++ rewrite length_app. cbn [length]. lia.
           ++ rewrite <- drop_fragments, drop_drop. f_equal.
        -- lia.
        -- rewrite length_app. cbn [length]. lia.
    + replace (i + 1)%nat with (S i) by lia.
      rewrite IH by lia. rewrite En. reflexivity.
  - rewrite drop_ge by lia.
    destruct (2 - length pontos)%nat; cbn [Pontos.groups_upto Pontos.next_marker];
      rewrite app_nil_r; reflexivity.
Qed.

(** The index where the scan starts: after the first line that
    normalizes to the anchor, or 0 without one. *)
Lemma start_idx_loop_spec (rest : list (list N)) (i : nat) :
  Loader.start_idx_loop db i rest =
  match
    list_find
      (fun l => Loader._norm_text db l = U"informacoes da viagem") rest
  with
  | Some (k, _) => (i + k + 1)%nat
  | None => 0%nat
  end.
Proof.
  revert i. induction rest as [|l r IH]; intros i; [reflexivity|].
  cbn [Loader.start_idx_loop list_find].
  case_bool_decide as Hl.
  - rewrite decide_True by exact Hl. simpl. lia.
  - rewrite decide_False by exact Hl. rewrite IH.
    destruct (list_find _ r) as [[k x]|]; simpl; [lia|reflexivity].
Qed.

Lemma groups_upto_length (n : nat) (ls : list (list N)) :
  (length (groups_upto n ls) <= n)%nat.
Proof.
  revert ls. induction n as [|n IH]; intros ls; simpl; [lia|].
  destruct (next_marker ls) as [[t r]|]; simpl; [|lia].
  specialize (IH (after_fragments r)). lia.
Qed.

Lemma pontos_de_spec (lines : list (list N)) :
  Loader.pontos_de db lines
  = Ok (groups (drop (Loader.start_idx_loop db 0 lines) lines)).
Proof.
  unfold Loader.pontos_de. rewrite pontos_loop_spec; simpl; try lia.
  reflexivity.
Qed.

End WithDb.

End PontosFacts.

(** C6: the scan starts on the line after the first line that normalizes
    to ["informacoes da viagem"] (on the first line when there is none).
    From there, every line that matches the time pattern opens a group
    whose address is made of the lines that follow it, up to the next
    time marker or the line whose normalized form starts with
    ["voce viajou"], which is not taken; the fragments are joined with
    single spaces; at most two groups are collected; the first is the
    origin and the second the destination, and each is absent when its
    group is missing. *)
Theorem origem_destino_spec (db : unicode_db) (lines : list (list N)) :
  let start :=
    match
      list_find
        (fun l => Loader._norm_text db l = U"informacoes da viagem") lines
    with
    | Some (k, _) => (k + 1)%nat
    | None => 0%nat
    end in
  let scanned := drop start lines in
  Loader.pontos_de db lines = Ok (Pontos.groups db scanned)
  /\ (length (Pontos.groups db scanned) <= 2)%nat
  /\ Pontos.groups db scanned =
     match Pontos.next_marker db scanned with
     | None => []
     | Some (t1, r1) =>
         Pontos.group db t1 r1 ::
         match Pontos.next_marker db (Pontos.after_fragments db r1) with
         | None => []
         | Some (t2, r2) => [Pontos.group db t2 r2]
         end
     end
  /\ (forall nome r,
        Loader.recibo_de_linhas db nome lines = Ok r ->
        origem r = Pontos.groups db scanned !! 0%nat
        /\ destino r = Pontos.groups db scanned !! 1%nat)
  /\ (forall ls,
        Pontos.fragments db ls ++ Pontos.after_fragments db ls = ls
        /\ (forall l, l ∈ Pontos.fragments db ls ->
                      Pontos.is_time db l = false
                      /\ Pontos.is_summary db l = false)
        /\ match Pontos.after_fragments db ls with
           | [] => True
           | l :: _ => Pontos.is_time db l = true
                       \/ Pontos.is_summary db l = true
           end).
Proof.
  intros start scanned.
  assert (Loader.pontos_de db lines = Ok (Pontos.groups db scanned)) as Hp.
  { rewrite PontosFacts.pontos_de_spec. unfold scanned, start.
    rewrite PontosFacts.start_idx_loop_spec.
    destruct (list_find _ lines) as [[k x]|]; reflexivity. }
  split; [exact Hp|]. split; [apply PontosFacts.groups_upto_length|]. split.
  - unfold Pontos.groups. cbn [Pontos.groups_upto].
    destruct (Pontos.next_marker db scanned) as [[t1 r1]|]; [|reflexivity].
    destruct (Pontos.next_marker db _) as [[t2 r2]|]; reflexivity.
  - split.
    + intros nome r Hr.
      destruct (recibo_de_linhas_fields db nome lines)
        as (dh & tot & preco & taxa & custo & promo & pag & info & pts
            & _ & _ & _ & _ & _ & _ & _ & _ & Hpts & Hrec).
      rewrite Hr in Hrec. injection Hrec as ->.
      rewrite Hp in Hpts. injection Hpts as <-. split; reflexivity.
    + intros ls. split; [apply PontosFacts.fragments_split|].
      split; [apply PontosFacts.fragments_free|apply PontosFacts.after_fragments_head].
Qed.

Lemma origem_destino_spec_witness :
  let lines := [U"Informacoes da viagem"; U"UberX"; U"10:02"; U"Rua A, 10";
                U"Centro"; U"Voce viajou com X"; U"10:20"; U"Av B"; U"10:30"] in
  Loader.pontos_de Unicode.latin1 lines
  = Ok [ {| p_hora := U"10:02"; p_endereco := U"Rua A, 10 Centro" |};
         {| p_hora := U"10:20"; p_endereco := U"Av B" |} ].
Proof.
  intros lines.
  destruct (origem_destino_spec Unicode.latin1 lines) as [H _].
  rewrite H. vm_compute. reflexivity.
Defined.

(* ===================================================================== *)
(** ** The order of strings *)
(* ===================================================================== *)

Module OrderFacts.
Import Order.

Lemma ltb_irrefl (a : list N) : Str.ltb a a = false.
Proof.
  induction a as [|x a IH]; simpl; [reflexivity|].
  rewrite N.ltb_irrefl. exact IH.
Qed.

Lemma ltb_trans (a b c : list N) :
  Str.ltb a b = true -> Str.ltb b c = true -> Str.ltb a c = true.
Proof.
  revert b c. induction a as [|x a IH]; intros [|y b] [|z c]; simpl;
    try discriminate; try reflexivity.
  destruct (N.ltb_spec x y), (N.ltb_spec y x), (N.ltb_spec y z),
    (N.ltb_spec z y), (N.ltb_spec x z), (N.ltb_spec z x);
    intros Hab Hbc; try lia; try discriminate; try reflexivity; eauto.
Qed.

Lemma ltb_connex (a b : list N) :
  Str.ltb a b = false -> Str.ltb b a = false -> a = b.
Proof.
  revert b. induction a as [|x a IH]; intros [|y b]; simpl;
    try discriminate; try reflexivity.
  destruct (x <? y) eqn:Hxy; [discriminate|].
  destruct (y <? x) eqn:Hyx; [discriminate|].
  intros H1 H2. f_equal; [bool_lia|auto].
Qed.

Lemma ltb_leb (a b : list N) : Str.ltb a b = true -> Str.leb a b = true.
Proof.
  intros H. unfold Str.leb. destruct (Str.ltb b a) eqn:E; [|reflexivity].
  pose proof (ltb_trans a b a H E) as H'. rewrite ltb_irrefl in H'.
  discriminate.
Qed.

Lemma leb_total (a b : list N) : Str.leb a b = false -> Str.leb b a = true.
Proof.
  unfold Str.leb. intros H. apply negb_false_iff in H.
  apply ltb_leb in H. exact H.
Qed.

Lemma leb_trans (a b c : list N) :
  Str.leb a b = true -> Str.leb b c = true -> Str.leb a c = true.
Proof.
  unfold Str.leb. rewrite !negb_true_iff. intros Hba Hcb.
  destruct (Str.ltb c a) eqn:Hca; [exfalso|reflexivity].
  destruct (Str.ltb a b) eqn:Hab.
  - rewrite (ltb_trans c a b Hca Hab) in Hcb. discriminate.
  - rewrite (ltb_connex a b Hab Hba) in Hca. congruence.
Qed.

(** Strings that start with parts of the same length compare as the
    pairs of their parts. *)
Lemma ltb_pair (a b x y : list N) :
  length a = length b ->
  Str.ltb (a ++ x) (b ++ y)
  = Str.ltb a b || (bool_decide (a = b) && Str.ltb x y).
Proof.
  revert b. induction a as [|c a IH]; intros [|d b] Hlen;
    try discriminate.
  - cbn [app Str.ltb orb].
    rewrite bool_decide_eq_true_2 by reflexivity. reflexivity.
  - injection Hlen as Hlen. cbn [app Str.ltb].
    destruct (c <? d) eqn:Hcd; [reflexivity|].
    destruct (d <? c) eqn:Hdc.
    + cbn [orb]. rewrite bool_decide_eq_false_2; [reflexivity|].
      intros [= -> _]. bool_lia.
    + rewrite (IH b Hlen). assert (c = d) as -> by bool_lia.
      f_equal. f_equal. apply bool_decide_ext. split; congruence.
Qed.

Section Sorting.

Context {A : Type} (key : A -> list N).

Local Abbreviation le := (Order.le key).

Lemma insert_by_perm (x : A) (l : list A) :
  Builder.insert_by key x l ≡ₚ x :: l.
Proof.
  induction l as [|y l IH]; simpl; [reflexivity|].
  destruct (Str.leb (key x) (key y)); [reflexivity|].
  rewrite IH. apply Permutation_swap.
Qed.

Lemma sorted_perm (l : list A) : Builder.sorted key l ≡ₚ l.
Proof.
  induction l as [|x l IH]; simpl; [reflexivity|].
  rewrite insert_by_perm, IH. reflexivity.
Qed.

Lemma insert_by_sorted (x : A) (l : list A) :
  StronglySorted le l -> StronglySorted le (Builder.insert_by key x l).
Proof.
  induction 1 as [|y l Hl IH Hy]; simpl.
  - constructor; constructor.
  - destruct (Str.leb (key x) (key y)) eqn:Hxy.
    + constructor; [constructor; assumption|].
      constructor; [exact Hxy|].
      eapply Forall_impl; [exact Hy|].
      intros z Hz. exact (leb_trans _ _ _ Hxy Hz).
    + constructor; [exact IH|].
      rewrite insert_by_perm. constructor; [|exact Hy].
      apply leb_total, Hxy.
Qed.

Lemma sorted_sorted (l : list A) : StronglySorted le (Builder.sorted key l).
Proof.
  induction l as [|x l IH]; simpl; [constructor|].
  apply insert_by_sorted, IH.
Qed.

(** In a sorted list an element with a smaller key comes first. *)
Lemma sorted_before (l : list A) (a b : A) (i j : nat) :
  StronglySorted le l ->
  l !! i = Some a -> l !! j = Some b ->
  Str.ltb (key a) (key b) = true -> (i < j)%nat.
Proof.
  intros Hs Hi Hj Hlt.
  destruct (decide (i < j)%nat) as [|Hge]; [assumption|exfalso].
  destruct (decide (i = j)) as [->|Hne].
  - rewrite Hi in Hj. injection Hj as ->.
    rewrite ltb_irrefl in Hlt. discriminate.
  - assert (le b a) as Hba.
    { revert i j Hi Hj Hge Hne.
      induction Hs as [|y l Hl IH Hy]; intros i j Hi Hj Hge Hne.
      - rewrite lookup_nil in Hi. discriminate.
      - destruct j as [|j].
        + destruct i as [|i]; [lia|]. simpl in *. injection Hj as ->.
          rewrite Forall_forall in Hy. apply Hy.
          eapply list_elem_of_lookup_2, Hi.
        + destruct i as [|i]; [lia|]. simpl in *.
          apply (IH i j); auto; lia. }
    unfold Order.le, Str.leb in Hba. rewrite Hlt in Hba. discriminate.
Qed.

End Sorting.

End OrderFacts.

(* ===================================================================== *)
(** ** The order of the report (C7) *)
(* ===================================================================== *)

Module SortKeyFacts.
Import SortKey.

Lemma sort_key_parts (r : recibo) :
  Builder._sort_key r = date_of r ++ U"_" ++ time_of r.
Proof. reflexivity. Qed.

Lemma two_digits_small (n : N) :
  n < 100 -> Str.two_digits n = [48 + n / 10; 48 + n mod 10].
Proof.
  intros H. destruct n as [|p]; [reflexivity|].
  do 7 (try destruct p as [p|p|]); try lia; reflexivity.
Qed.

(** Zero-padded clock times are ordered as the times they denote. *)
Lemma clock_ltb (h1 m1 h2 m2 : N) :
  h1 < 100 -> m1 < 100 -> h2 < 100 -> m2 < 100 ->
  h1 < h2 \/ (h1 = h2 /\ m1 < m2) ->
  Str.ltb (clock h1 m1) (clock h2 m2) = true.
Proof.
  intros Hh1 Hm1 Hh2 Hm2 Hlt. unfold clock.
  rewrite !two_digits_small by assumption.
  pose proof (N.div_mod h1 10 ltac:(lia)).
  pose proof (N.div_mod h2 10 ltac:(lia)).
  pose proof (N.div_mod m1 10 ltac:(lia)).
  pose proof (N.div_mod m2 10 ltac:(lia)).
  pose proof (N.mod_lt h1 10 ltac:(lia)).
  pose proof (N.mod_lt h2 10 ltac:(lia)).
  pose proof (N.mod_lt m1 10 ltac:(lia)).
  pose proof (N.mod_lt m2 10 ltac:(lia)).
  generalize dependent (h1 / 10). generalize dependent (h1 mod 10).
  generalize dependent (h2 / 10). generalize dependent (h2 mod 10).
  generalize dependent (m1 / 10). generalize dependent (m1 mod 10).
  generalize dependent (m2 / 10). generalize dependent (m2 mod 10).
  intros. change (U":") with [58]. cbn [app Str.ltb].
  repeat match goal with
         | |- context [?x <? ?y] => destruct (N.ltb_spec x y)
         end; try reflexivity; try lia.
Qed.

(** Times with an hour of one digit are ordered among themselves as the
    times they denote. *)
Lemma curta_ltb (h1 m1 h2 m2 : N) :
  h1 <= 9 -> m1 < 100 -> h2 <= 9 -> m2 < 100 ->
  h1 < h2 \/ (h1 = h2 /\ m1 < m2) ->
  Str.ltb (curta h1 m1) (curta h2 m2) = true.
Proof.
  intros Hh1 Hm1 Hh2 Hm2 Hlt. unfold curta.
  rewrite !two_digits_small by assumption.
  pose proof (N.div_mod m1 10 ltac:(lia)).
  pose proof (N.div_mod m2 10 ltac:(lia)).
  pose proof (N.mod_lt m1 10 ltac:(lia)).
  pose proof (N.mod_lt m2 10 ltac:(lia)).
  generalize dependent (m1 / 10). generalize dependent (m1 mod 10).
  generalize dependent (m2 / 10). generalize dependent (m2 mod 10).
  intros. change (U":") with [58]. cbn [app Str.ltb].
  repeat (match goal with
          | |- context [?x <? ?y] => destruct (N.ltb_spec x y)
          end; cbv iota);
    try reflexivity; lia.
Qed.

(** A time with an hour of one digit against one with an hour of two:
    the first characters decide, and on equal ones the colon comes after
    every digit. *)
Lemma curta_clock_ltb (h1 m1 h2 m2 : N) :
  h1 <= 9 -> h2 < 100 -> m2 < 100 ->
  Str.ltb (curta h1 m1) (clock h2 m2) = (h1 <? h2 / 10)
  /\ Str.ltb (clock h2 m2) (curta h1 m1) = negb (h1 <? h2 / 10).
Proof.
  intros Hh1 Hh2 Hm2. unfold curta, clock.
  rewrite (two_digits_small h2), (two_digits_small m2) by assumption.
  pose proof (N.mod_lt h2 10 ltac:(lia)).
  generalize dependent (h2 / 10). generalize dependent (h2 mod 10).
  intros r2 Hr2 q2. change (U":") with [58].
  destruct (Str.two_digits m1) as [|x [|y t]]; cbn [app Str.ltb];
    destruct (N.ltb_spec h1 q2);
    repeat (match goal with
            | |- context [?x <? ?y] => destruct (N.ltb_spec x y)
            end; cbv iota);
    try (split; reflexivity); lia.
Qed.

Section WithDb.

Context (db : unicode_db).

Lemma greedy_some {A} (p : N -> bool) (k : list N -> list N -> option A)
    (acc s : list N) (x : A) :
  Re.greedy p k acc s = Some x -> exists g rest, k g rest = Some x.
Proof.
  revert acc. induction s as [|c r IH]; intros acc; simpl; [eauto|].
  destruct (p c); [|eauto].
  destruct (Re.greedy p k (acc ++ [c]) r) eqn:E; [|eauto].
  intros [= <-]. eapply IH, E.
Qed.

Lemma lit_some {A} (l : list N) (k : list N -> option A) (s : list N)
    (x : A) :
  Re.lit l k s = Some x -> exists rest, k rest = Some x.
Proof. unfold Re.lit. destruct (Str.startswith l s); [eauto|discriminate]. Qed.

Lemma digits12_some {A} (k : list N -> list N -> option A) (s : list N)
    (x : A) :
  Re.digits12 db k s = Some x ->
  exists g rest, k g rest = Some x
                 /\ (length g = 1 \/ length g = 2)%nat.
Proof.
  unfold Re.digits12. destruct s as [|a r]; [discriminate|].
  destruct (Py.isdecimal db a); [|discriminate].
  destruct r as [|b r'].
  - intros H. exists [a], []. auto.
  - destruct (Py.isdecimal db b).
    + destruct (k [a; b] r') eqn:E.
      * intros [= <-]. exists [a; b], r'. auto.
      * intros H. exists [a], (b :: r'). auto.
    + intros H. exists [a], (b :: r'). auto.
Qed.

Lemma digits4_some (s y : list N) :
  Re.digits4 db s = Some y ->
  length y = 4%nat /\ Forall (fun c => Py.isdecimal db c = true) y.
Proof.
  unfold Re.digits4. destruct s as [|a [|b [|c [|d r]]]]; try discriminate.
  destruct (Py.isdecimal db a) eqn:Ha; [|discriminate].
  destruct (Py.isdecimal db b) eqn:Hb; [|discriminate].
  destruct (Py.isdecimal db c) eqn:Hc; [|discriminate].
  destruct (Py.isdecimal db d) eqn:Hd; [|discriminate].
  intros [= <-]. split; [reflexivity|]. repeat constructor; assumption.
Qed.

Lemma date_re_groups (s d m y : list N) :
  Re.date_re db s = Some (d, m, y) ->
  (length d = 1 \/ length d = 2)%nat
  /\ length y = 4%nat /\ Forall (fun c => Py.isdecimal db c = true) y.
Proof.
  unfold Re.date_re. intros H.
  apply digits12_some in H as (g & rest & H & Hg).
  apply lit_some in H as (rest1 & H).
  unfold Re.greedy1 in H. apply greedy_some in H as (g2 & rest2 & H).
  destruct g2; [discriminate|].
  apply lit_some in H as (rest3 & H).
  destruct (Re.digits4 db rest3) as [y'|] eqn:Hy; [|discriminate].
  simpl in H. injection H as -> _ ->.
  split; [exact Hg|]. eapply digits4_some, Hy.
Qed.

Lemma decimal_ge (c : N) : Py.isdecimal db c = true -> 48 <= c.
Proof.
  unfold Py.isdecimal, Py.decimal_value, Py.is_ascii, Py.is_ascii_digit.
  destruct (c <? 128) eqn:Hc; [|bool_lia].
  destruct ((48 <=? c) && (c <=? 57)) eqn:Hd; [bool_lia|discriminate].
Qed.

Lemma zfill2_length (d : list N) :
  (length d = 1 \/ length d = 2)%nat -> length (Str.zfill 2 d) = 2%nat.
Proof.
  destruct d as [|a [|b [|c r]]]; simpl; intros [H|H]; try discriminate;
    unfold Str.zfill; simpl; destruct (_ || _); reflexivity.
Qed.

(** A key that the parser produced has eight characters and comes
    after ["00000000"]. *)
Lemma parsed_key (s k : list N) :
  Loader._parse_date_pt db s = Some k ->
  length k = 8%nat /\ Str.ltb U"00000000" k = true.
Proof.
  unfold Loader._parse_date_pt.
  destruct (Re.date_re db s) as [[[d m] y]|] eqn:Hre; [|discriminate].
  destruct (date_re_groups _ _ _ _ Hre) as (Hd & Hy & Hdec).
  destruct (Loader.months !! _) as [mon|] eqn:Hm; [|discriminate].
  destruct mon as [|c0 mon0] eqn:Emon; [discriminate|]. rewrite <- Emon.
  intros [= <-].
  pose proof (zfill2_length d Hd) as Hz.
  assert (length mon = 2%nat
          /\ forall t, Str.ltb U"0000" (mon ++ t) = true) as [Hmon Hlt].
  { rewrite <- Emon in Hm. clear -Hm. apply elem_of_list_to_map_2 in Hm.
    repeat (apply elem_of_cons in Hm as [[= _ ->]|Hm];
            [split; [reflexivity|intros t; reflexivity]|]).
    inversion Hm. }
  split; [rewrite !length_app; lia|].
  change (U"00000000") with (U"0000" ++ U"0000").
  rewrite OrderFacts.ltb_pair by (rewrite Hy; reflexivity).
  rewrite Hlt, andb_true_r.
  destruct y as [|a [|b [|c [|e [|]]]]]; try discriminate.
  inversion Hdec as [|? ? Ha H1]; subst.
  inversion H1 as [|? ? Hb H2]; subst.
  inversion H2 as [|? ? Hc H3]; subst.
  inversion H3 as [|? ? He _]; subst.
  apply decimal_ge in Ha, Hb, Hc, He.
  destruct (bool_decide (U"0000" = [a; b; c; e])) eqn:E;
    [apply orb_true_r|].
  apply bool_decide_eq_false in E. rewrite orb_false_r.
  change (U"0000") with [48; 48; 48; 48] in *. cbn [Str.ltb].
  repeat match goal with
         | |- context [?x <? ?y] => destruct (N.ltb_spec x y)
         end; try reflexivity; try lia.
  exfalso. apply E.
  replace a with 48 by lia. replace b with 48 by lia.
  replace c with 48 by lia. replace e with 48 by lia. reflexivity.
Qed.

End WithDb.

End SortKeyFacts.

(** The claim C7 as it is worded fails: of two records that the parser
    builds for the same date, with the times ["9:30"] and ["10:15"] as the
    receipts write them, the one with the later time stands first. *)
Lemma later_time_sorts_first :
  exists a b,
    Loader.recibo_de_linhas Unicode.latin1 U"a.pdf"
      [U"1 de janeiro de 2024"; U"9:30"] = Ok a
    /\ Loader.recibo_de_linhas Unicode.latin1 U"b.pdf"
         [U"1 de janeiro de 2024"; U"10:15"] = Ok b
    /\ data_yyyymmdd a = Some U"20240101"
    /\ data_yyyymmdd b = Some U"20240101"
    /\ hora a = Some U"9:30" /\ hora b = Some U"10:15"
    /\ Builder.recibos_ordenados [a; b] = [b; a]
    /\ Builder.recibos_ordenados [b; a] = [b; a].
Proof.
  eexists. eexists.
  split; [vm_compute; reflexivity|].
  split; [vm_compute; reflexivity|].
  repeat split; vm_compute; reflexivity.
Qed.

(** C7, amended: the renderer's list is a rearrangement of the records,
    ascending in the key made of the date key (["00000000"] when absent)
    and the time (["00:00"] when absent), compared as strings; a record
    with a smaller key stands before one with a larger key.  For date keys
    of the same length, as all the "YYYYMMDD" keys are, the order of the
    keys is the order of the pairs (date, time).  A record without date
    key comes before every record whose date key the parser produced.  Of
    two records with the same date key the one with the earlier time
    comes first when both times are written HH:MM or both H:MM; a time
    H:MM comes before a time HH:MM exactly when its hour is smaller than
    the first digit of the other hour, so that ["9:30"] comes after
    ["10:15"]. *)
Theorem recibos_ordenados_spec (db : unicode_db) (recibos : list recibo) :
  let out := Builder.recibos_ordenados recibos in
  let key := Builder._sort_key in
  out ≡ₚ recibos
  /\ StronglySorted (fun a b => Str.leb (key a) (key b) = true) out
  /\ (forall a b i j,
        out !! i = Some a -> out !! j = Some b ->
        Str.ltb (key a) (key b) = true -> (i < j)%nat)
  /\ (forall a b,
        key a = SortKey.date_of a ++ U"_" ++ SortKey.time_of a
        /\ (length (SortKey.date_of a) = length (SortKey.date_of b) ->
            Str.ltb (key a) (key b)
            = Str.ltb (SortKey.date_of a) (SortKey.date_of b)
              || (bool_decide (SortKey.date_of a = SortKey.date_of b)
                  && Str.ltb (SortKey.time_of a) (SortKey.time_of b))))
  /\ (forall a b s k,
        data_yyyymmdd a = None ->
        Loader._parse_date_pt db s = Some k -> data_yyyymmdd b = Some k ->
        Str.ltb (key a) (key b) = true)
  /\ (forall a b h1 m1 h2 m2,
        data_yyyymmdd a = data_yyyymmdd b ->
        hora a = Some (SortKey.clock h1 m1) ->
        hora b = Some (SortKey.clock h2 m2) ->
        h1 < 24 -> m1 < 60 -> h2 < 24 -> m2 < 60 ->
        h1 < h2 \/ (h1 = h2 /\ m1 < m2) ->
        Str.ltb (key a) (key b) = true)
  /\ (forall a b h1 m1 h2 m2,
        data_yyyymmdd a = data_yyyymmdd b ->
        hora a = Some (SortKey.curta h1 m1) ->
        hora b = Some (SortKey.curta h2 m2) ->
        h1 <= 9 -> m1 < 60 -> h2 <= 9 -> m2 < 60 ->
        h1 < h2 \/ (h1 = h2 /\ m1 < m2) ->
        Str.ltb (key a) (key b) = true)
  /\ (forall a b h1 m1 h2 m2,
        data_yyyymmdd a = data_yyyymmdd b ->
        hora a = Some (SortKey.curta h1 m1) ->
        hora b = Some (SortKey.clock h2 m2) ->
        h1 <= 9 -> m1 < 60 -> h2 < 24 -> m2 < 60 ->
        Str.ltb (key a) (key b) = (h1 <? h2 / 10)
        /\ Str.ltb (key b) (key a) = negb (h1 <? h2 / 10))
  /\ Builder.recibos_ordenados
       [ SortKey.de (Some U"20240101") (Some U"9:30");
         SortKey.de (Some U"20240101") (Some U"10:15") ]
     = [ SortKey.de (Some U"20240101") (Some U"10:15");
         SortKey.de (Some U"20240101") (Some U"9:30") ]
  /\ Builder.recibos_ordenados
       [ SortKey.de (Some U"20240101") (Some U"09:00");
         SortKey.de (Some U"20240101") (Some U"08:00");
         SortKey.de None None ]
     = [ SortKey.de None None;
         SortKey.de (Some U"20240101") (Some U"08:00");
         SortKey.de (Some U"20240101") (Some U"09:00") ].
Proof.
  intros out key.
  assert (forall a b,
            length (SortKey.date_of a) = length (SortKey.date_of b) ->
            Str.ltb (key a) (key b)
            = Str.ltb (SortKey.date_of a) (SortKey.date_of b)
              || (bool_decide (SortKey.date_of a = SortKey.date_of b)
                  && Str.ltb (SortKey.time_of a) (SortKey.time_of b)))
    as Hpair.
  { intros a b Hlen. unfold key. rewrite !SortKeyFacts.sort_key_parts.
    rewrite (OrderFacts.ltb_pair _ _ _ _ Hlen). reflexivity. }
  split; [apply OrderFacts.sorted_perm|].
  split; [apply OrderFacts.sorted_sorted|].
  split; [intros a b i j; apply OrderFacts.sorted_before, OrderFacts.sorted_sorted|].
  split; [intros a b; split; [apply SortKeyFacts.sort_key_parts|apply Hpair]|].
  assert (forall a b, data_yyyymmdd a = data_yyyymmdd b ->
            Str.ltb (key a) (key b)
            = Str.ltb (SortKey.time_of a) (SortKey.time_of b)) as Hsame.
  { intros a b Hd.
    assert (SortKey.date_of a = SortKey.date_of b) as Heq
      by (unfold SortKey.date_of; rewrite Hd; reflexivity).
    rewrite Hpair by (rewrite Heq; reflexivity).
    rewrite Heq, bool_decide_eq_true_2 by reflexivity.
    rewrite OrderFacts.ltb_irrefl. reflexivity. }
  assert (forall h m, Py.or_str (Some (SortKey.curta h m)) U"00:00"
                      = SortKey.curta h m) as Hcurta by reflexivity.
  assert (forall h m, h < 24 -> m < 60 ->
            Py.or_str (Some (SortKey.clock h m)) U"00:00"
            = SortKey.clock h m) as Hclock.
  { intros h m Hh Hm. unfold SortKey.clock.
    rewrite (SortKeyFacts.two_digits_small h) by lia. reflexivity. }
  split; [|split; [|split; [|split; [|split]]]];
    [| | | |vm_compute; reflexivity|vm_compute; reflexivity].
  - intros a b s k Ha Hk Hb.
    destruct (SortKeyFacts.parsed_key db s k Hk) as [Hlen Hlt].
    assert (SortKey.date_of a = U"00000000") as Hda
      by (unfold SortKey.date_of; rewrite Ha; reflexivity).
    assert (SortKey.date_of b = k) as Hdb.
    { unfold SortKey.date_of. rewrite Hb.
      destruct k; [discriminate|reflexivity]. }
    rewrite Hpair by (rewrite Hda, Hdb, Hlen; reflexivity).
    rewrite Hda, Hdb, Hlt. reflexivity.
  - intros a b h1 m1 h2 m2 Hd Ha Hb Hh1 Hm1 Hh2 Hm2 Hlt.
    assert (SortKey.date_of a = SortKey.date_of b) as Heq
      by (unfold SortKey.date_of; rewrite Hd; reflexivity).
    rewrite Hpair by (rewrite Heq; reflexivity).
    rewrite Heq, bool_decide_eq_true_2 by reflexivity.
    assert (forall h m, h < 24 -> m < 60 ->
              Py.or_str (Some (SortKey.clock h m)) U"00:00"
              = SortKey.clock h m) as Hor.
    { intros h m Hh Hm. unfold SortKey.clock.
      rewrite (SortKeyFacts.two_digits_small h) by lia. reflexivity. }
    unfold SortKey.time_of. rewrite Ha, Hb, !Hor by assumption.
    rewrite SortKeyFacts.clock_ltb by lia. apply orb_true_r.
  - intros a b h1 m1 h2 m2 Hd Ha Hb Hh1 Hm1 Hh2 Hm2 Hlt.
    rewrite (Hsame a b Hd). unfold SortKey.time_of.
    rewrite Ha, Hb, !Hcurta. apply SortKeyFacts.curta_ltb; lia.
  - intros a b h1 m1 h2 m2 Hd Ha Hb Hh1 Hm1 Hh2 Hm2.
    rewrite (Hsame a b Hd), (Hsame b a (eq_sym Hd)). unfold SortKey.time_of.
    rewrite Ha, Hb, Hcurta, Hclock by assumption.
    apply SortKeyFacts.curta_clock_ltb; lia.
Qed.

Lemma recibos_ordenados_spec_witness :
  let a := SortKey.de None (Some U"23:59") in
  let b := SortKey.de (Some U"20240305") (Some U"07:05") in
  let c := SortKey.de (Some U"20240305") (Some U"18:30") in
  let d := SortKey.de (Some U"20240305") (Some U"9:30") in
  Str.ltb (Builder._sort_key a) (Builder._sort_key b) = true
  /\ Str.ltb (Builder._sort_key b) (Builder._sort_key c) = true
  /\ Str.ltb (Builder._sort_key c) (Builder._sort_key d) = true
  /\ Builder.recibos_ordenados [d; c; b; a] = [a; b; c; d].
Proof.
  intros a b c d.
  destruct (recibos_ordenados_spec Unicode.latin1 [d; c; b; a])
    as (_ & _ & _ & _ & Habsent & Htime & _ & Hmixed & _).
  split; [|split; [|split; [|vm_compute; reflexivity]]].
  - apply (Habsent a b U"5 de marco de 2024" U"20240305");
      vm_compute; reflexivity.
  - apply (Htime b c 7 5 18 30); try reflexivity; lia.
  - destruct (Hmixed d c 9 30 18 30) as [_ H];
      [reflexivity|reflexivity|reflexivity|lia|lia|lia|lia|].
    rewrite H. reflexivity.
Defined.

(* ===================================================================== *)
(** ** Totals per month and per week (C8) *)
(* ===================================================================== *)

Module WeeksFacts.
Import Weeks.

Section WithDb.

Context (db : unicode_db).

Local Abbreviation dated := (Weeks.dated db).

Lemma days_in_month_le (y m : N) : Builder.days_in_month y m <= 31.
Proof.
  unfold Builder.days_in_month.
  destruct m as [|p]; [lia|].
  do 4 (try destruct p as [p|p|]); try lia; destruct (Builder.is_leap y);
    lia.
Qed.

(** What a date key that [_date_from_yyyymmdd] accepts looks like. *)
Lemma date_from_some (value : option (list N)) (dt : date) :
  Builder._date_from_yyyymmdd db value = Some dt ->
  exists v y m d,
    value = Some v /\ length v = 8%nat
    /\ Builder.ymd_re db v = Some (y, m, d, [])
    /\ Builder.int db y = Ok (d_year dt)
    /\ Builder.int db m = Ok (d_month dt)
    /\ Builder.int db d = Ok (d_day dt)
    /\ 1 <= d_day dt <= Builder.days_in_month (d_year dt) (d_month dt).
Proof.
  unfold Builder._date_from_yyyymmdd.
  destruct value as [v|]; [|discriminate].
  destruct v as [|c v']; [discriminate|].
  case_bool_decide as Hlen; [|discriminate]. cbn [negb].
  unfold Builder.strptime_Ymd.
  destruct (Builder.ymd_re db (c :: v')) as [[[[y m] d] rest]|] eqn:Hre;
    [|discriminate].
  destruct rest; [|discriminate].
  destruct (Builder.int db y) as [year| |] eqn:Hy; try discriminate.
  destruct (Builder.int db m) as [month| |] eqn:Hm; try discriminate.
  destruct (Builder.int db d) as [day| |] eqn:Hd; try discriminate.
  unfold mbind, result_bind. cbv beta iota.
  destruct (_ && _) eqn:Hr; [|discriminate].
  cbn [try_except]. intros [= <-]. cbn [d_year d_month d_day].
  exists (c :: v'), y, m, d. repeat (split; [assumption || reflexivity|]).
  unfold Builder.in_range in Hr. bool_lia.
Qed.

(** An accepted key is four characters of year, two of month and two
    of day. *)
Lemma ymd_re_split (v y m d : list N) :
  length v = 8%nat -> Builder.ymd_re db v = Some (y, m, d, []) ->
  v = y ++ m ++ d
  /\ length y = 4%nat /\ length m = 2%nat /\ length d = 2%nat.
Proof.
  intros Hlen. unfold Builder.ymd_re.
  destruct v as [|a [|b [|c [|e [|f [|g [|h [|i [|]]]]]]]]];
    try discriminate.
  destruct (Re.digits4 db _) as [y'|] eqn:Hy; [|discriminate].
  unfold Re.digits4 in Hy.
  destruct (_ && _) in Hy; [|discriminate]. injection Hy as <-.
  cbn [drop Builder.month_alts].
  generalize (Py.isdecimal db h), (Py.isdecimal db i). intros dh di.
  repeat (match goal with
          | |- context [if ?c then _ else _] => destruct c
          end; cbn);
    intros H; try discriminate; inversion H; subst; auto.
Qed.

Context (strftime_Y : N -> list N).

Lemma totals_step_undated acc (r : recibo) :
  Builder._date_from_yyyymmdd db (data_yyyymmdd r) = None ->
  Builder.totals_step db strftime_Y acc r = acc.
Proof. intros H. destruct acc. unfold Builder.totals_step. rewrite H. reflexivity. Qed.

(** Records without a date that parses do not take part in the
    totals. *)
Lemma fold_totals_filter (rs : list recibo) acc :
  fold_left (Builder.totals_step db strftime_Y) rs acc
  = fold_left (Builder.totals_step db strftime_Y) (filter dated rs) acc.
Proof.
  revert acc. induction rs as [|r rs IH]; intros acc; [reflexivity|].
  cbn [fold_left]. rewrite filter_cons.
  destruct (decide (dated r)) as [Hd|Hd].
  - cbn [fold_left]. apply IH.
  - rewrite totals_step_undated; [apply IH|].
    unfold Weeks.dated in Hd.
    destruct (Builder._date_from_yyyymmdd db (data_yyyymmdd r));
      [|reflexivity].
    exfalso. apply Hd. eauto.
Qed.

End WithDb.

End WeeksFacts.

(** C8: a record takes part in the totals per month and per week exactly
    when its date key parses.  The day of month [d] of such a key, read
    from its last two characters, lies in 1..31, and the record's total is
    added to the week total whose key names the week [(d - 1) / 7 + 1],
    which lies in 1..5: day 1 and day 7 fall in week 1, day 8 in week 2
    and day 31 in week 5.  A record whose date key does not parse changes
    neither table. *)
Theorem week_bucket_spec (db : unicode_db) (strftime_Y : N -> list N) :
  (forall value dt,
     Builder._date_from_yyyymmdd db value = Some dt ->
     1 <= d_day dt <= 31
     /\ Builder.week_idx dt = (d_day dt - 1) / 7 + 1
     /\ 1 <= Builder.week_idx dt <= 5
     /\ exists y m d,
          value = Some (y ++ m ++ d)
          /\ length y = 4%nat /\ length m = 2%nat /\ length d = 2%nat
          /\ Builder.int db d = Ok (d_day dt))
  /\ (forall months weeks r dt,
        Builder._date_from_yyyymmdd db (data_yyyymmdd r) = Some dt ->
        let week :=
          Builder.month_key strftime_Y dt ++ U" • Semana "
            ++ Str.decimal ((d_day dt - 1) / 7 + 1) in
        let after := Builder.totals_step db strftime_Y (months, weeks) r in
        after.2 =
          <[week := Float.add (default Float.zero (weeks !! week))
                              (Float.or_zero (total r))]> weeks
        /\ after.1 =
           <[Builder.month_key strftime_Y dt :=
               Float.add
                 (default Float.zero
                    (months !! Builder.month_key strftime_Y dt))
                 (Float.or_zero (total r))]> months)
  /\ (forall acc r,
        Builder._date_from_yyyymmdd db (data_yyyymmdd r) = None ->
        Builder.totals_step db strftime_Y acc r = acc)
  /\ (forall rs,
        Builder.totals db strftime_Y rs
        = Builder.totals db strftime_Y (filter (Weeks.dated db) rs))
  /\ Builder.week_idx <$> Builder._date_from_yyyymmdd db (Some U"20240101")
     = Some 1
  /\ Builder.week_idx <$> Builder._date_from_yyyymmdd db (Some U"20240107")
     = Some 1
  /\ Builder.week_idx <$> Builder._date_from_yyyymmdd db (Some U"20240108")
     = Some 2
  /\ Builder.week_idx <$> Builder._date_from_yyyymmdd db (Some U"20240131")
     = Some 5
  /\ (Builder.totals db Str.decimal
        [ Weeks.de (Some U"20240108") (Some f10); Weeks.de None (Some f5);
          Weeks.de (Some U"2024-1-8") (Some f5) ]).2
     = {[ U"01/2024 • Semana 2" := f10 ]}.
Proof.
  split; [|split; [|split; [|split]]].
  - intros value dt Hdt.
    destruct (WeeksFacts.date_from_some db value dt Hdt)
      as (v & y & m & d & -> & Hlen & Hre & _ & _ & Hd & Hrange).
    destruct (WeeksFacts.ymd_re_split db v y m d Hlen Hre) as (-> & Hy & Hm & Hl).
    pose proof (WeeksFacts.days_in_month_le (d_year dt) (d_month dt)) as Hle.
    assert (d_day dt - 1 <= 30) as Hd1 by lia.
    pose proof (N.Div0.div_le_mono _ _ 7 Hd1) as Hdiv.
    change (30 / 7) with 4 in Hdiv.
    unfold Builder.week_idx.
    split; [lia|]. split; [reflexivity|].
    split; [|exists y, m, d; auto].
    set (q := (d_day dt - 1) / 7) in *. clearbody q. lia.
  - intros months weeks r dt Hdt. cbv zeta.
    unfold Builder.totals_step. rewrite Hdt. split; reflexivity.
  - intros acc r. apply WeeksFacts.totals_step_undated.
  - intros rs. apply WeeksFacts.fold_totals_filter.
  - repeat (split; [vm_compute; reflexivity|]).
    apply map_eq. intros k.
    unfold Builder.totals. cbn [fold_left].
    rewrite (WeeksFacts.totals_step_undated db Str.decimal _
               (Weeks.de (Some U"2024-1-8") (Some f5)))
      by (vm_compute; reflexivity).
    rewrite (WeeksFacts.totals_step_undated db Str.decimal _ (Weeks.de None (Some f5)))
      by reflexivity.
    unfold Builder.totals_step.
    replace (Builder._date_from_yyyymmdd db
               (data_yyyymmdd (Weeks.de (Some U"20240108") (Some f10))))
      with (Some {| d_year := 2024; d_month := 1; d_day := 8 |})
      by (vm_compute; reflexivity).
    cbn [snd]. rewrite lookup_empty. cbn [default].
    replace (Builder.week_key Str.decimal
               {| d_year := 2024; d_month := 1; d_day := 8 |})
      with (U"01/2024 • Semana 2") by (vm_compute; reflexivity).
    replace (Float.add Float.zero (Float.or_zero (total (Weeks.de (Some U"20240108") (Some f10)))))
      with f10 by (vm_compute; reflexivity).
    rewrite insert_empty. reflexivity.
Qed.

Lemma week_bucket_spec_witness :
  Builder.week_idx {| d_year := 2024; d_month := 3; d_day := 15 |} = 3
  /\ Builder.totals_step Unicode.latin1 Str.decimal (∅, ∅)
       (Weeks.de (Some U"2024-3-1") (Some f10)) = (∅, ∅).
Proof.
  destruct (week_bucket_spec Unicode.latin1 Str.decimal)
    as (Hweek & _ & Hnone & _).
  split.
  - apply (Hweek (Some U"20240315")). vm_compute. reflexivity.
  - apply Hnone. vm_compute. reflexivity.
Defined.

(* ===================================================================== *)
(** ** More on the renderer: amounts as text *)
(* ===================================================================== *)

Module FmtFacts.

Lemma digit_is_digit (n : N) : Py.is_ascii_digit (Str.digit n) = true.
Proof.
  unfold Py.is_ascii_digit, Str.digit.
  pose proof (N.mod_lt n 10 ltac:(lia)) as H.
  set (q := n mod 10) in *. clearbody q.
  apply andb_true_intro. split; [apply N.leb_le|apply N.leb_le]; lia.
Qed.

Lemma decimal_fuel_digits (fuel : nat) (n : N) (acc : list N) :
  forallb Py.is_ascii_digit acc = true ->
  forallb Py.is_ascii_digit (Str.decimal_fuel fuel n acc) = true.
Proof.
  revert n acc. induction fuel as [|fuel IH]; intros n acc Hacc; simpl;
    [exact Hacc|].
  destruct (n <? 10).
  - simpl. rewrite digit_is_digit. exact Hacc.
  - apply IH. simpl. rewrite digit_is_digit. exact Hacc.
Qed.

Lemma decimal_digits (n : N) :
  forallb Py.is_ascii_digit (Str.decimal n) = true.
Proof. apply decimal_fuel_digits. reflexivity. Qed.

Lemma repeat_digits (k : nat) : forallb Py.is_ascii_digit (repeat 48 k) = true.
Proof. induction k; simpl; auto. Qed.

Lemma two_digits_digits (n : N) :
  forallb Py.is_ascii_digit (Str.two_digits n) = true.
Proof.
  unfold Str.two_digits, Str.zfill.
  pose proof (decimal_digits n) as Hd.
  destruct (Str.decimal n) as [|c r] eqn:E; [apply repeat_digits|].
  simpl in Hd. apply andb_prop in Hd as [Hc Hr].
  assert ((c =? 43) || (c =? 45) = false) as ->
    by (unfold Py.is_ascii_digit in Hc; bool_lia).
  rewrite forallb_app, repeat_digits. simpl. rewrite Hc, Hr. reflexivity.
Qed.

(** The characters of a grouped number are digits and commas. *)
Lemma group_rev_chars (k : nat) (rs : list N) :
  forallb Py.is_ascii_digit rs = true ->
  forallb (fun c => Py.is_ascii_digit c || (c =? 44)) (Float.group_rev k rs)
  = true.
Proof.
  revert k. induction rs as [|c r IH]; intros k H; simpl; [reflexivity|].
  simpl in H. apply andb_prop in H as [Hc Hr].
  destruct k as [|[|[|[|k]]]]; simpl; rewrite ?Hc; simpl; auto.
Qed.

Lemma group3_chars (ds : list N) :
  forallb Py.is_ascii_digit ds = true ->
  forallb (fun c => Py.is_ascii_digit c || (c =? 44)) (Float.group3 ds) = true.
Proof.
  intros H. unfold Float.group3.
  assert (forallb Py.is_ascii_digit (rev ds) = true) as Hr.
  { rewrite forallb_forall in *. intros x Hx. apply H, in_rev, Hx. }
  pose proof (group_rev_chars 0 (rev ds) Hr) as Hg.
  rewrite forallb_forall in *. intros c Hc. apply Hg, in_rev, Hc.
Qed.

Lemma forallb_weaken {A} (p q : A -> bool) (l : list A) :
  (forall x, p x = true -> q x = true) ->
  forallb p l = true -> forallb q l = true.
Proof.
  intros Hpq. rewrite !forallb_forall. auto.
Qed.

(** No formatted float holds the letter X. *)
Lemma format_2f_no_x (v : spec_float) :
  forallb (fun c => negb (c =? 88)) (Float.format_2f v) = true.
Proof.
  assert (forall l, forallb Py.is_ascii_digit l = true ->
            forallb (fun c => negb (c =? 88)) l = true) as Hdig.
  { intros l. apply forallb_weaken. intros x.
    unfold Py.is_ascii_digit. bool_lia. }
  destruct v as [s|s| |s m e]; unfold Float.format_2f.
  - destruct s; reflexivity.
  - destruct s; reflexivity.
  - reflexivity.
  - assert (forall l,
              forallb (fun c => Py.is_ascii_digit c || (c =? 44)) l = true ->
              forallb (fun c => negb (c =? 88)) l = true) as Hgrp.
    { intros l. apply forallb_weaken. intros x.
      unfold Py.is_ascii_digit. bool_lia. }
    rewrite !forallb_app.
    rewrite (Hdig _ (two_digits_digits _)).
    rewrite (Hgrp _ (group3_chars _ (decimal_digits _))).
    destruct s; reflexivity.
Qed.

(** On a string without X the three replacements exchange commas and
    periods. *)
Lemma replace_chain (s : list N) :
  forallb (fun c => negb (c =? 88)) s = true ->
  Str.replace1 88 [46] (Str.replace1 46 [44] (Str.replace1 44 [88] s))
  = map Fmt.swap s.
Proof.
  intros H. rewrite !CurrencyFacts.replace1_map, !map_map.
  apply map_ext_in. intros c Hc.
  rewrite forallb_forall in H. specialize (H c Hc). unfold Fmt.swap.
  destruct (N.eqb_spec c 44) as [E|H44]; [reflexivity|].
  destruct (N.eqb_spec c 46) as [E|H46]; [reflexivity|].
  destruct (c =? 88); [discriminate|reflexivity].
Qed.

Lemma fmt_currency_swap (v : spec_float) :
  Builder._fmt_currency (Some v) = U"R$ " ++ map Fmt.swap (Float.format_2f v).
Proof.
  unfold Builder._fmt_currency. rewrite replace_chain.
  - rewrite map_app. reflexivity.
  - rewrite forallb_app, format_2f_no_x. reflexivity.
Qed.

Lemma swap_digits (l : list N) :
  forallb Py.is_ascii_digit l = true -> map Fmt.swap l = l.
Proof.
  intros H. rewrite <- (map_id l) at 2. apply map_ext_in. intros c Hc.
  rewrite forallb_forall in H. specialize (H c Hc).
  unfold Fmt.swap, Py.is_ascii_digit in *.
  destruct (N.eqb_spec c 44); [bool_lia|].
  destruct (N.eqb_spec c 46); [bool_lia|reflexivity].
Qed.

Lemma swap_group (l : list N) :
  forallb (fun c => Py.is_ascii_digit c || (c =? 44)) l = true ->
  map Fmt.swap l = Str.replace1 44 [46] l.
Proof.
  intros H. rewrite CurrencyFacts.replace1_map. apply map_ext_in.
  intros c Hc. rewrite forallb_forall in H. specialize (H c Hc).
  unfold Fmt.swap, Py.is_ascii_digit in *.
  destruct (N.eqb_spec c 44); [reflexivity|].
  destruct (N.eqb_spec c 46); [bool_lia|reflexivity].
Qed.

End FmtFacts.

(** X1: [_fmt_currency] writes a float as ["R$ "] followed by its
    [,.2f] form with commas and periods exchanged.  For a finite value
    that is the sign, the whole part in groups of three separated by
    periods, a comma and two decimals. *)
Theorem fmt_currency_shape :
  (forall v,
     Builder._fmt_currency (Some v)
     = U"R$ " ++ map Fmt.swap (Float.format_2f v))
  /\ (forall s m e,
        let c := Float.cents m e in
        Builder._fmt_currency (Some (S754_finite s m e))
        = U"R$ " ++ Float.sign_str s
            ++ Str.replace1 44 [46] (Float.group3 (Str.decimal (c / 100)))
            ++ U"," ++ Str.two_digits (c mod 100)).
Proof.
  split; [apply FmtFacts.fmt_currency_swap|].
  intros s m e c. rewrite FmtFacts.fmt_currency_swap.
  unfold Float.format_2f. fold c. rewrite !map_app.
  rewrite (FmtFacts.swap_digits _ (FmtFacts.two_digits_digits _)).
  rewrite (FmtFacts.swap_group _
             (FmtFacts.group3_chars _ (FmtFacts.decimal_digits _))).
  destruct s; reflexivity.
Qed.

(** X2: the promotion is printed as ["-"] when absent and with a ["-"]
    put before the formatted amount whenever present, whatever the sign of
    the amount: the formatted amount starts with ["R$ "], so it is never
    taken for a negative one. *)
Theorem promo_fmt_always_dash (r : recibo) :
  Builder.promo_fmt r =
  match promocao r with
  | None => U"-"
  | Some v => U"-" ++ Builder._fmt_currency (Some v)
  end.
Proof.
  unfold Builder.promo_fmt. destruct (promocao r) as [v|]; [|reflexivity].
  rewrite FmtFacts.fmt_currency_swap. reflexivity.
Qed.

(* ===================================================================== *)
(** ** The folder of receipts and the entry point *)
(* ===================================================================== *)

Module PastaFacts.
Import Pasta.

Lemma carregar_recibo_uber_returns (db : unicode_db) (nome : list N)
    (text_lines : list (list N)) :
  exists r, Loader.carregar_recibo_uber db nome text_lines = Ok r
            /\ arquivo r = nome.
Proof.
  unfold Loader.carregar_recibo_uber.
  destruct (recibo_de_linhas_fields db nome
              (Loader.linhas_limpas db text_lines))
    as (dh & tot & preco & taxa & custo & promo & pag & info & pts
        & _ & _ & _ & _ & _ & _ & _ & _ & _ & H).
  rewrite H. eexists. split; reflexivity.
Qed.

Lemma basename_run (a b : list N) :
  47 ∉ b ->
  match rev a with [] => True | c :: _ => c = 47 end ->
  Os.basename (a ++ b) = b.
Proof.
  intros Hb Ha. unfold Os.basename. rewrite rev_app_distr.
  rewrite CurrencyReFacts.span_run.
  - simpl. apply rev_involutive.
  - rewrite forallb_forall. intros c Hc. apply in_rev in Hc.
    apply negb_true_iff, N.eqb_neq. intros ->. apply Hb.
    apply list_elem_of_In, Hc.
  - destruct (rev a) as [|c r]; [exact I|]. rewrite Ha. reflexivity.
Qed.

(** The file name of a joined path is the name that was joined, when
    that name holds no slash. *)
Lemma basename_join (a b : list N) :
  47 ∉ b -> Os.basename (Os.path_join a b) = b.
Proof.
  intros Hb. unfold Os.path_join.
  destruct (Str.startswith U"/" b) eqn:Hs.
  { destruct b as [|c b]; [discriminate|].
    change (U"/") with [47] in Hs. cbn [Str.startswith] in Hs.
    apply andb_prop in Hs as [Hc _]. apply N.eqb_eq in Hc. subst c.
    exfalso. apply Hb. left. }
  destruct a as [|x a]; [apply (basename_run [] b Hb I)|].
  destruct (Os.endswith U"/" (x :: a)) eqn:He.
  - apply basename_run; [exact Hb|].
    unfold Os.endswith in He. change (rev U"/") with [47] in He.
    destruct (rev (x :: a)) as [|c r]; [exact I|].
    cbn [Str.startswith] in He. apply andb_prop in He as [Hc _].
    apply N.eqb_eq in Hc. symmetry. exact Hc.
  - rewrite app_assoc. apply basename_run; [exact Hb|].
    rewrite rev_app_distr. reflexivity.
Qed.

Lemma recibos_loop_spec (db : unicode_db) (f : fs) (pasta : list N)
    (nomes : list (list N)) (recibos : list recibo) :
  Forall (fun nome => 47 ∉ nome) nomes ->
  exists novos,
    Loader.recibos_loop db f pasta nomes recibos = Ok (recibos ++ novos)
    /\ Forall2 (fun '(nome, text_lines) r =>
                  Loader.carregar_recibo_uber db nome text_lines = Ok r)
         (lidos db f pasta nomes) novos.
Proof.
  revert recibos. induction nomes as [|nome rest IH]; intros recibos Hn.
  - exists []. split; [simpl; rewrite app_nil_r; reflexivity|constructor].
  - inversion Hn as [|? ? Hnome Hrest]; subst.
    cbn [Loader.recibos_loop lidos omap list_omap].
    change (Os.endswith U".pdf" (Py.lower db nome)) with (is_pdf db nome).
    destruct (is_pdf db nome); cbn [negb].
    2: { destruct (IH recibos Hrest) as (novos & H1 & H2).
         exists novos. split; assumption. }
    unfold Loader.carregar_recibo_uber_em.
    destruct (text_lines_of f (Os.path_join pasta nome)) as [e|ls].
    + cbn. destruct (IH recibos Hrest) as (novos & H1 & H2).
      exists novos. split; assumption.
    + rewrite (basename_join _ _ Hnome).
      destruct (carregar_recibo_uber_returns db nome ls) as (r & Hr & _).
      cbn [called mbind result_bind]. rewrite Hr. cbn.
      destruct (IH (recibos ++ [r]) Hrest) as (novos & H1 & H2).
      exists (r :: novos). split.
      * rewrite H1, <- app_assoc. reflexivity.
      * constructor; assumption.
Qed.

Lemma pasta_lidos (db : unicode_db) (f : fs) (pasta : list N)
    (nomes : list (list N)) :
  isdir f pasta = true -> listdir f pasta = inr nomes ->
  Forall (fun nome => 47 ∉ nome) nomes ->
  exists recibos,
    Loader.carregar_recibos_pasta db f pasta = Ok recibos
    /\ map arquivo recibos = map fst (lidos db f pasta nomes)
    /\ Forall2 (fun '(nome, text_lines) r =>
                  Loader.carregar_recibo_uber db nome text_lines = Ok r)
         (lidos db f pasta nomes) recibos.
Proof.
  intros Hd Hl Hn. unfold Loader.carregar_recibos_pasta.
  rewrite Hd, Hl. cbn [negb called mbind result_bind].
  destruct (recibos_loop_spec db f pasta nomes [] Hn) as (novos & H1 & H2).
  exists novos. split; [exact H1|]. split; [|exact H2].
  clear H1. induction H2 as [|[nome ls] r l l' Hr _ IH]; [reflexivity|].
  cbn [map fst]. rewrite IH. f_equal.
  destruct (carregar_recibo_uber_returns db nome ls) as (r' & Hr' & Ha).
  congruence.
Qed.

(** No file of a listing is read as a receipt exactly when each name is
    not that of a PDF or names a file that [pypdf] does not read. *)
Lemma lidos_nil (db : unicode_db) (f : fs) (pasta : list N)
    (nomes : list (list N)) :
  lidos db f pasta nomes = [] <->
  Forall (fun nome =>
            is_pdf db nome = false
            \/ exists e, text_lines_of f (Os.path_join pasta nome) = inl e)
    nomes.
Proof.
  induction nomes as [|nome rest IH].
  - split; [constructor|reflexivity].
  - rewrite Forall_cons, <- IH. unfold lidos. cbn [omap list_omap].
    destruct (is_pdf db nome).
    + destruct (text_lines_of f (Os.path_join pasta nome)) as [e|ls].
      * split; [intros H; split; [right; eauto|exact H]|intros [_ H]; exact H].
      * split; [discriminate|].
        intros [[H|[e H]] _]; discriminate.
    + split; [intros H; split; [left; reflexivity|exact H]|].
      intros [_ H]. exact H.
Qed.

End PastaFacts.

(** X3: [carregar_recibos_pasta] answers the empty list for a path that
    is no directory and lets an exception of [os.listdir] through.
    Otherwise it returns, for the names of the listing (file names, which
    hold no slash), one record for each name that ends with [.pdf] in any
    case of letters and that [pypdf] reads, in the order of the listing;
    the record is the one parsed from the lines of that file, under the
    file's name.  Other names and unreadable files are passed over. *)
Theorem carregar_recibos_pasta_spec (db : unicode_db) (f : fs)
    (pasta : list N) :
  (isdir f pasta = false -> Loader.carregar_recibos_pasta db f pasta = Ok [])
  /\ (forall e,
        isdir f pasta = true -> listdir f pasta = inl e ->
        Loader.carregar_recibos_pasta db f pasta = Raise e)
  /\ (forall nomes,
        isdir f pasta = true -> listdir f pasta = inr nomes ->
        Forall (fun nome => 47 ∉ nome) nomes ->
        exists recibos,
          Loader.carregar_recibos_pasta db f pasta = Ok recibos
          /\ map arquivo recibos = map fst (Pasta.lidos db f pasta nomes)
          /\ Forall2 (fun '(nome, text_lines) r =>
                        Loader.carregar_recibo_uber db nome text_lines = Ok r)
               (Pasta.lidos db f pasta nomes) recibos).
Proof.
  unfold Loader.carregar_recibos_pasta.
  split; [intros ->; reflexivity|].
  split; [intros e -> ->; reflexivity|].
  intros nomes -> -> Hn. cbn [negb called mbind result_bind].
  destruct (PastaFacts.recibos_loop_spec db f pasta nomes [] Hn)
    as (novos & H1 & H2).
  exists novos. split; [exact H1|]. split; [|exact H2].
  clear H1. induction H2 as [|[nome ls] r l l' Hr _ IH]; [reflexivity|].
  cbn [map fst]. rewrite IH. f_equal.
  destruct (PastaFacts.carregar_recibo_uber_returns db nome ls)
    as (r' & Hr' & Ha).
  congruence.
Qed.

Lemma carregar_recibos_pasta_spec_witness :
  Loader.carregar_recibos_pasta Unicode.latin1 Pasta.exemplo U"nada" = Ok []
  /\ exists recibos,
       Loader.carregar_recibos_pasta Unicode.latin1 Pasta.exemplo U"uber"
       = Ok recibos
       /\ map arquivo recibos = [U"A.PDF"].
Proof.
  destruct (carregar_recibos_pasta_spec Unicode.latin1 Pasta.exemplo U"nada")
    as (H0 & _ & _).
  destruct (carregar_recibos_pasta_spec Unicode.latin1 Pasta.exemplo U"uber")
    as (_ & _ & H).
  split; [apply H0; vm_compute; reflexivity|].
  destruct (H [U"nota.txt"; U"A.PDF"; U"ruim.pdf"]) as (rs & H1 & H2 & _).
  - vm_compute. reflexivity.
  - reflexivity.
  - repeat constructor; vm_compute; intros Hin;
      repeat (apply elem_of_cons in Hin as [Hin|Hin]; [discriminate|]);
      inversion Hin.
  - exists rs. split; [exact H1|]. rewrite H2. vm_compute. reflexivity.
Defined.

(** X4: what a run of [main] does, read off the folder [uber].  Without
    the folder, or when none of its names ends with [.pdf] and is read by
    [pypdf], the run prints that no receipt was found and
    [criar_relatorio_uber] is not called.  Otherwise the builder is called
    once, with the records of all the readable PDF files of the listing,
    in its order, and with the name [Relatorio UBER - <today>.pdf]; the
    run ends with the name of the report, or with the exception of the
    builder.  An exception of [os.listdir] ends the run as well. *)
Theorem main_on_folder (db : unicode_db) (f : fs)
    (criar : list recibo -> list N -> exn + unit) (hoje : list N) :
  let rule := repeat 61 50 in
  let top := [rule; U"Relatorio UBER - Banco Vittoria"; rule] in
  let saida := U"Relatorio UBER - " ++ hoje ++ U".pdf" in
  let nothing :=
    {| Main.printed := top ++ [U"Nenhum recibo encontrado em uber"];
       Main.report := None |} in
  (isdir f U"uber" = false -> Main.main db f criar hoje = Ok nothing)
  /\ (forall e,
        isdir f U"uber" = true -> listdir f U"uber" = inl e ->
        Main.main db f criar hoje = Raise e)
  /\ (forall nomes,
        isdir f U"uber" = true -> listdir f U"uber" = inr nomes ->
        Forall (fun nome => 47 ∉ nome) nomes ->
        (Pasta.lidos db f U"uber" nomes = [] <->
         Forall (fun nome =>
                   Pasta.is_pdf db nome = false
                   \/ exists e,
                        text_lines_of f (Os.path_join U"uber" nome) = inl e)
           nomes)
        /\ match Pasta.lidos db f U"uber" nomes with
           | [] => Main.main db f criar hoje = Ok nothing
           | lidos =>
               exists recibos,
                 map arquivo recibos = map fst lidos
                 /\ Forall2 (fun '(nome, text_lines) r =>
                               Loader.carregar_recibo_uber db nome text_lines
                               = Ok r) lidos recibos
                 /\ Main.main db f criar hoje
                    = match criar recibos saida with
                      | inl e => Raise e
                      | inr _ =>
                          Ok {| Main.printed :=
                                  top ++ [[10] ++ rule;
                                          U"OK PDF gerado: " ++ saida; rule];
                                Main.report := Some (recibos, saida) |}
                      end
           end).
Proof.
  intros rule top saida nothing. unfold Main.main.
  change Main.PASTA_RECIBOS with (U"uber").
  split; [|split].
  - intros Hd. unfold Loader.carregar_recibos_pasta. rewrite Hd. reflexivity.
  - intros e Hd Hl. unfold Loader.carregar_recibos_pasta.
    rewrite Hd, Hl. reflexivity.
  - intros nomes Hd Hl Hn. split; [apply PastaFacts.lidos_nil|].
    destruct (PastaFacts.pasta_lidos db f U"uber" nomes Hd Hl Hn)
      as (recibos & Hc & Ha & H2).
    rewrite Hc. cbn [mbind result_bind].
    destruct (Pasta.lidos db f U"uber" nomes) as [|l ls] eqn:El.
    + inversion H2; subst. reflexivity.
    + exists recibos. split; [exact Ha|]. split; [exact H2|].
      inversion H2; subst.
      destruct (criar _ _) as [e|[]]; reflexivity.
Qed.

Lemma main_on_folder_witness :
  exists recibos,
    map arquivo recibos = [U"A.PDF"]
    /\ Main.main Unicode.latin1 Pasta.exemplo (fun _ _ => inr tt) U"20240315"
       = Ok {| Main.printed :=
                 [repeat 61 50; U"Relatorio UBER - Banco Vittoria";
                  repeat 61 50; [10] ++ repeat 61 50;
                  U"OK PDF gerado: Relatorio UBER - 20240315.pdf";
                  repeat 61 50];
               Main.report :=
                 Some (recibos, U"Relatorio UBER - 20240315.pdf") |}.
Proof.
  destruct (main_on_folder Unicode.latin1 Pasta.exemplo (fun _ _ => inr tt)
              U"20240315") as (_ & _ & H).
  destruct (H [U"nota.txt"; U"A.PDF"; U"ruim.pdf"]) as [_ H'].
  - vm_compute. reflexivity.
  - reflexivity.
  - repeat constructor; vm_compute; intros Hin;
      repeat (apply elem_of_cons in Hin as [Hin|Hin]; [discriminate|]);
      inversion Hin.
  - assert (Pasta.lidos Unicode.latin1 Pasta.exemplo U"uber"
              [U"nota.txt"; U"A.PDF"; U"ruim.pdf"]
            = [(U"A.PDF", [U"Total R$ 5,00"])]) as El
      by (vm_compute; reflexivity).
    rewrite El in H'. destruct H' as (recibos & Ha & _ & Hm).
    exists recibos. split; [exact Ha|exact Hm].
Defined.

(* ===================================================================== *)
(** ** The period of a report *)
(* ===================================================================== *)

Module PeriodoFacts.
Import Periodo.

Lemma dated_datas (recibos : list recibo) (d : list N) :
  dated recibos d <-> d ∈ datas recibos.
Proof.
  unfold dated, datas. rewrite list_elem_of_omap. split.
  - intros (Hd & r & Hr & E). exists r. split; [exact Hr|]. rewrite E.
    destruct d; [contradiction|reflexivity].
  - intros (r & Hr & E).
    destruct (data_yyyymmdd r) as [[|c s]|] eqn:E'; try discriminate.
    injection E as <-. split; [discriminate|]. exists r. auto.
Qed.

Lemma leb_refl (a : list N) : Str.leb a a = true.
Proof. unfold Str.leb. rewrite OrderFacts.ltb_irrefl. reflexivity. Qed.

Lemma leb_antisym (a b : list N) :
  Str.leb a b = true -> Str.leb b a = true -> a = b.
Proof.
  unfold Str.leb. rewrite !negb_true_iff. intros H1 H2.
  apply OrderFacts.ltb_connex; assumption.
Qed.

(** The ends of a sorted list bound its elements. *)
Lemma sorted_ends (l : list (list N)) (lo hi : list N) :
  StronglySorted (Order.le (fun d => d)) l ->
  l !! 0%nat = Some lo -> l !! (length l - 1)%nat = Some hi ->
  forall d, d ∈ l -> Str.leb lo d = true /\ Str.leb d hi = true.
Proof.
  intros Hs. revert lo hi. induction Hs as [|y l Hl IH Hy]; intros lo hi H0 H1 d Hd.
  - inversion Hd.
  - injection H0 as <-. rewrite Forall_forall in Hy.
    destruct l as [|z l].
    + injection H1 as <-. apply list_elem_of_singleton in Hd as ->.
      split; apply leb_refl.
    + replace (length (y :: z :: l) - 1)%nat with (S (length (z :: l) - 1))
        in H1 by (simpl; lia).
      change ((z :: l) !! (length (z :: l) - 1)%nat = Some hi) in H1.
      assert (hi ∈ z :: l) as Hhi by (eapply list_elem_of_lookup_2; eauto).
      apply elem_of_cons in Hd as [->|Hd].
      * split; [apply leb_refl|apply Hy, Hhi].
      * split; [apply Hy, Hd|].
        eapply (IH z hi eq_refl H1 d Hd).
Qed.

(** What [_fmt_date_range] answers when some record has a date. *)
Lemma range_of_dated (recibos : list recibo) (d0 : list N) :
  dated recibos d0 ->
  exists lo hi,
    dated recibos lo /\ dated recibos hi
    /\ (forall d, dated recibos d ->
                  Str.leb lo d = true /\ Str.leb d hi = true)
    /\ Builder._fmt_date_range recibos
       = Ok (Builder._to_br lo ++ U"–" ++ Builder._to_br hi).
Proof.
  intros Hd0. apply dated_datas in Hd0.
  unfold Builder._fmt_date_range. fold (datas recibos).
  set (ds := datas recibos) in *.
  pose proof (OrderFacts.sorted_perm (fun d => d) ds) as Hp.
  pose proof (OrderFacts.sorted_sorted (fun d => d) ds) as Hs.
  set (l := Builder.sorted (fun d => d) ds) in *.
  assert (d0 ∈ l) as Hl by (rewrite Hp; exact Hd0).
  destruct ds as [|x ds'] eqn:Eds; [inversion Hd0|]. rewrite <- Eds in *.
  destruct l as [|lo l'] eqn:El; [inversion Hl|]. rewrite <- El in *.
  assert (is_Some (l !! (length l - 1)%nat)) as [hi Hhi].
  { apply lookup_lt_is_Some. rewrite El. simpl. lia. }
  assert (l !! 0%nat = Some lo) as Hlo by (rewrite El; reflexivity).
  exists lo, hi.
  assert (forall d, dated recibos d <-> d ∈ l) as Hdl.
  { intros d. rewrite dated_datas. fold ds. rewrite Hp. reflexivity. }
  split; [apply Hdl; eapply list_elem_of_lookup_2; eauto|].
  split; [apply Hdl; eapply list_elem_of_lookup_2; eauto|].
  split.
  - intros d Hd. apply (sorted_ends l lo hi Hs Hlo Hhi), Hdl, Hd.
  - unfold Py.index. rewrite Hlo, Hhi. reflexivity.
Qed.

Lemma range_of_undated (recibos : list recibo) :
  (forall d, ~ dated recibos d) ->
  Builder._fmt_date_range recibos = Ok U"-".
Proof.
  intros H. unfold Builder._fmt_date_range. fold (datas recibos).
  destruct (datas recibos) as [|x ds] eqn:E; [reflexivity|].
  exfalso. apply (H x), dated_datas. rewrite E. left.
Qed.

Lemma dated_perm (recibos recibos' : list recibo) (d : list N) :
  recibos ≡ₚ recibos' -> dated recibos d -> dated recibos' d.
Proof.
  intros Hp (Hd & r & Hr & E). split; [exact Hd|]. exists r.
  rewrite <- Hp. auto.
Qed.

End PeriodoFacts.

(** X5: [_fmt_date_range] raises nothing.  It answers ["-"] exactly when
    no record has a date key.  Otherwise it answers the smallest and the
    largest date key of the records in the order of strings, each
    rewritten by [_to_br] and with an en dash between them; a key of
    eight characters YYYYMMDD is rewritten to DD/MM/YYYY and any other key
    is left as it is.  The answer does not depend on the order of the
    records. *)
Theorem fmt_date_range_spec (recibos : list recibo) :
  (exists s, Builder._fmt_date_range recibos = Ok s)
  /\ (Builder._fmt_date_range recibos = Ok U"-"
      <-> forall d, ~ Periodo.dated recibos d)
  /\ (forall d0,
        Periodo.dated recibos d0 ->
        exists lo hi,
          Periodo.dated recibos lo /\ Periodo.dated recibos hi
          /\ (forall d, Periodo.dated recibos d ->
                        Str.leb lo d = true /\ Str.leb d hi = true)
          /\ Builder._fmt_date_range recibos
             = Ok (Builder._to_br lo ++ U"–" ++ Builder._to_br hi))
  /\ (forall y1 y2 y3 y4 m1 m2 d1 d2,
        Builder._to_br [y1; y2; y3; y4; m1; m2; d1; d2]
        = [d1; d2; 47; m1; m2; 47; y1; y2; y3; y4])
  /\ (forall d, length d <> 8%nat -> Builder._to_br d = d)
  /\ (forall recibos',
        recibos ≡ₚ recibos' ->
        Builder._fmt_date_range recibos' = Builder._fmt_date_range recibos).
Proof.
  assert (forall rs, (forall d, ~ Periodo.dated rs d)
                     \/ exists d, Periodo.dated rs d) as Hdec.
  { intros rs. destruct (Periodo.datas rs) as [|x ds] eqn:E.
    - left. intros d Hd. apply PeriodoFacts.dated_datas in Hd.
      rewrite E in Hd. inversion Hd.
    - right. exists x. apply PeriodoFacts.dated_datas. rewrite E. left. }
  split; [|split; [|split; [|split; [|split]]]].
  - destruct (Hdec recibos) as [H|[d0 H]].
    + eexists. apply PeriodoFacts.range_of_undated, H.
    + destruct (PeriodoFacts.range_of_dated recibos d0 H)
        as (lo & hi & _ & _ & _ & E).
      eexists. exact E.
  - split; [|apply PeriodoFacts.range_of_undated].
    intros E d0 H.
    destruct (PeriodoFacts.range_of_dated recibos d0 H)
      as (lo & hi & _ & _ & _ & E').
    rewrite E' in E. injection E as E.
    assert (8211 ∈ U"-") as Hin.
    { rewrite <- E. apply elem_of_app. right. left. }
    vm_compute in Hin. apply list_elem_of_singleton in Hin. discriminate.
  - apply PeriodoFacts.range_of_dated.
  - reflexivity.
  - intros d Hd. unfold Builder._to_br.
    rewrite bool_decide_eq_false_2 by exact Hd. reflexivity.
  - intros recibos' Hp.
    destruct (Hdec recibos) as [H|[d0 H]].
    + rewrite (PeriodoFacts.range_of_undated recibos H).
      apply PeriodoFacts.range_of_undated. intros d Hd.
      apply (H d). apply (PeriodoFacts.dated_perm recibos' recibos);
        [symmetry; exact Hp|exact Hd].
    + destruct (PeriodoFacts.range_of_dated recibos d0 H)
        as (lo & hi & Hlo & Hhi & Hb & E).
      destruct (PeriodoFacts.range_of_dated recibos' d0
                  (PeriodoFacts.dated_perm _ _ _ Hp H))
        as (lo' & hi' & Hlo' & Hhi' & Hb' & E').
      assert (forall d, Periodo.dated recibos' d -> Periodo.dated recibos d)
        as Hback.
      { intros d. apply PeriodoFacts.dated_perm. symmetry. exact Hp. }
      assert (lo' = lo) as ->.
      { apply PeriodoFacts.leb_antisym.
        - apply Hb', (PeriodoFacts.dated_perm _ _ _ Hp Hlo).
        - apply Hb, Hback, Hlo'. }
      assert (hi' = hi) as ->.
      { apply PeriodoFacts.leb_antisym.
        - apply Hb, Hback, Hhi'.
        - apply Hb', (PeriodoFacts.dated_perm _ _ _ Hp Hhi). }
      rewrite E, E'. reflexivity.
Qed.

Lemma fmt_date_range_spec_witness :
  let recibos :=
    [SortKey.de (Some U"20240315") None; SortKey.de None None;
     SortKey.de (Some U"20240102") None] in
  Periodo.dated recibos U"20240315"
  /\ exists lo hi,
       Periodo.dated recibos lo /\ Periodo.dated recibos hi
       /\ Builder._fmt_date_range recibos
          = Ok (Builder._to_br lo ++ U"–" ++ Builder._to_br hi).
Proof.
  intros recibos.
  assert (Periodo.dated recibos U"20240315") as Hd.
  { split; [discriminate|]. eexists. split; [left|reflexivity]. }
  split; [exact Hd|].
  destruct (fmt_date_range_spec recibos) as (_ & _ & H & _).
  destruct (H U"20240315" Hd) as (lo & hi & Hlo & Hhi & _ & E).
  exists lo, hi. split; [exact Hlo|]. split; [exact Hhi|exact E].
Defined.

(* ===================================================================== *)
(** ** The header, the payment line and the trip information *)
(* ===================================================================== *)

Module SecoesFacts.
Import Secoes.

Section WithDb.
Context (db : unicode_db).

Lemma startswith_contains (p s : list N) :
  Str.startswith p s = true -> Str.contains p s = true.
Proof. intros H. destruct s; simpl; rewrite H; reflexivity. Qed.

Lemma contains_cons (p : list N) (c : N) (s : list N) :
  Str.contains p s = true -> Str.contains p (c :: s) = true.
Proof.
  intros H. change (Str.contains p (c :: s))
    with (Str.startswith p (c :: s) || Str.contains p s).
  rewrite H. apply orb_true_r.
Qed.

(** The second test of line 104 follows from the first. *)
Lemma date_head_contains (s : list N) :
  Re.date_head_re db s = true -> Str.contains U" de " s = true.
Proof.
  unfold Re.date_head_re. intros H. apply bool_decide_eq_true in H.
  destruct H as [[] H]. unfold Re.digits12 in H.
  destruct s as [|a r]; [discriminate|].
  destruct (Py.isdecimal db a); [|discriminate].
  assert (forall t, Re.lit U" de " (fun _ => Some ()) t = Some () ->
                    Str.contains U" de " t = true) as Hlit.
  { intros t Ht. unfold Re.lit in Ht.
    destruct (Str.startswith U" de " t) eqn:E; [|discriminate].
    apply startswith_contains, E. }
  destruct r as [|b r'].
  - apply Hlit in H. discriminate.
  - destruct (Py.isdecimal db b).
    + destruct (Re.lit U" de " (fun _ => Some ()) r') eqn:E.
      * destruct u. apply contains_cons, contains_cons, Hlit, E.
      * apply contains_cons, Hlit, H.
    + apply contains_cons, Hlit, H.
Qed.

Lemma data_hora_loop_spec (pre rest : list (list N)) :
  Loader.data_hora_loop db (pre ++ rest) (length pre) rest =
  Ok match list_find (is_date_head db) rest with
     | None => (None, None)
     | Some (k, line) =>
         (Some (Loader._clean_text db line),
          match (pre ++ rest) !! (length pre + k + 1)%nat with
          | Some next =>
              if Re.time_re db next then Some (Loader._clean_text db next)
              else None
          | None => None
          end)
     end.
Proof.
  revert pre. induction rest as [|line rest IH]; intros pre; [reflexivity|].
  cbn [Loader.data_hora_loop list_find].
  destruct (decide (is_date_head db line)) as [E|E].
  - pose proof E as E'. unfold is_date_head in E'.
    rewrite E', (date_head_contains _ E'). cbn [andb].
    rewrite Nat.add_0_r. unfold Py.index.
    case_bool_decide as Hlt.
    + destruct (lookup_lt_is_Some_2 _ _ Hlt) as [next ->].
      cbn [mbind result_bind]. destruct (Re.time_re db next); reflexivity.
    + rewrite lookup_ge_None_2 by lia. reflexivity.
  - assert (Re.date_head_re db (Loader._norm_text db line) = false) as ->
      by (apply not_true_is_false, E).
    cbn [andb]. specialize (IH (pre ++ [line])).
    rewrite <- app_assoc, length_app in IH. cbn [app length] in IH.
    replace (length pre + 1)%nat with (S (length pre)) in IH by lia.
    rewrite IH.
    destruct (list_find (is_date_head db) rest) as [[k l]|]; [|reflexivity].
    cbn [fmap option_fmap option_map prod_map fst snd id].
    replace (S (length pre) + k + 1)%nat with (length pre + S k + 1)%nat
      by lia.
    reflexivity.
Qed.

Lemma pagamento_loop_spec (pre rest : list (list N)) :
  Loader.pagamento_loop db (pre ++ rest) (length pre) rest =
  Ok match list_find (is_heading db U"pagamentos") rest with
     | None => None
     | Some (k, _) =>
         Loader._clean_text db <$> (pre ++ rest) !! (length pre + k + 1)%nat
     end.
Proof.
  revert pre. induction rest as [|line rest IH]; intros pre; [reflexivity|].
  cbn [Loader.pagamento_loop list_find]. unfold is_heading at 1.
  case_bool_decide as E.
  - rewrite decide_True by exact E.
    rewrite Nat.add_0_r. unfold Py.index.
    case_bool_decide as Hlt.
    + destruct (lookup_lt_is_Some_2 _ _ Hlt) as [next ->]. reflexivity.
    + rewrite lookup_ge_None_2 by lia. reflexivity.
  - rewrite decide_False by exact E.
    specialize (IH (pre ++ [line])).
    rewrite <- app_assoc, length_app in IH. cbn [app length] in IH.
    replace (length pre + 1)%nat with (S (length pre)) in IH by lia.
    rewrite IH.
    destruct (list_find (is_heading db U"pagamentos") rest) as [[k l]|];
      [|reflexivity].
    cbn [fmap option_fmap option_map prod_map fst snd id].
    replace (S (length pre) + k + 1)%nat with (length pre + S k + 1)%nat
      by lia.
    reflexivity.
Qed.

Lemma info_loop_spec (pre rest : list (list N)) :
  Loader.info_loop db (pre ++ rest) (length pre) rest =
  Ok match list_find (is_heading db U"informacoes da viagem") rest with
     | None => (None, None, None)
     | Some (k, _) =>
         let trip :=
           linha ← (pre ++ rest) !! (length pre + k + 2)%nat;
           Re.trip_re db (Loader._norm_text db linha) in
         (Loader._clean_text db <$> (pre ++ rest) !! (length pre + k + 1)%nat,
          fst <$> trip, snd <$> trip)
     end.
Proof.
  revert pre. induction rest as [|line rest IH]; intros pre; [reflexivity|].
  cbn [Loader.info_loop list_find]. unfold is_heading at 1.
  case_bool_decide as E.
  - rewrite decide_True by exact E.
    rewrite Nat.add_0_r. unfold Py.index.
    set (lines := pre ++ line :: rest).
    destruct (lines !! (length pre + 1)%nat) as [next|] eqn:H1.
    + rewrite (bool_decide_eq_true_2 (length pre + 1 < length lines)%nat)
        by (eapply lookup_lt_Some, H1).
      destruct (lines !! (length pre + 2)%nat) as [linha|] eqn:H2.
      * rewrite (bool_decide_eq_true_2 (length pre + 2 < length lines)%nat)
          by (eapply lookup_lt_Some, H2).
        cbn [mbind result_bind option_bind fmap option_fmap option_map].
        destruct (Re.trip_re db (Loader._norm_text db linha)) as [[g1 g2]|];
          reflexivity.
      * apply lookup_ge_None in H2.
        rewrite (bool_decide_eq_false_2 (length pre + 2 < length lines)%nat)
          by lia.
        reflexivity.
    + apply lookup_ge_None in H1.
      rewrite (bool_decide_eq_false_2 (length pre + 1 < length lines)%nat)
        by lia.
      rewrite (bool_decide_eq_false_2 (length pre + 2 < length lines)%nat)
        by lia.
      rewrite (lookup_ge_None_2 lines (length pre + 2)) by lia. reflexivity.
  - rewrite decide_False by exact E.
    specialize (IH (pre ++ [line])).
    rewrite <- app_assoc, length_app in IH. cbn [app length] in IH.
    replace (length pre + 1)%nat with (S (length pre)) in IH by lia.
    rewrite IH.
    destruct (list_find (is_heading db U"informacoes da viagem") rest)
      as [[k l]|]; [|reflexivity].
    cbn [fmap option_fmap option_map prod_map fst snd id].
    replace (S (length pre) + k + 1)%nat with (length pre + S k + 1)%nat
      by lia.
    replace (S (length pre) + k + 2)%nat with (length pre + S k + 2)%nat
      by lia.
    reflexivity.
Qed.

End WithDb.
End SecoesFacts.

(** X6: the date and time of a receipt are read at the first line that,
    once normalised, opens with one or two digits and [ de ] (the further
    test that the line contains [ de ] follows from that one): the date is
    that line, and the time is the next line when there is one and it has
    the form of a clock time; later date lines are not looked at. *)
Theorem data_hora_rule (db : unicode_db) (lines : list (list N)) :
  Loader.data_hora_loop db lines 0 lines = Ok (Secoes.data_hora db lines)
  /\ (forall s, Re.date_head_re db s = true ->
                Str.contains U" de " s = true).
Proof.
  split; [|apply SecoesFacts.date_head_contains].
  exact (SecoesFacts.data_hora_loop_spec db [] lines).
Qed.

Lemma data_hora_rule_witness :
  Re.date_head_re Unicode.latin1 U"5 de marco de 2024" = true
  /\ Str.contains U" de " U"5 de marco de 2024" = true.
Proof.
  split; [vm_compute; reflexivity|].
  apply (data_hora_rule Unicode.latin1 []). vm_compute. reflexivity.
Defined.

(** X7: the payment line is the line after the first line that is
    [Pagamentos] once normalised, and the category is the line after the
    first line that is [Informacoes da viagem]; distance and duration are
    the two groups of the trip pattern on the second line after that
    heading.  Each is absent when there is no such heading, when the line
    lies beyond the end or when the pattern does not match; a later
    heading is never used. *)
Theorem pagamento_info_rule (db : unicode_db) (lines : list (list N)) :
  Loader.pagamento_loop db lines 0 lines = Ok (Secoes.pagamento db lines)
  /\ Loader.info_loop db lines 0 lines = Ok (Secoes.info db lines).
Proof.
  split.
  - exact (SecoesFacts.pagamento_loop_spec db [] lines).
  - exact (SecoesFacts.info_loop_spec db [] lines).
Qed.

(** X8: what every record of the parser satisfies.  A time is stored only
    with a date text; the date key is the parse of the normalised date
    text, is absent without one, and has eight characters when present;
    distance and duration are present together, and only with a category;
    a destination is present only with an origin. *)
Theorem recibo_invariants (db : unicode_db) (nome : list N)
    (lines : list (list N)) (r : recibo) :
  Loader.recibo_de_linhas db nome lines = Ok r ->
  arquivo r = nome
  /\ (is_Some (hora r) -> is_Some (data_texto r))
  /\ data_yyyymmdd r
     = (t ← data_texto r; Loader._parse_date_pt db (Loader._norm_text db t))
  /\ (forall d, data_yyyymmdd r = Some d -> length d = 8%nat)
  /\ (is_Some (distancia_km r) <-> is_Some (duracao_min r))
  /\ (is_Some (distancia_km r) -> is_Some (categoria r))
  /\ (is_Some (destino r) -> is_Some (origem r)).
Proof.
  intros Hr.
  destruct (recibo_de_linhas_fields db nome lines)
    as (dh & tot & preco & taxa & custo & promo & pag & info & pts
        & Hdh & _ & _ & _ & _ & _ & _ & Hinfo & _ & H).
  rewrite H in Hr. injection Hr as <-. cbn [arquivo hora data_texto
    data_yyyymmdd distancia_km duracao_min categoria destino origem].
  pose proof (SecoesFacts.data_hora_loop_spec db [] lines) as Hdh'.
  cbn [app length] in Hdh'. rewrite Hdh in Hdh'. injection Hdh' as ->.
  pose proof (SecoesFacts.info_loop_spec db [] lines) as Hinfo'.
  cbn [app length] in Hinfo'. rewrite Hinfo in Hinfo'. injection Hinfo' as ->.
  split; [reflexivity|].
  split.
  { destruct (list_find _ lines) as [[k l]|]; cbn [fst snd]; [eauto|].
    intros [? [=]]. }
  assert (forall t : option (list N),
            Loader._parse_date_pt db (Loader._norm_text db (Py.or_str t []))
            = (x ← t; Loader._parse_date_pt db (Loader._norm_text db x)))
    as Hparse.
  { intros [[|c t]|]; reflexivity. }
  split; [apply Hparse|].
  split.
  { intros d Hd. apply (SortKeyFacts.parsed_key db _ _ Hd). }
  assert (is_Some (pts !! 1%nat) -> is_Some (pts !! 0%nat)) as Hpts.
  { intros Hs. apply lookup_lt_is_Some_2.
    apply lookup_lt_is_Some_1 in Hs. lia. }
  assert (forall A, ~ is_Some (@None A)) as Hnone by (intros A [? [=]]).
  destruct (list_find (Secoes.is_heading db _) lines) as [[k l]|];
    cbn [fst snd].
  2: { split; [split; intros Hs; destruct (Hnone _ Hs)|].
       split; [intros Hs; destruct (Hnone _ Hs)|exact Hpts]. }
  cbn zeta.
  destruct (lines !! (k + 2)%nat) as [linha|] eqn:H2;
    cbn [mbind option_bind].
  - assert (is_Some (lines !! (k + 1)%nat)) as [next ->].
    { apply lookup_lt_is_Some_2. apply lookup_lt_Some in H2. lia. }
    destruct (Re.trip_re db (Loader._norm_text db linha)) as [[g1 g2]|];
      cbn [fmap option_fmap option_map fst snd].
    + split; [split; eauto|]. split; [eauto|exact Hpts].
    + split; [split; intros Hs; destruct (Hnone _ Hs)|].
      split; [intros Hs; destruct (Hnone _ Hs)|exact Hpts].
  - cbn [fmap option_fmap option_map].
    split; [split; intros Hs; destruct (Hnone _ Hs)|].
    split; [intros Hs; destruct (Hnone _ Hs)|exact Hpts].
Qed.

Lemma recibo_invariants_witness :
  exists r,
    Loader.recibo_de_linhas Unicode.latin1 U"a.pdf"
      [U"5 de marco de 2024"; U"10:30"; U"Informacoes da viagem"; U"UberX";
       U"3.2 quilometros, 12 minutes"] = Ok r
    /\ data_yyyymmdd r = Some U"20240305"
    /\ is_Some (data_texto r) /\ is_Some (categoria r)
    /\ is_Some (duracao_min r).
Proof.
  eexists. split; [vm_compute; reflexivity|].
  match goal with |- context [data_yyyymmdd ?r] =>
    destruct (recibo_invariants Unicode.latin1 U"a.pdf"
      [U"5 de marco de 2024"; U"10:30"; U"Informacoes da viagem"; U"UberX";
       U"3.2 quilometros, 12 minutes"] r)
      as (_ & H1 & _ & _ & H2 & H3 & _); [vm_compute; reflexivity|] end.
  split; [vm_compute; reflexivity|].
  split; [apply H1; eexists; reflexivity|].
  split; [apply H3; eexists; reflexivity|].
  apply H2. eexists. reflexivity.
Defined.

(* ===================================================================== *)
(** ** The totals per month and per week *)
(* ===================================================================== *)

Module TotaisFacts.
Import Totais.

Section WithDb.
Context (db : unicode_db) (strftime_Y : N -> list N).

Lemma parcelas_cons (key : date -> list N) (k : list N) (r : recibo)
    (rs : list recibo) :
  parcelas db key k (r :: rs)
  = match Builder._date_from_yyyymmdd db (data_yyyymmdd r) with
    | Some dt =>
        if decide (key dt = k)
        then Float.or_zero (total r) :: parcelas db key k rs
        else parcelas db key k rs
    | None => parcelas db key k rs
    end.
Proof.
  unfold parcelas. cbn [omap list_omap].
  destruct (Builder._date_from_yyyymmdd db (data_yyyymmdd r)) as [dt|];
    [|reflexivity].
  destruct (decide (key dt = k)); reflexivity.
Qed.

Lemma entry_after_cons (before : option spec_float) (t : spec_float)
    (ts : list spec_float) :
  entry_after (Some (Float.add (default Float.zero before) t)) ts
  = entry_after before (t :: ts).
Proof. destruct ts; reflexivity. Qed.

Lemma fold_totals_entries (rs : list recibo)
    (acc : gmap (list N) spec_float * gmap (list N) spec_float)
    (k : list N) :
  let out := fold_left (Builder.totals_step db strftime_Y) rs acc in
  out.1 !! k
  = entry_after (acc.1 !! k)
      (parcelas db (Builder.month_key strftime_Y) k rs)
  /\ out.2 !! k
     = entry_after (acc.2 !! k)
         (parcelas db (Builder.week_key strftime_Y) k rs).
Proof.
  revert acc. induction rs as [|r rs IH]; intros [months weeks];
    [split; reflexivity|].
  cbn [fold_left]. rewrite !parcelas_cons.
  unfold Builder.totals_step at 2 4.
  destruct (Builder._date_from_yyyymmdd db (data_yyyymmdd r)) as [dt|];
    [|apply IH].
  match goal with |- context [fold_left _ rs ?acc'] =>
    destruct (IH acc') as [IH1 IH2] end.
  cbn zeta. rewrite IH1, IH2. cbn [fst snd].
  split.
  - destruct (decide (Builder.month_key strftime_Y dt = k)) as [Hk|Hk].
    + rewrite Hk, lookup_insert_eq. apply entry_after_cons.
    + rewrite lookup_insert_ne by exact Hk. reflexivity.
  - destruct (decide (Builder.week_key strftime_Y dt = k)) as [Hk|Hk].
    + rewrite Hk, lookup_insert_eq. apply entry_after_cons.
    + rewrite lookup_insert_ne by exact Hk. reflexivity.
Qed.

Lemma parcelas_elem (key : date -> list N) (k : list N) (rs : list recibo) :
  parcelas db key k rs <> [] <->
  exists r dt, r ∈ rs
               /\ Builder._date_from_yyyymmdd db (data_yyyymmdd r) = Some dt
               /\ key dt = k.
Proof.
  split.
  - intros H. destruct (parcelas db key k rs) as [|t ts] eqn:E;
      [contradiction|].
    assert (t ∈ parcelas db key k rs) as Ht by (rewrite E; left).
    apply list_elem_of_omap in Ht as (r & Hr & Hf).
    destruct (Builder._date_from_yyyymmdd db (data_yyyymmdd r)) as [dt|]
      eqn:Hd; [|discriminate].
    destruct (decide (key dt = k)); [|discriminate]. eauto.
  - intros (r & dt & Hr & Hd & Hk) E.
    assert (Float.or_zero (total r) ∈ parcelas db key k rs) as Hin.
    { apply list_elem_of_omap. exists r. split; [exact Hr|].
      rewrite Hd, decide_True by exact Hk. reflexivity. }
    rewrite E in Hin. inversion Hin.
Qed.

Lemma soma_is_Some (ts : list spec_float) : is_Some (soma ts) <-> ts <> [].
Proof.
  destruct ts; simpl; split; try congruence; eauto.
  intros [? [=]].
Qed.

End WithDb.
End TotaisFacts.

(** X9: the tables of totals.  The entry of a month key is the sum of
    the totals (an absent total counting as [0.0]) of the records whose
    date key parses to that month, added one after the other to [0.0] in
    the order of the records; the entry of a week key is that sum over the
    records of that week.  A key has an entry exactly when some record
    falls under it, so every week with an entry lies in a month with an
    entry. *)
Theorem totals_entries (db : unicode_db) (strftime_Y : N -> list N)
    (rs : list recibo) :
  let months := (Builder.totals db strftime_Y rs).1 in
  let weeks := (Builder.totals db strftime_Y rs).2 in
  (forall k,
     months !! k
     = Totais.soma (Totais.parcelas db (Builder.month_key strftime_Y) k rs))
  /\ (forall k,
        weeks !! k
        = Totais.soma (Totais.parcelas db (Builder.week_key strftime_Y) k rs))
  /\ (forall k,
        is_Some (months !! k) <->
        exists r dt,
          r ∈ rs
          /\ Builder._date_from_yyyymmdd db (data_yyyymmdd r) = Some dt
          /\ Builder.month_key strftime_Y dt = k)
  /\ (forall k,
        is_Some (weeks !! k) ->
        exists dt,
          k = Builder.week_key strftime_Y dt
          /\ is_Some (months !! Builder.month_key strftime_Y dt)).
Proof.
  intros months weeks.
  assert (forall k,
            months !! k
            = Totais.soma
                (Totais.parcelas db (Builder.month_key strftime_Y) k rs))
    as Hm.
  { intros k.
    destruct (TotaisFacts.fold_totals_entries db strftime_Y rs (∅, ∅) k)
      as [H _].
    unfold months, Builder.totals. rewrite H. cbn [fst].
    rewrite lookup_empty. reflexivity. }
  assert (forall k,
            weeks !! k
            = Totais.soma
                (Totais.parcelas db (Builder.week_key strftime_Y) k rs))
    as Hw.
  { intros k.
    destruct (TotaisFacts.fold_totals_entries db strftime_Y rs (∅, ∅) k)
      as [_ H].
    unfold weeks, Builder.totals. rewrite H. cbn [snd].
    rewrite lookup_empty. reflexivity. }
  split; [exact Hm|]. split; [exact Hw|]. split.
  - intros k. rewrite Hm, TotaisFacts.soma_is_Some.
    apply TotaisFacts.parcelas_elem.
  - intros k. rewrite Hw, TotaisFacts.soma_is_Some.
    intros H. apply TotaisFacts.parcelas_elem in H as (r & dt & Hr & Hd & <-).
    exists dt. split; [reflexivity|].
    rewrite Hm, TotaisFacts.soma_is_Some.
    apply TotaisFacts.parcelas_elem. eauto.
Qed.

Lemma totals_entries_witness :
  let rs := [Weeks.de (Some U"20240108") (Some f10);
             Weeks.de (Some U"20240131") (Some f5)] in
  let tables := Builder.totals Unicode.latin1 Str.decimal rs in
  is_Some (tables.2 !! U"01/2024 • Semana 5")
  /\ exists dt,
       U"01/2024 • Semana 5" = Builder.week_key Str.decimal dt
       /\ is_Some (tables.1 !! Builder.month_key Str.decimal dt).
Proof.
  intros rs tables.
  assert (is_Some (tables.2 !! U"01/2024 • Semana 5")) as Hs
    by (eexists; vm_compute; reflexivity).
  split; [exact Hs|].
  destruct (totals_entries Unicode.latin1 Str.decimal rs) as (_ & _ & _ & H).
  apply H, Hs.
Defined.

(* ===================================================================== *)
(** ** The rows of the tables of totals *)
(* ===================================================================== *)

Module RowsFacts.

Lemma leb_ne_ltb (a b : list N) :
  Str.leb a b = true -> a <> b -> Str.ltb a b = true.
Proof.
  unfold Str.leb. rewrite negb_true_iff. intros Hba Hne.
  destruct (Str.ltb a b) eqn:Hab; [reflexivity|].
  exfalso. apply Hne, OrderFacts.ltb_connex; assumption.
Qed.

(** A sorted list without repetition is strictly ascending. *)
Lemma sorted_strict (l : list (list N)) :
  StronglySorted (Order.le (fun k => k)) l -> NoDup l ->
  StronglySorted (fun a b => Str.ltb a b = true) l.
Proof.
  induction 1 as [|x l Hl IH Hx]; intros Hnd; constructor.
  - apply IH. apply NoDup_cons in Hnd as [_ Hnd]. exact Hnd.
  - apply NoDup_cons in Hnd as [Hnx _].
    rewrite Forall_forall in *. intros y Hy.
    apply leb_ne_ltb; [apply Hx, Hy|]. intros ->. contradiction.
Qed.

Lemma two_digits_ltb (m1 m2 : N) :
  m1 < m2 -> m2 < 100 ->
  Str.ltb (Str.two_digits m1) (Str.two_digits m2) = true.
Proof.
  intros Hlt H2. rewrite !SortKeyFacts.two_digits_small by lia.
  pose proof (N.div_mod m1 10 ltac:(lia)).
  pose proof (N.div_mod m2 10 ltac:(lia)).
  pose proof (N.mod_lt m1 10 ltac:(lia)).
  pose proof (N.mod_lt m2 10 ltac:(lia)).
  set (q1 := m1 / 10) in *. set (r1 := m1 mod 10) in *.
  set (q2 := m2 / 10) in *. set (r2 := m2 mod 10) in *.
  clearbody q1 r1 q2 r2. cbn [Str.ltb].
  destruct (N.ltb_spec (48 + q1) (48 + q2)); [reflexivity|].
  destruct (N.ltb_spec (48 + q2) (48 + q1)); [lia|].
  destruct (N.ltb_spec (48 + r1) (48 + r2)); [reflexivity|lia].
Qed.

Lemma two_digits_length (n : N) : n < 100 -> length (Str.two_digits n) = 2%nat.
Proof. intros H. rewrite SortKeyFacts.two_digits_small by exact H. reflexivity. Qed.

End RowsFacts.

(** X10: a table of totals is left out exactly when no key has an entry.
    Otherwise it has, under its header, one row for each key with an
    entry, holding the key and its formatted total, and the keys of the
    rows ascend strictly in the order of strings.  For the month keys
    [MM/YYYY] that is the order of the month numbers before the years: the
    key of a date in an earlier month of the year comes first, whatever the
    two years are. *)
Theorem total_rows_spec (titulo : list N)
    (totals : gmap (list N) spec_float) :
  (Builder.total_rows titulo totals = None <-> totals = ∅)
  /\ (forall rows,
        Builder.total_rows titulo totals = Some rows ->
        exists keys,
          rows = [titulo; U"Total"]
                 :: map (fun k => [k; Builder._fmt_currency (totals !! k)])
                      keys
          /\ (forall k, k ∈ keys <-> is_Some (totals !! k))
          /\ StronglySorted (fun a b => Str.ltb a b = true) keys)
  /\ (forall strftime_Y d1 d2,
        d_month d1 < d_month d2 -> d_month d2 <= 12 ->
        Str.ltb (Builder.month_key strftime_Y d1)
                (Builder.month_key strftime_Y d2) = true).
Proof.
  unfold Builder.total_rows.
  split; [|split].
  - destruct (decide (totals = ∅)); split; congruence.
  - intros rows. destruct (decide (totals = ∅)) as [|Hne]; [discriminate|].
    intros [= <-].
    set (ks := map fst (map_to_list totals)).
    exists (Builder.sorted (fun k => k) ks).
    pose proof (OrderFacts.sorted_perm (fun k => k) ks) as Hp.
    split; [reflexivity|]. split.
    + intros k. rewrite Hp. unfold ks. rewrite list_elem_of_fmap. split.
      * intros ([k' v] & -> & Hin). apply elem_of_map_to_list in Hin.
        cbn [fst]. eauto.
      * intros [v Hv]. exists (k, v). split; [reflexivity|].
        apply elem_of_map_to_list, Hv.
    + apply RowsFacts.sorted_strict; [apply OrderFacts.sorted_sorted|].
      rewrite Hp. apply NoDup_fst_map_to_list.
  - intros strftime_Y d1 d2 Hlt H12. unfold Builder.month_key.
    rewrite OrderFacts.ltb_pair
      by (rewrite !RowsFacts.two_digits_length by lia; reflexivity).
    rewrite RowsFacts.two_digits_ltb by lia. reflexivity.
Qed.

Lemma total_rows_spec_witness :
  (exists keys,
     StronglySorted (fun a b => Str.ltb a b = true) keys
     /\ forall k, k ∈ keys <-> is_Some ((<[U"12/2024" := f10]> ∅ : gmap (list N) spec_float) !! k))
  /\ Str.ltb
       (Builder.month_key Str.decimal
          {| d_year := 2025; d_month := 1; d_day := 5 |})
       (Builder.month_key Str.decimal
          {| d_year := 2024; d_month := 12; d_day := 5 |}) = true.
Proof.
  destruct (total_rows_spec U"Mes" (<[U"12/2024" := f10]> ∅)) as (_ & H & H').
  split.
  - destruct (H ([U"Mes"; U"Total"] :: [[U"12/2024"; U"R$ 10,00"]]))
      as (keys & _ & Hk & Hs); [vm_compute; reflexivity|].
    exists keys. split; [exact Hs|exact Hk].
  - apply H'; cbn [d_month]; lia.
Defined.

(* ===================================================================== *)
(** ** Cleaned text *)
(* ===================================================================== *)

Module LimpoFacts.
Import Limpo.

Section Strip.
Context (p : N -> bool).

Lemma lstrip_suffix (s : list N) : exists pre, s = pre ++ Str.lstrip p s.
Proof.
  induction s as [|c r [pre IH]]; [exists []; reflexivity|].
  simpl. destruct (p c).
  - exists (c :: pre). simpl. f_equal. exact IH.
  - exists []. reflexivity.
Qed.

Lemma rstrip_prefix (s : list N) : exists suf, s = Str.rstrip p s ++ suf.
Proof.
  unfold Str.rstrip. destruct (lstrip_suffix (rev s)) as [pre H].
  exists (rev pre). rewrite <- rev_app_distr, <- H, rev_involutive.
  reflexivity.
Qed.

Lemma lstrip_head (s : list N) :
  match Str.lstrip p s with [] => True | c :: _ => p c = false end.
Proof.
  induction s as [|c r IH]; simpl; [exact I|].
  destruct (p c) eqn:E; [exact IH|exact E].
Qed.

Lemma lstrip_fix (s : list N) :
  match s with [] => True | c :: _ => p c = false end ->
  Str.lstrip p s = s.
Proof. destruct s as [|c r]; simpl; [reflexivity|]. intros ->. reflexivity. Qed.

Lemma lstrip_idem (s : list N) :
  Str.lstrip p (Str.lstrip p s) = Str.lstrip p s.
Proof. apply lstrip_fix, lstrip_head. Qed.

Lemma rstrip_idem (s : list N) :
  Str.rstrip p (Str.rstrip p s) = Str.rstrip p s.
Proof. unfold Str.rstrip. rewrite rev_involutive, lstrip_idem. reflexivity. Qed.

Lemma strip_idem (s : list N) :
  Str.strip p (Str.strip p s) = Str.strip p s.
Proof.
  unfold Str.strip.
  assert (Str.lstrip p (Str.rstrip p (Str.lstrip p s))
          = Str.rstrip p (Str.lstrip p s)) as ->.
  { apply lstrip_fix.
    pose proof (lstrip_head s) as Hh.
    destruct (rstrip_prefix (Str.lstrip p s)) as [suf Hs].
    destruct (Str.rstrip p (Str.lstrip p s)) as [|c r]; [exact I|].
    rewrite Hs in Hh. exact Hh. }
  apply rstrip_idem.
Qed.

Lemma lstrip_part (s : list N) (c : N) : c ∈ Str.lstrip p s -> c ∈ s.
Proof.
  destruct (lstrip_suffix s) as [pre H]. intros Hc. rewrite H.
  apply elem_of_app. right. exact Hc.
Qed.

Lemma rstrip_part (s : list N) (c : N) : c ∈ Str.rstrip p s -> c ∈ s.
Proof.
  destruct (rstrip_prefix s) as [suf H]. intros Hc. rewrite H.
  apply elem_of_app. left. exact Hc.
Qed.

End Strip.

Section WithDb.
Context (db : unicode_db).

Lemma sub_spaces_tidy (b : bool) (s : list N) :
  single_spaced db b (Py.sub_spaces db b s) = true.
Proof.
  revert b. induction s as [|c r IH]; intros b; [reflexivity|].
  cbn [Py.sub_spaces]. destruct (Py.isspace db c) eqn:E.
  - destruct b; [apply IH|].
    cbn [single_spaced].
    change (Py.isspace db 32) with true. cbn [negb andb N.eqb Pos.eqb].
    apply IH.
  - cbn [single_spaced]. rewrite E. apply IH.
Qed.

Lemma tidy_fix (b : bool) (s : list N) :
  single_spaced db b s = true -> Py.sub_spaces db b s = s.
Proof.
  revert b. induction s as [|c r IH]; intros b H; [reflexivity|].
  cbn [Py.sub_spaces single_spaced] in *.
  destruct (Py.isspace db c).
  - apply andb_prop in H as [H Hr]. apply andb_prop in H as [Hc Hb].
    apply N.eqb_eq in Hc. subst c. destruct b; [discriminate|].
    rewrite (IH true Hr). reflexivity.
  - rewrite (IH false H). reflexivity.
Qed.

Lemma tidy_weaken (b : bool) (s : list N) :
  single_spaced db b s = true -> single_spaced db false s = true.
Proof.
  destruct s as [|c r]; [reflexivity|]. cbn [single_spaced].
  destruct (Py.isspace db c); [|auto].
  intros H. apply andb_prop in H as [H Hr]. apply andb_prop in H as [Hc _].
  rewrite Hc, Hr. reflexivity.
Qed.

Lemma tidy_lstrip (b : bool) (s : list N) :
  single_spaced db b s = true ->
  single_spaced db false (Str.lstrip (Py.isspace db) s) = true.
Proof.
  revert b. induction s as [|c r IH]; intros b H; [reflexivity|].
  cbn [Str.lstrip]. destruct (Py.isspace db c) eqn:E.
  - cbn [single_spaced] in H. rewrite E in H.
    apply andb_prop in H as [_ Hr]. apply (IH true Hr).
  - apply (tidy_weaken b), H.
Qed.

Lemma tidy_prefix (b : bool) (l1 l2 : list N) :
  single_spaced db b (l1 ++ l2) = true -> single_spaced db b l1 = true.
Proof.
  revert b. induction l1 as [|c r IH]; intros b H; [reflexivity|].
  cbn [app single_spaced] in *. destruct (Py.isspace db c).
  - apply andb_prop in H as [H Hr]. rewrite H, (IH true Hr). reflexivity.
  - apply (IH false H).
Qed.

Lemma sub_spaces_elem (b : bool) (s : list N) (c : N) :
  c ∈ Py.sub_spaces db b s -> c ∈ s \/ c = 32.
Proof.
  revert b. induction s as [|x r IH]; intros b H; [inversion H|].
  cbn [Py.sub_spaces] in H. destruct (Py.isspace db x).
  - destruct b.
    + destruct (IH true H) as [Hc|Hc]; [left; right; exact Hc|right; exact Hc].
    + apply elem_of_cons in H as [->|H]; [right; reflexivity|].
      destruct (IH true H) as [Hc|Hc]; [left; right; exact Hc|right; exact Hc].
  - apply elem_of_cons in H as [->|H]; [left; left|].
    destruct (IH false H) as [Hc|Hc]; [left; right; exact Hc|right; exact Hc].
Qed.

Lemma tidy_spaces (b : bool) (s : list N) (c : N) :
  single_spaced db b s = true -> c ∈ s -> Py.isspace db c = true -> c = 32.
Proof.
  revert b. induction s as [|x r IH]; intros b H Hc Hsp; [inversion Hc|].
  cbn [single_spaced] in H. apply elem_of_cons in Hc as [->|Hc].
  - rewrite Hsp in H. apply andb_prop in H as [H _].
    apply andb_prop in H as [H _]. apply N.eqb_eq, H.
  - destruct (Py.isspace db x).
    + apply andb_prop in H as [_ Hr]. apply (IH true Hr Hc Hsp).
    + apply (IH false H Hc Hsp).
Qed.

Lemma clean_tidy (s : list N) :
  single_spaced db false (Loader._clean_text db s) = true.
Proof.
  unfold Loader._clean_text, Py.strip, Str.strip.
  set (w := Py.sub_spaces db false _).
  destruct (rstrip_prefix (Py.isspace db) (Str.lstrip (Py.isspace db) w))
    as [suf H].
  apply (tidy_prefix false _ suf). rewrite <- H.
  apply (tidy_lstrip false), sub_spaces_tidy.
Qed.

Lemma clean_no_fffd (s : list N) : 65533 ∉ Loader._clean_text db s.
Proof.
  unfold Loader._clean_text, Py.strip, Str.strip. intros H.
  apply rstrip_part, lstrip_part, sub_spaces_elem in H as [H|H];
    [|discriminate].
  rewrite CurrencyFacts.replace1_filter in H.
  apply list_elem_of_In, filter_In in H as [_ H]. discriminate.
Qed.

Lemma remove_fix (s : list N) : 65533 ∉ s -> Str.replace1 65533 [] s = s.
Proof.
  intros H. rewrite CurrencyFacts.replace1_filter.
  induction s as [|c r IH]; [reflexivity|]. simpl.
  destruct (N.eqb_spec c 65533) as [->|Hc].
  - exfalso. apply H. left.
  - simpl. f_equal. apply IH. intros Hin. apply H. right. exact Hin.
Qed.

Lemma clean_strip (s : list N) :
  Py.strip db (Loader._clean_text db s) = Loader._clean_text db s.
Proof. unfold Loader._clean_text, Py.strip. apply strip_idem. Qed.

Lemma clean_idem (s : list N) :
  Loader._clean_text db (Loader._clean_text db s) = Loader._clean_text db s.
Proof.
  set (t := Loader._clean_text db s).
  unfold Loader._clean_text at 1.
  rewrite (remove_fix t) by apply clean_no_fffd.
  rewrite (tidy_fix false t) by apply clean_tidy.
  apply clean_strip.
Qed.

Lemma linhas_limpas_elem (text_lines : list (list N)) (line : list N) :
  line ∈ Loader.linhas_limpas db text_lines <->
  line <> [] /\ exists l, l ∈ text_lines /\ Loader._clean_text db l = line.
Proof.
  unfold Loader.linhas_limpas. rewrite list_elem_of_omap. split.
  - intros (l & Hl & H).
    destruct (Loader._clean_text db l) as [|c t] eqn:E; [discriminate|].
    injection H as <-. split; [discriminate|]. eauto.
  - intros (Hne & l & Hl & <-). exists l. split; [exact Hl|].
    destruct (Loader._clean_text db l); [contradiction|reflexivity].
Qed.

End WithDb.
End LimpoFacts.

(** X11: [_clean_text] has a normal form and is idempotent.  Its result
    holds no U+FFFD, holds white space only as single spaces, neither
    starts nor ends with white space, and cleaning it again changes
    nothing.  The lines that the parser works on are exactly the non-empty
    cleaned lines of the text, so each of them is its own cleaned form. *)
Theorem clean_text_normal (db : unicode_db) :
  (forall s,
     let t := Loader._clean_text db s in
     (65533 ∉ t)
     /\ (forall c, c ∈ t -> Py.isspace db c = true -> c = 32)
     /\ Py.sub_spaces db false t = t
     /\ Py.strip db t = t
     /\ Loader._clean_text db t = t)
  /\ (forall text_lines line,
        line ∈ Loader.linhas_limpas db text_lines <->
        line <> []
        /\ exists l, l ∈ text_lines /\ Loader._clean_text db l = line)
  /\ (forall text_lines line,
        line ∈ Loader.linhas_limpas db text_lines ->
        Loader._clean_text db line = line).
Proof.
  split; [|split].
  - intros s t. split; [apply LimpoFacts.clean_no_fffd|].
    split; [intros c; apply (LimpoFacts.tidy_spaces db false),
                        LimpoFacts.clean_tidy|].
    split; [apply LimpoFacts.tidy_fix, LimpoFacts.clean_tidy|].
    split; [apply LimpoFacts.clean_strip|apply LimpoFacts.clean_idem].
  - apply LimpoFacts.linhas_limpas_elem.
  - intros text_lines line H.
    apply LimpoFacts.linhas_limpas_elem in H as (_ & l & _ & <-).
    apply LimpoFacts.clean_idem.
Qed.

Lemma clean_text_normal_witness :
  U"a b" ∈ Loader.linhas_limpas Unicode.latin1 [U" a  b "; U"  "]
  /\ Loader._clean_text Unicode.latin1 U"a b" = U"a b".
Proof.
  assert (U"a b" ∈ Loader.linhas_limpas Unicode.latin1 [U" a  b "; U"  "])
    as Hin.
  { replace (Loader.linhas_limpas Unicode.latin1 [U" a  b "; U"  "])
      with [U"a b"] by (vm_compute; reflexivity).
    left. }
  split; [exact Hin|].
  destruct (clean_text_normal Unicode.latin1) as (_ & _ & H).
  apply (H _ _ Hin).
Defined.

(** X12: the texts of a record are lines of the receipt as cleaned, not
    rewritten further.  The date text is a cleaned line that opens, once
    normalised, with a day and [ de ]; the time is a cleaned line of the
    form of a clock time; the payment line and the category are cleaned
    lines. *)
Theorem textos_sao_linhas (db : unicode_db) (nome : list N)
    (text_lines : list (list N)) (r : recibo) :
  Loader.carregar_recibo_uber db nome text_lines = Ok r ->
  let lines := Loader.linhas_limpas db text_lines in
  (forall t, data_texto r = Some t ->
             t ∈ lines
             /\ Re.date_head_re db (Loader._norm_text db t) = true)
  /\ (forall h, hora r = Some h -> h ∈ lines /\ Re.time_re db h = true)
  /\ (forall p, pagamento_linha r = Some p -> p ∈ lines)
  /\ (forall c, categoria r = Some c -> c ∈ lines).
Proof.
  intros Hr lines. unfold Loader.carregar_recibo_uber in Hr.
  destruct (recibo_de_linhas_fields db nome lines)
    as (dh & tot & preco & taxa & custo & promo & pag & info & pts
        & Hdh & _ & _ & _ & _ & _ & Hpag & Hinfo & _ & H).
  fold lines in Hr. rewrite H in Hr. injection Hr as <-.
  cbn [data_texto hora pagamento_linha categoria].
  pose proof (SecoesFacts.data_hora_loop_spec db [] lines) as Hdh'.
  cbn [app length] in Hdh'. rewrite Hdh in Hdh'. injection Hdh' as ->.
  pose proof (SecoesFacts.pagamento_loop_spec db [] lines) as Hpag'.
  cbn [app length] in Hpag'. rewrite Hpag in Hpag'. injection Hpag' as ->.
  pose proof (SecoesFacts.info_loop_spec db [] lines) as Hinfo'.
  cbn [app length] in Hinfo'. rewrite Hinfo in Hinfo'. injection Hinfo' as ->.
  assert (forall i l, lines !! i = Some l ->
                      l ∈ lines /\ Loader._clean_text db l = l) as Hline.
  { intros i l Hl. apply list_elem_of_lookup_2 in Hl. split; [exact Hl|].
    apply LimpoFacts.linhas_limpas_elem in Hl as (_ & l0 & _ & <-).
    apply LimpoFacts.clean_idem. }
  split; [|split; [|split]].
  - intros t. destruct (list_find _ lines) as [[k l]|] eqn:E;
      cbn [fst]; [|discriminate].
    apply list_find_Some in E as (Hl & HP & _).
    destruct (Hline _ _ Hl) as [Hin Hc]. rewrite Hc. intros [= <-].
    split; [exact Hin|exact HP].
  - intros h. destruct (list_find _ lines) as [[k l]|] eqn:E;
      cbn [snd]; [|discriminate].
    destruct (lines !! (k + 1)%nat) as [next|] eqn:Hn; [|discriminate].
    destruct (Re.time_re db next) eqn:Ht; [|discriminate].
    destruct (Hline _ _ Hn) as [Hin Hc]. rewrite Hc. intros [= <-].
    split; [exact Hin|exact Ht].
  - intros p.
    destruct (list_find (Secoes.is_heading db U"pagamentos") lines)
      as [[k l]|]; [|discriminate].
    destruct (lines !! (k + 1)%nat) as [next|] eqn:Hn; [|discriminate].
    destruct (Hline _ _ Hn) as [Hin Hc].
    cbn [fmap option_fmap option_map]. rewrite Hc. intros [= <-]. exact Hin.
  - intros c.
    destruct (list_find (Secoes.is_heading db U"informacoes da viagem")
                lines) as [[k l]|]; cbn [fst]; [|discriminate].
    destruct (lines !! (k + 1)%nat) as [next|] eqn:Hn; [|discriminate].
    destruct (Hline _ _ Hn) as [Hin Hc].
    cbn [fmap option_fmap option_map]. rewrite Hc. intros [= <-]. exact Hin.
Qed.

Lemma textos_sao_linhas_witness :
  exists r,
    Loader.carregar_recibo_uber Unicode.latin1 U"a.pdf"
      [U"  5 de  marco de 2024 "; U" "; U"10:30 "; U"Pagamentos";
       U" Visa  1234"] = Ok r
    /\ hora r = Some U"10:30"
    /\ Re.time_re Unicode.latin1 U"10:30" = true.
Proof.
  eexists. split; [vm_compute; reflexivity|].
  split; [vm_compute; reflexivity|].
  match goal with |- context [Re.time_re _ ?h] =>
    eapply (textos_sao_linhas Unicode.latin1 U"a.pdf"
      [U"  5 de  marco de 2024 "; U" "; U"10:30 "; U"Pagamentos";
       U" Visa  1234"] _ ltac:(vm_compute; reflexivity)) end.
  vm_compute. reflexivity.
Defined.

(* ===================================================================== *)
(** ** The sign of an extracted amount *)
(* ===================================================================== *)

Module SinalFacts.

Section WithDb.
Context (db : unicode_db).

Lemma here_amount (s g : list N) :
  CurrencyRe.here db s = Some g -> forallb Re.is_amount_char g = true.
Proof.
  assert (forall t, CurrencyRe.prefixed db t = Some g ->
                    forallb Re.is_amount_char g = true) as Hp.
  { intros [|a [|b r]]; cbn [CurrencyRe.prefixed]; try discriminate.
    destruct (_ && _); [|discriminate].
    unfold CurrencyRe.after_prefix, CurrencyRe.amount, CurrencyRe.nonempty,
      CurrencyRe.amount_prefix.
    pose proof (CurrencyReFacts.span_forall Re.is_amount_char
                  (Str.lstrip (Py.isspace db) r)) as Hall.
    destruct (Float.span _ _).1; [discriminate|].
    intros [= <-]. exact Hall. }
  destruct s as [|c r]; cbn [CurrencyRe.here]; [discriminate|].
  destruct (c =? 45); apply Hp.
Qed.

(** The group of the currency pattern holds digits, periods and commas
    only. *)
Lemma group_amount (s g : list N) :
  Re.currency_re db s = Some g -> forallb Re.is_amount_char g = true.
Proof.
  rewrite CurrencyReFacts.currency_re_eq.
  induction s as [|x s IH]; cbn [Re.search].
  - destruct (CurrencyRe.here db []) eqn:E; [|discriminate].
    intros [= <-]. eapply here_amount, E.
  - destruct (CurrencyRe.here db (x :: s)) as [g'|] eqn:Hh.
    + intros [= <-]. eapply here_amount, Hh.
    + exact IH.
Qed.

End WithDb.
End SinalFacts.

(** X13: a negative amount is never read from a line on which the
    currency pattern with the prefix [R$] matches, whatever signs the line
    holds: currency extraction gives a negative value only on a line
    without such a match that holds a minus sign. *)
Theorem extract_negative_only_unprefixed (db : unicode_db)
    (line : list N) (v : spec_float) :
  Loader._extract_currency_from_line db line = Ok (Some v) ->
  is_negative v = true ->
  Re.currency_re db line = None /\ 45 ∈ line.
Proof.
  unfold Loader._extract_currency_from_line. intros Hv Hneg.
  destruct (Re.currency_re db line) as [g|] eqn:Hg.
  - exfalso.
    assert (45 ∉ g) as Hno.
    { intros H. pose proof (SinalFacts.group_amount db line g Hg) as Hall.
      rewrite forallb_forall in Hall.
      apply list_elem_of_In, Hall in H. discriminate. }
    rewrite (Sign.parse_currency_sign g v Hno Hv) in Hneg. discriminate.
  - split; [reflexivity|].
    destruct (decide (45 ∈ line)) as [H|H]; [exact H|].
    rewrite (Sign.parse_currency_sign line v H Hv) in Hneg. discriminate.
Qed.

Lemma extract_negative_only_unprefixed_witness :
  exists v,
    Loader._extract_currency_from_line Unicode.latin1 U"Promocao -10,00"
    = Ok (Some v)
    /\ is_negative v = true
    /\ Re.currency_re Unicode.latin1 U"Promocao -10,00" = None.
Proof.
  eexists. split; [vm_compute; reflexivity|]. split; [reflexivity|].
  eapply (extract_negative_only_unprefixed Unicode.latin1
            U"Promocao -10,00" _ ltac:(vm_compute; reflexivity) eq_refl).
Defined.

(* ===================================================================== *)
(** ** Normalised text, on ASCII *)
(* ===================================================================== *)

Module NormFacts.

Lemma lower_ascii (c : N) :
  Py.is_ascii c = true -> Py.is_ascii (Py.ascii_lower c) = true.
Proof.
  unfold Py.is_ascii, Py.ascii_lower.
  destruct ((65 <=? c) && (c <=? 90)) eqn:E; bool_lia.
Qed.

Lemma lower_lower (c : N) :
  Py.ascii_lower (Py.ascii_lower c) = Py.ascii_lower c.
Proof.
  unfold Py.ascii_lower.
  destruct ((65 <=? c) && (c <=? 90)) eqn:E; [|rewrite E; reflexivity].
  assert ((65 <=? c + 32) && (c + 32 <=? 90) = false) as -> by bool_lia.
  reflexivity.
Qed.

Lemma lower_fffd (c : N) : (Py.ascii_lower c =? 65533) = (c =? 65533).
Proof.
  unfold Py.ascii_lower.
  destruct ((65 <=? c) && (c <=? 90)) eqn:E; [|reflexivity].
  destruct (N.eqb_spec (c + 32) 65533), (N.eqb_spec c 65533);
    try reflexivity; bool_lia.
Qed.

Lemma map_lower_ascii (s : list N) :
  forallb Py.is_ascii s = true ->
  forallb Py.is_ascii (map Py.ascii_lower s) = true.
Proof.
  rewrite !forallb_forall. intros H c Hc.
  apply in_map_iff in Hc as (x & <- & Hx). apply lower_ascii, H, Hx.
Qed.

Lemma ascii_no_fffd (s : list N) :
  forallb Py.is_ascii s = true -> 65533 ∉ s.
Proof.
  rewrite forallb_forall. intros H Hin.
  apply list_elem_of_In, H in Hin. discriminate.
Qed.

Section WithDb.
Context (db : unicode_db).

Lemma lower_isspace (c : N) :
  Py.isspace db (Py.ascii_lower c) = Py.isspace db c.
Proof.
  unfold Py.ascii_lower.
  destruct ((65 <=? c) && (c <=? 90)) eqn:E; [|reflexivity].
  unfold Py.isspace, Py.is_ascii.
  assert ((c + 32 <? 128) = true) as -> by bool_lia.
  assert ((c <? 128) = true) as -> by bool_lia.
  assert ((9 <=? c + 32) && (c + 32 <=? 13)
          || (28 <=? c + 32) && (c + 32 <=? 32) = false) as -> by bool_lia.
  symmetry. bool_lia.
Qed.

Lemma sub_spaces_lower (b : bool) (s : list N) :
  Py.sub_spaces db b (map Py.ascii_lower s)
  = map Py.ascii_lower (Py.sub_spaces db b s).
Proof.
  revert b. induction s as [|c r IH]; intros b; [reflexivity|].
  cbn [map Py.sub_spaces]. rewrite lower_isspace.
  destruct (Py.isspace db c); [destruct b|]; cbn [map]; rewrite IH;
    reflexivity.
Qed.

Lemma lstrip_lower (s : list N) :
  Str.lstrip (Py.isspace db) (map Py.ascii_lower s)
  = map Py.ascii_lower (Str.lstrip (Py.isspace db) s).
Proof.
  induction s as [|c r IH]; [reflexivity|].
  cbn [map Str.lstrip]. rewrite lower_isspace.
  destruct (Py.isspace db c); [exact IH|reflexivity].
Qed.

Lemma strip_lower (s : list N) :
  Py.strip db (map Py.ascii_lower s) = map Py.ascii_lower (Py.strip db s).
Proof.
  unfold Py.strip, Str.strip, Str.rstrip.
  rewrite lstrip_lower, <- map_rev, lstrip_lower, map_rev. reflexivity.
Qed.

Lemma remove_lower (s : list N) :
  Str.replace1 65533 [] (map Py.ascii_lower s)
  = map Py.ascii_lower (Str.replace1 65533 [] s).
Proof.
  rewrite !CurrencyFacts.replace1_filter.
  induction s as [|c r IH]; [reflexivity|].
  cbn [map List.filter]. rewrite lower_fffd.
  destruct (c =? 65533); cbn [negb map]; rewrite IH; reflexivity.
Qed.

(** Cleaning and lowering the case of ASCII letters commute. *)
Lemma clean_lower (s : list N) :
  Loader._clean_text db (map Py.ascii_lower s)
  = map Py.ascii_lower (Loader._clean_text db s).
Proof.
  unfold Loader._clean_text.
  rewrite remove_lower, sub_spaces_lower, strip_lower. reflexivity.
Qed.

Lemma clean_elem (s : list N) (c : N) :
  c ∈ Loader._clean_text db s -> c ∈ s \/ c = 32.
Proof.
  unfold Loader._clean_text, Py.strip, Str.strip. intros H.
  apply LimpoFacts.rstrip_part, LimpoFacts.lstrip_part,
    LimpoFacts.sub_spaces_elem in H as [H|H]; [left|right; exact H].
  rewrite CurrencyFacts.replace1_filter in H.
  apply list_elem_of_In, filter_In in H as [H _].
  apply list_elem_of_In, H.
Qed.

Lemma clean_ascii (s : list N) :
  forallb Py.is_ascii s = true ->
  forallb Py.is_ascii (Loader._clean_text db s) = true.
Proof.
  rewrite !forallb_forall. intros H c Hc.
  apply list_elem_of_In, clean_elem in Hc as [Hc| ->]; [|reflexivity].
  apply H, list_elem_of_In, Hc.
Qed.

Lemma norm_ascii (s : list N) :
  forallb Py.is_ascii s = true ->
  Loader._norm_text db s = Loader._clean_text db (map Py.ascii_lower s).
Proof.
  intros H. unfold Loader._norm_text, Loader._clean_text.
  unfold Py.nfkd. rewrite H.
  assert (List.filter (fun c => negb (Py.combining db c)) s = s) as ->.
  { clear -H. induction s as [|c r IH]; [reflexivity|].
    cbn [forallb] in H. apply andb_prop in H as [Hc Hr].
    cbn [List.filter]. unfold Py.combining at 1. rewrite Hc.
    cbn [negb]. rewrite (IH Hr). reflexivity. }
  rewrite (LimpoFacts.remove_fix s) by apply ascii_no_fffd, H.
  rewrite (LimpoFacts.remove_fix (map Py.ascii_lower s))
    by apply ascii_no_fffd, map_lower_ascii, H.
  unfold Py.lower. rewrite H. reflexivity.
Qed.

End WithDb.
End NormFacts.

(** X14: on ASCII text [_norm_text] is [_clean_text] after lowering the
    case of the letters, and that is the same as lowering the case after
    cleaning.  So it is idempotent, it does not tell apart texts that
    differ in the case of letters only, and it gives the same on a line as
    on the cleaned line, which is what the parser hands to it. *)
Theorem norm_text_ascii (db : unicode_db) (s : list N) :
  forallb Py.is_ascii s = true ->
  Loader._norm_text db s = Loader._clean_text db (map Py.ascii_lower s)
  /\ Loader._norm_text db s = map Py.ascii_lower (Loader._clean_text db s)
  /\ Loader._norm_text db (Loader._norm_text db s) = Loader._norm_text db s
  /\ Loader._norm_text db (Loader._clean_text db s) = Loader._norm_text db s
  /\ (forall s',
        forallb Py.is_ascii s' = true ->
        map Py.ascii_lower s' = map Py.ascii_lower s ->
        Loader._norm_text db s' = Loader._norm_text db s).
Proof.
  intros H. pose proof (NormFacts.norm_ascii db s H) as Hn.
  split; [exact Hn|].
  split; [rewrite Hn; apply NormFacts.clean_lower|].
  split; [|split].
  - rewrite Hn.
    rewrite NormFacts.norm_ascii
      by apply NormFacts.clean_ascii, NormFacts.map_lower_ascii, H.
    rewrite <- NormFacts.clean_lower, map_map.
    rewrite (map_ext _ Py.ascii_lower NormFacts.lower_lower).
    apply LimpoFacts.clean_idem.
  - rewrite NormFacts.norm_ascii by apply NormFacts.clean_ascii, H.
    rewrite Hn, <- NormFacts.clean_lower. apply LimpoFacts.clean_idem.
  - intros s' H' E. rewrite (NormFacts.norm_ascii db s' H'), Hn, E.
    reflexivity.
Qed.

Lemma norm_text_ascii_witness :
  Loader._norm_text Unicode.latin1 U"  Preco da  VIAGEM "
  = Loader._norm_text Unicode.latin1 U"preco da viagem".
Proof.
  destruct (norm_text_ascii Unicode.latin1 U"preco da viagem" eq_refl)
    as (_ & _ & _ & H & _).
  rewrite <- H.
  destruct (norm_text_ascii Unicode.latin1 U"  Preco da  VIAGEM " eq_refl)
    as (_ & H2 & _).
  rewrite H2. vm_compute. reflexivity.
Defined.

(* ===================================================================== *)
(** ** Date keys that the report accepts *)
(* ===================================================================== *)

Module DataValidaFacts.
Import DataValida.

Lemma digit_cases (c : N) :
  Builder.in_range 48 57 c = true -> In c digitos.
Proof.
  unfold Builder.in_range, digitos. intros H.
  assert (c = 48 \/ c = 49 \/ c = 50 \/ c = 51 \/ c = 52 \/ c = 53
          \/ c = 54 \/ c = 55 \/ c = 56 \/ c = 57) as Hc by bool_lia.
  simpl. intuition auto.
Qed.

Section WithDb.
Context (db : unicode_db).

Lemma isdecimal_digit (c : N) :
  Builder.in_range 48 57 c = true -> Py.isdecimal db c = true.
Proof.
  intros H. apply digit_cases in H. simpl in H.
  repeat (destruct H as [<-|H]; [reflexivity|]). destruct H.
Qed.

Lemma md_table :
  forallb (fun m1 => forallb (fun m2 => forallb (fun d1 =>
    forallb (fun d2 => md_check db m1 m2 d1 d2) digitos) digitos)
    digitos) digitos = true.
Proof. vm_compute. reflexivity. Qed.

Lemma md_checked (m1 m2 d1 d2 : N) :
  Builder.in_range 48 57 m1 = true -> Builder.in_range 48 57 m2 = true ->
  Builder.in_range 48 57 d1 = true -> Builder.in_range 48 57 d2 = true ->
  md_check db m1 m2 d1 d2 = true.
Proof.
  intros H1 H2 H3 H4. pose proof md_table as T.
  rewrite forallb_forall in T. specialize (T m1 (digit_cases _ H1)).
  rewrite forallb_forall in T. specialize (T m2 (digit_cases _ H2)).
  rewrite forallb_forall in T. specialize (T d1 (digit_cases _ H3)).
  rewrite forallb_forall in T. exact (T d2 (digit_cases _ H4)).
Qed.

Lemma int2_table :
  forallb (fun x => forallb (fun y =>
    int_is db [x; y] (valor2 x y)) digitos) digitos = true.
Proof. vm_compute. reflexivity. Qed.

Lemma int4_table :
  forallb (fun a => forallb (fun b => forallb (fun c =>
    forallb (fun d => int_is db [a; b; c; d] (valor4 a b c d)) digitos)
    digitos) digitos) digitos = true.
Proof. vm_compute. reflexivity. Qed.

Lemma int_is_eq (s : list N) (n : N) :
  int_is db s n = true -> Builder.int db s = Ok n.
Proof.
  unfold int_is. destruct (Builder.int db s); try discriminate.
  intros H. apply N.eqb_eq in H. congruence.
Qed.

Lemma int2 (x y : N) :
  Builder.in_range 48 57 x = true -> Builder.in_range 48 57 y = true ->
  Builder.int db [x; y] = Ok (valor2 x y).
Proof.
  intros H1 H2. apply int_is_eq. pose proof int2_table as T.
  rewrite forallb_forall in T. specialize (T x (digit_cases _ H1)).
  rewrite forallb_forall in T. exact (T y (digit_cases _ H2)).
Qed.

Lemma int4 (a b c d : N) :
  Builder.in_range 48 57 a = true -> Builder.in_range 48 57 b = true ->
  Builder.in_range 48 57 c = true -> Builder.in_range 48 57 d = true ->
  Builder.int db [a; b; c; d] = Ok (valor4 a b c d).
Proof.
  intros H1 H2 H3 H4. apply int_is_eq. pose proof int4_table as T.
  rewrite forallb_forall in T. specialize (T a (digit_cases _ H1)).
  rewrite forallb_forall in T. specialize (T b (digit_cases _ H2)).
  rewrite forallb_forall in T. specialize (T c (digit_cases _ H3)).
  rewrite forallb_forall in T. exact (T d (digit_cases _ H4)).
Qed.

(** The year group only tags the alternatives of month and day. *)
Lemma tagged_alts (y : list N) (l : list (list N * list N))
    (f : list N -> list (list N * list N)) :
  (m ← l; d ← f m.2; [(y, m.1, d.1, d.2)])
  = (fun x : list N * list N * list N => (y, x.1.1, x.1.2, x.2))
      <$> (m ← l; d ← f m.2; [(m.1, d.1, d.2)]).
Proof.
  induction l as [|m l IH]; [reflexivity|].
  cbn [mbind list_bind]. rewrite fmap_app. f_equal; [|exact IH].
  induction (f m.2) as [|d ds IHd]; [reflexivity|].
  cbn [mbind list_bind app fmap list_fmap]. f_equal. exact IHd.
Qed.

Lemma ymd_re_digits (a b c d m1 m2 d1 d2 : N) :
  Builder.in_range 48 57 a = true -> Builder.in_range 48 57 b = true ->
  Builder.in_range 48 57 c = true -> Builder.in_range 48 57 d = true ->
  Builder.ymd_re db [a; b; c; d; m1; m2; d1; d2]
  = (fun x : list N * list N * list N => ([a; b; c; d], x.1.1, x.1.2, x.2))
      <$> md_part db m1 m2 d1 d2.
Proof.
  intros Ha Hb Hc Hd. unfold Builder.ymd_re, md_part, Re.digits4.
  rewrite !isdecimal_digit by assumption. cbn [andb drop].
  rewrite tagged_alts.
  destruct (m ← Builder.month_alts [m1; m2; d1; d2];
            d0 ← Builder.day_alts db m.2; [(m.1, d0.1, d0.2)]);
    reflexivity.
Qed.

End WithDb.
End DataValidaFacts.

(** X15: which date keys the report takes for dates.  A key of eight
    ASCII digits YYYYMMDD is read as the date of that year, month and day
    exactly when that is a date of the calendar from the year 1 on: the
    month in 1..12 and the day in 1 up to the length of the month, with
    29 days for February in leap years only.  Any other such key, as
    20240230 or 00000101, is taken for no date, and so is every key that
    has not eight characters. *)
Theorem date_from_digits (db : unicode_db) :
  (forall a b c d m1 m2 d1 d2,
     Forall (fun x => Builder.in_range 48 57 x = true)
       [a; b; c; d; m1; m2; d1; d2] ->
     let y := DataValida.valor4 a b c d in
     let m := DataValida.valor2 m1 m2 in
     let dd := DataValida.valor2 d1 d2 in
     Builder._date_from_yyyymmdd db (Some [a; b; c; d; m1; m2; d1; d2])
     = if DataValida.valida y m dd
       then Some {| d_year := y; d_month := m; d_day := dd |}
       else None)
  /\ (forall v, length v <> 8%nat ->
                Builder._date_from_yyyymmdd db (Some v) = None)
  /\ Builder._date_from_yyyymmdd db None = None.
Proof.
  split; [|split; [|reflexivity]].
  - intros a b c d m1 m2 d1 d2 Hall y m dd.
    repeat (apply Forall_cons in Hall as [? Hall]).
    unfold Builder._date_from_yyyymmdd.
    rewrite bool_decide_eq_true_2 by reflexivity. cbn [negb].
    unfold Builder.strptime_Ymd.
    rewrite DataValidaFacts.ymd_re_digits by assumption.
    pose proof (DataValidaFacts.md_checked db m1 m2 d1 d2) as T.
    unfold DataValida.md_check in T. fold m dd in T.
    assert (y <= 9999) as Hy.
    { unfold y, DataValida.valor4, Builder.in_range in *. bool_lia. }
    pose proof (WeeksFacts.days_in_month_le y m) as Hdm.
    destruct (DataValida.md_part db m1 m2 d1 d2) as [[[gm gd] [|r0 rest]]|];
      cbn [fmap option_fmap option_map fst snd];
      specialize (T ltac:(assumption) ltac:(assumption) ltac:(assumption)
                    ltac:(assumption)).
    + apply andb_prop in T as [T Hok]. apply andb_prop in T as [Tm Td].
      apply bool_decide_eq_true in Tm, Td. subst gm gd.
      rewrite DataValidaFacts.int4, !DataValidaFacts.int2 by assumption.
      cbn [mbind result_bind]. fold y m dd.
      assert (Builder.in_range 1 9999 y && Builder.in_range 1 12 m
              && Builder.in_range 1 (Builder.days_in_month y m) dd
              = DataValida.valida y m dd) as ->.
      { unfold DataValida.valida, Builder.in_range in *.
        destruct (1 <=? y) eqn:E1; [|reflexivity].
        assert ((y <=? 9999) = true) as -> by bool_lia.
        apply andb_prop in Hok as [Hm _]. rewrite Hm.
        apply andb_prop in Hm as [-> ->]. reflexivity. }
      destruct (DataValida.valida y m dd); reflexivity.
    + cbn [try_except mbind result_bind].
      assert (DataValida.valida y m dd = false) as ->; [|reflexivity].
      unfold DataValida.valida, Builder.in_range in *.
      apply negb_true_iff in T.
      set (k := Builder.days_in_month y m) in *. clearbody k.
      clear -T Hdm. bool_lia.
    + cbn [try_except mbind result_bind].
      assert (DataValida.valida y m dd = false) as ->; [|reflexivity].
      unfold DataValida.valida, Builder.in_range in *.
      apply negb_true_iff in T.
      set (k := Builder.days_in_month y m) in *. clearbody k.
      clear -T Hdm. bool_lia.
  - intros v Hv. unfold Builder._date_from_yyyymmdd.
    destruct v; [reflexivity|].
    rewrite bool_decide_eq_false_2 by exact Hv. reflexivity.
Qed.

Lemma date_from_digits_witness :
  Builder._date_from_yyyymmdd Unicode.latin1 (Some U"20240229")
  = Some {| d_year := 2024; d_month := 2; d_day := 29 |}
  /\ Builder._date_from_yyyymmdd Unicode.latin1 (Some U"20230229") = None
  /\ Builder._date_from_yyyymmdd Unicode.latin1 (Some U"2024-02-29") = None.
Proof.
  destruct (date_from_digits Unicode.latin1) as (H & H' & _).
  split; [|split].
  - apply (H 50 48 50 52 48 50 50 57). repeat constructor.
  - apply (H 50 48 50 51 48 50 50 57). repeat constructor.
  - apply H'. vm_compute. discriminate.
Defined.

(* ===================================================================== *)
(** ** The order of the trips in time *)
(* ===================================================================== *)

Module CronologiaFacts.
Import Cronologia.

Lemma digit_offset (x : N) :
  Builder.in_range 48 57 x = true -> exists x0, x = x0 + 48 /\ x0 <= 9.
Proof.
  unfold Builder.in_range. intros H. exists (x - 48). bool_lia.
Qed.

Lemma valor2_offset (x y : N) :
  DataValida.valor2 (x + 48) (y + 48) = 10 * x + y.
Proof. unfold DataValida.valor2. rewrite !N.add_sub. reflexivity. Qed.

Lemma valor4_offset (a b c d : N) :
  DataValida.valor4 (a + 48) (b + 48) (c + 48) (d + 48)
  = 1000 * a + 100 * b + 10 * c + d.
Proof. unfold DataValida.valor4. rewrite !N.add_sub. reflexivity. Qed.

(** Keys of eight digits are ordered as the dates they write. *)
Lemma antes_ltb (k1 k2 : list N) :
  digitos_ascii k1 -> digitos_ascii k2 -> antes k1 k2 ->
  length k1 = 8%nat /\ length k2 = 8%nat /\ Str.ltb k1 k2 = true.
Proof.
  unfold digitos_ascii, antes. intros H1 H2 Hlt.
  destruct k1 as [|a [|b [|c [|d [|m1 [|m2 [|d1 [|d2 [|]]]]]]]]];
    try contradiction.
  destruct k2 as [|a' [|b' [|c' [|d' [|m1' [|m2' [|d1' [|d2' [|]]]]]]]]];
    try contradiction.
  split; [reflexivity|]. split; [reflexivity|].
  repeat (apply Forall_cons in H1 as [? H1]).
  repeat (apply Forall_cons in H2 as [? H2]).
  repeat match goal with
         | H : Builder.in_range 48 57 ?x = true |- _ =>
             apply digit_offset in H as (? & -> & ?)
         end.
  cbn zeta in Hlt. rewrite !valor4_offset, !valor2_offset in Hlt.
  cbn [Str.ltb].
  repeat (match goal with
          | |- context [?x <? ?y] => destruct (N.ltb_spec x y)
          end; cbv iota);
    try reflexivity; lia.
Qed.

End CronologiaFacts.

(** X16: the trips of a report stand in the order of their dates.  Of two
    records whose date keys are made of eight ASCII digits, the one whose
    key writes the earlier date (by year, then month, then day) stands
    before the other in the sorted list, whatever their times are. *)
Theorem ordem_cronologica (recibos : list recibo) (ra rb : recibo)
    (i j : nat) (k1 k2 : list N) :
  Builder.recibos_ordenados recibos !! i = Some ra ->
  Builder.recibos_ordenados recibos !! j = Some rb ->
  data_yyyymmdd ra = Some k1 -> data_yyyymmdd rb = Some k2 ->
  Cronologia.digitos_ascii k1 -> Cronologia.digitos_ascii k2 ->
  Cronologia.antes k1 k2 ->
  (i < j)%nat.
Proof.
  intros Hi Hj Ha Hb H1 H2 Hlt.
  destruct (CronologiaFacts.antes_ltb k1 k2 H1 H2 Hlt) as (L1 & L2 & Hk).
  apply (OrderFacts.sorted_before Builder._sort_key _ ra rb i j
           (OrderFacts.sorted_sorted _ _) Hi Hj).
  rewrite !SortKeyFacts.sort_key_parts.
  assert (SortKey.date_of ra = k1) as ->.
  { unfold SortKey.date_of. rewrite Ha. destruct k1; [discriminate|].
    reflexivity. }
  assert (SortKey.date_of rb = k2) as ->.
  { unfold SortKey.date_of. rewrite Hb. destruct k2; [discriminate|].
    reflexivity. }
  rewrite OrderFacts.ltb_pair by congruence. rewrite Hk. reflexivity.
Qed.

Lemma ordem_cronologica_witness :
  let recibos :=
    [SortKey.de (Some U"20240105") (Some U"08:00");
     SortKey.de (Some U"20231231") (Some U"23:59")] in
  Builder.recibos_ordenados recibos !! 0%nat
  = Some (SortKey.de (Some U"20231231") (Some U"23:59"))
  /\ Builder.recibos_ordenados recibos !! 1%nat
     = Some (SortKey.de (Some U"20240105") (Some U"08:00"))
  /\ (0 < 1)%nat.
Proof.
  intros recibos.
  assert (Builder.recibos_ordenados recibos !! 0%nat
          = Some (SortKey.de (Some U"20231231") (Some U"23:59"))) as Hi
    by (vm_compute; reflexivity).
  assert (Builder.recibos_ordenados recibos !! 1%nat
          = Some (SortKey.de (Some U"20240105") (Some U"08:00"))) as Hj
    by (vm_compute; reflexivity).
  split; [exact Hi|]. split; [exact Hj|].
  apply (ordem_cronologica recibos _ _ 0 1 U"20231231" U"20240105" Hi Hj);
    try reflexivity.
  - repeat constructor.
  - repeat constructor.
  - vm_compute. left. reflexivity.
Defined.
